(** * Cart / checkout core of the e-commerce backend: a shallow embedding

    The development follows the Python sources:
    - [app/models/product.py]   : [ProductVariant] (stock ledger)
    - [app/models/discount.py]  : [Coupon] (validation, discount)
    - [app/models/cart.py]      : [Cart], [CartItem]
    - [app/models/order.py]     : [Order], [OrderItem]
    - [app/services/cart_service.py] : [CartService]
    - [app/api/v1/orders.py], [app/api/v1/admin.py] : checkout, cancel,
      admin status update, refund.

    Modelling conventions.
    - [Decimal] amounts are exact rationals ([Q]). An amount that the
      code computes and writes to a [Numeric(10, 2)] column is rounded to
      two places by the write ([numeric_10_2]); prices, item totals and
      the sums and constants made of them have two places already and are
      written as they are. The [float(...)] conversions of the service
      layer move an amount by less than 10^-9 and are not modelled; they
      cannot change the rounding of an amount that is not within that
      distance of a tie ([tax_not_near_a_tie]).
    - [Cart] declares no [metadata] column: [cart.metadata] is the
      [MetaData] registry of the declarative base ([MetaData] below).
    - [order_metadata] is a plain [JSON] column, written at a commit only
      when the attribute was assigned ([Order.flush_metadata]).
    - Python integers are [Z]; UUIDs are [Z]; [datetime] values are [Z].
    - Python truthiness is written out ([None], [0], [Decimal('0')], the
      empty string and the empty dict are falsy).
    - The database is a record of tables; [db.session.commit()] checks the
      [CheckConstraint]s declared in the models, and a failed commit raises,
      which the handlers answer with [db.session.rollback()].
    - Formatted messages (f-strings) are values of small inductive types
      that carry the formatted fields.
    - Analytics events ([UserEvent]) are not part of the state. *)

From stdpp Require Import gmap strings list.
From Stdlib Require Import Ascii QArith Qround Qabs Qminmax Lqa.

Open Scope Z_scope.

Definition UUID := Z.

(** ** Python truthiness and comparisons on [Decimal] *)

Definition Qltb (x y : Q) : bool := negb (Qle_bool y x).

Definition truthy_Q (x : Q) : bool := negb (Qeq_bool x 0).
Definition truthy_Z (x : Z) : bool := negb (x =? 0).
Definition truthy_str (s : string) : bool :=
  match s with EmptyString => false | _ => true end.

Definition truthy_opt {A} (t : A -> bool) (o : option A) : bool :=
  match o with Some a => t a | None => false end.

Definition is_some {A} (o : option A) : bool :=
  match o with Some _ => true | None => false end.

(** ** [Numeric(10, 2)] columns *)

(** The value a [Numeric(10, 2)] column holds after [x] was written to it:
    [x] rounded to two places, the nearest multiple of 0.01 (a tie goes
    up). *)
Definition numeric_10_2 (x : Q) : Q := (Qfloor (x * 100 + (1 # 2)) # 100)%Q.

(** An amount with two places: a multiple of 0.01. *)
Definition two_places (x : Q) : Prop := exists z : Z, (x == z # 100)%Q.

(** ** [sqlalchemy.MetaData] *)

(** The registry of tables that [declarative_base()] gives to every model
    class as the attribute [metadata]. No model of the application declares
    a column of that name, so [cart.metadata] on a [Cart] is this object,
    the same for every cart. It is not [None] and it is truthy; [key in
    metadata] asks whether a table of that name is registered; it has no
    method [update] or [pop] and no subscript, so each of them raises. *)
Module MetaData.

Inductive t := registry.

(** The [__tablename__]s of the models. *)
Definition tables : list string :=
  ["carts"; "cart_items"; "categories"; "products"; "product_variants";
   "product_images"; "reviews"; "coupons"; "discount_rules";
   "coupon_usages"; "orders"; "order_items"; "wishlists"; "user_events";
   "product_metrics"; "cart_abandonments"; "users"; "addresses"]%string.

Definition is_none (m : t) : bool := false.

Definition truthy (m : t) : bool := true.

(** [key in m] *)
Definition contains (m : t) (key : string) : bool :=
  existsb (String.eqb key) tables.

(** [m.update(d)]; [None] is the [AttributeError]. *)
Definition update {A} (m : t) (d : A) : option t := None.

(** [m.pop(key, None)]; [None] is the [AttributeError]. *)
Definition pop (m : t) (key : string) : option t := None.

(** [m[key]]; [None] is the [TypeError]. *)
Definition getitem (m : t) (key : string) : option Q := None.

End MetaData.

(** ** Lists of rows: the first row that matches *)

(** [l.remove(x)] and [session.delete(x)] for the first row found by a
    test. *)
Fixpoint remove_first {A} (p : A -> bool) (l : list A) : list A :=
  match l with
  | [] => []
  | x :: r => if p x then r else x :: remove_first p r
  end.

(** Attribute assignment on the first row found by a test. *)
Fixpoint update_first {A} (p : A -> bool) (f : A -> A) (l : list A) : list A :=
  match l with
  | [] => []
  | x :: r => if p x then f x :: r else x :: update_first p f r
  end.

(** ** app/models/product.py *)

Module ProductVariant.

Record product := mk_product { p_name : string; p_sku : string }.

Record t := mk {
  id : UUID;
  sku : string;
  name : string;
  price : Q;
  stock : Z;
  low_stock_threshold : Z;
  is_active : bool;
  product_of : option product
}.

Definition set_stock (v : t) (s : Z) : t :=
  mk (id v) (sku v) (name v) (price v) s (low_stock_threshold v)
     (is_active v) (product_of v).

Definition is_low_stock (v : t) : bool := stock v <=? low_stock_threshold v.

Definition is_in_stock (v : t) : bool := stock v >? 0.

(** [reserve_stock]: returns the variant after the call and the boolean
    the method returns. *)
Definition reserve_stock (v : t) (quantity : Z) : t * bool :=
  if stock v >=? quantity
  then (set_stock v (stock v - quantity), true)
  else (v, false).

Definition release_stock (v : t) (quantity : Z) : t :=
  set_stock v (stock v + quantity).

(** [CheckConstraint('price >= 0')], [CheckConstraint('stock >= 0')]. *)
Definition check_constraints (v : t) : bool :=
  Qle_bool 0 (price v) && (stock v >=? 0).

End ProductVariant.

(** The inventory ledger: the [product_variants] table, with the two stock
    methods called on the row of a given id. *)
Module Ledger.

Inductive op :=
| Reserve (variant_id : UUID) (quantity : Z)
| Release (variant_id : UUID) (quantity : Z).

Definition reserve (variant_id : UUID) (quantity : Z)
    (m : gmap UUID ProductVariant.t) : gmap UUID ProductVariant.t * bool :=
  match m !! variant_id with
  | Some v =>
      let '(v', ok) := ProductVariant.reserve_stock v quantity in
      (<[variant_id := v']> m, ok)
  | None => (m, false)
  end.

Definition release (variant_id : UUID) (quantity : Z)
    (m : gmap UUID ProductVariant.t) : gmap UUID ProductVariant.t :=
  match m !! variant_id with
  | Some v => <[variant_id := ProductVariant.release_stock v quantity]> m
  | None => m
  end.

Definition step (m : gmap UUID ProductVariant.t) (o : op)
    : gmap UUID ProductVariant.t :=
  match o with
  | Reserve vid q => fst (reserve vid q m)
  | Release vid q => release vid q m
  end.

Definition run (ops : list op) (m : gmap UUID ProductVariant.t)
    : gmap UUID ProductVariant.t :=
  fold_left step ops m.

Definition stock_nonneg (m : gmap UUID ProductVariant.t) : Prop :=
  map_Forall (fun _ v => 0 <= ProductVariant.stock v) m.

(** A release hands back a number of units: its quantity is not negative. *)
Definition op_wf (o : op) : Prop :=
  match o with
  | Reserve _ _ => True
  | Release _ q => 0 <= q
  end.

End Ledger.

(** ** app/models/discount.py *)

Module Coupon.

Record usage := mk_usage { u_user_id : option UUID }.

Record t := mk {
  id : UUID;
  code : string;
  discount_type : string;
  discount_value : Q;
  minimum_amount : option Q;
  maximum_discount : option Q;
  usage_limit : option Z;
  usage_limit_per_user : Z;
  usage_count : Z;
  valid_from : option Z;
  valid_until : option Z;
  is_active : bool;
  usages : list usage
}.

(** The messages appended to [errors] by [is_valid]:
    - [NotActive]          "Coupon is not active"
    - [NotYetValid]        "Coupon is not yet valid"
    - [Expired]            "Coupon has expired"
    - [UsageLimitExceeded] "Coupon usage limit exceeded"
    - [MinimumAmount m]    f"Minimum order amount of ${m} required"
    - [PerUserLimit]       "You have already used this coupon the maximum
                            number of times" *)
Inductive error :=
| NotActive
| NotYetValid
| Expired
| UsageLimitExceeded
| MinimumAmount (m : Q)
| PerUserLimit.

Record validation := mk_validation { valid : bool; errors : list error }.

Definition append_if {A} (b : bool) (e : A) (l : list A) : list A :=
  if b then l ++ [e] else l.

Definition user_usage_count (c : t) (user_id : UUID) : Z :=
  Z.of_nat (length (filter (fun u => u_user_id u = Some user_id) (usages c))).

Definition is_valid (c : t) (now : Z) (cart_total : option Q)
    (user_id : option UUID) : validation :=
  let errors := [] in
  let errors := append_if (negb (is_active c)) NotActive errors in
  let errors :=
    append_if (match valid_from c with
               | Some f => now <? f | None => false end) NotYetValid errors in
  let errors :=
    append_if (match valid_until c with
               | Some u => now >? u | None => false end) Expired errors in
  let errors :=
    append_if (match usage_limit c with
               | Some l => truthy_Z l && (usage_count c >=? l)
               | None => false end) UsageLimitExceeded errors in
  let errors :=
    match minimum_amount c, cart_total with
    | Some m, Some total =>
        append_if (truthy_Q m && truthy_Q total && Qltb total m)
                  (MinimumAmount m) errors
    | _, _ => errors
    end in
  let errors :=
    match user_id with
    | Some uid =>
        append_if (truthy_Z (usage_limit_per_user c)
                   && (user_usage_count c uid >=? usage_limit_per_user c))
                  PerUserLimit errors
    | None => errors
    end in
  mk_validation (match errors with [] => true | _ => false end) errors.

Definition calculate_discount (c : t) (cart_total : Q) : Q :=
  let discount :=
    if (discount_type c =? "percentage")%string
    then (cart_total * (discount_value c / 100))%Q
    else if (discount_type c =? "fixed")%string
    then discount_value c
    else if (discount_type c =? "free_shipping")%string
    then 0.00%Q
    else 0.00%Q in
  let discount :=
    match maximum_discount c with
    | Some m => if truthy_Q m && Qltb m discount then m else discount
    | None => discount
    end in
  let discount :=
    if Qltb cart_total discount then cart_total else discount in
  discount.

Definition increment_usage (c : t) : t :=
  mk (id c) (code c) (discount_type c) (discount_value c) (minimum_amount c)
     (maximum_discount c) (usage_limit c) (usage_limit_per_user c)
     (usage_count c + 1) (valid_from c) (valid_until c) (is_active c)
     (usages c).

(** [get_status]: the value of [CouponStatus] that applies. *)
Definition get_status (c : t) (now : Z) : string :=
  if negb (is_active c) then "inactive"
  else if match valid_until c with
          | Some u => now >? u | None => false end
  then "expired"
  else if match usage_limit c with
          | Some l => truthy_Z l && (usage_count c >=? l)
          | None => false end
  then "exhausted"
  else "active".

End Coupon.

(** ** app/models/cart.py *)

Module CartItem.

Record t := mk {
  id : UUID;
  variant_id : UUID;
  quantity : Z;
  price : Q
}.

Definition get_total (i : t) : Q := (price i * inject_Z (quantity i))%Q.

Definition set_quantity (i : t) (q : Z) : t :=
  mk (id i) (variant_id i) q (price i).

Definition set_price (i : t) (p : Q) : t :=
  mk (id i) (variant_id i) (quantity i) p.

End CartItem.

Module Cart.

(** The columns of [carts], and the rows of [cart_items] of the cart. *)
Record t := mk {
  id : UUID;
  user_id : option UUID;
  session_id : option string;
  status : string;
  expires_at : option Z;
  items : list CartItem.t
}.

(** [cart.metadata]: the attribute of the class. *)
Definition metadata (c : t) : MetaData.t := MetaData.registry.

Definition set_items (c : t) (l : list CartItem.t) : t :=
  mk (id c) (user_id c) (session_id c) (status c) (expires_at c) l.

Definition set_status (c : t) (s : string) : t :=
  mk (id c) (user_id c) (session_id c) s (expires_at c) (items c).

Definition days (n : Z) : Z := n * 86400.

(** [extend_expiration(days=30)] *)
Definition extend_expiration (now : Z) (c : t) : t :=
  mk (id c) (user_id c) (session_id c) (status c) (Some (now + days 30))
     (items c).

Definition get_item_by_variant (c : t) (vid : UUID) : option CartItem.t :=
  List.find (fun i => CartItem.variant_id i =? vid) (items c).

(** [self.items.remove(item)] for the item found by variant id: the first
    line of that variant goes. *)
Definition remove_variant (vid : UUID) (l : list CartItem.t)
    : list CartItem.t :=
  remove_first (fun i => CartItem.variant_id i =? vid) l.

(** In-place update of the first line of a variant. *)
Definition update_variant (vid : UUID) (f : CartItem.t -> CartItem.t)
    (l : list CartItem.t) : list CartItem.t :=
  update_first (fun i => CartItem.variant_id i =? vid) f l.

(** A [CartItem] object that [add_item] has created and the session has
    not flushed: it has its [variant], [quantity] and [price]; its columns
    [id], [cart_id] and [variant_id] are [None] until the flush. *)
Record new_item := mk_new {
  n_variant : ProductVariant.t;
  n_quantity : Z;
  n_price : Q
}.

(** [add_item]: the rows of the cart after the call, and the new objects
    that [cart.items] holds after the rows. When the variant has a line,
    its quantity is raised and there is no new object. When it has none,
    the rows stay and the one new object is in [cart.items] twice: the
    constructor puts it there through the back-reference of [cart=self],
    and [self.items.append(new_item)] puts it there again. *)
Definition add_item (c : t) (variant : ProductVariant.t) (quantity : Z)
    : t * list new_item :=
  match get_item_by_variant c (ProductVariant.id variant) with
  | Some _ =>
      (set_items c
         (update_variant (ProductVariant.id variant)
            (fun i => CartItem.set_quantity i (CartItem.quantity i + quantity))
            (items c)),
       [])
  | None =>
      let new_item := mk_new variant quantity (ProductVariant.price variant) in
      (c, [new_item; new_item])
  end.

Definition remove_item (c : t) (vid : UUID) : t * bool :=
  match get_item_by_variant c vid with
  | Some _ => (set_items c (remove_variant vid (items c)), true)
  | None => (c, false)
  end.

Definition update_item_quantity (c : t) (vid : UUID) (quantity : Z)
    : t * bool :=
  match get_item_by_variant c vid with
  | Some _ =>
      if quantity <=? 0
      then (set_items c (remove_variant vid (items c)), true)
      else (set_items c
              (update_variant vid (fun i => CartItem.set_quantity i quantity)
                 (items c)), true)
  | None => (c, false)
  end.

Definition clear (c : t) : t := set_items c [].

Definition sumQ (l : list Q) : Q := fold_left Qplus l 0%Q.

Definition get_subtotal (c : t) : Q :=
  sumQ (map CartItem.get_total (items c)).

Definition get_total_quantity (c : t) : Z :=
  fold_left Z.add (map CartItem.quantity (items c)) 0.

Definition is_empty (c : t) : bool :=
  match items c with [] => true | _ => false end.

Definition mark_converted (c : t) : t := set_status c "converted".

(** The messages collected by [validate_items]:
    - [NoLongerAvailable n] f"Product '{n}' is no longer available"
    - [OutOfStock n]        f"Product '{n}' is out of stock"
    - [OnlyUnits s n q]     f"Only {s} units of '{n}' available, but {q}
                             requested" *)
Inductive item_error :=
| NoLongerAvailable (name : string)
| OutOfStock (name : string)
| OnlyUnits (stock : Z) (name : string) (requested : Z).

Record validation := mk_validation {
  valid : bool;
  errors : list item_error;
  updated_items : list CartItem.t
}.

(** One pass of the loop of [validate_items] over the remaining lines;
    the lines come back with their prices re-synced. [None]: a line has
    no variant row, and [item.variant.is_active] raises. *)
Fixpoint validate_loop (variants : gmap UUID ProductVariant.t)
    (l : list CartItem.t)
    : option (list item_error * list CartItem.t * list CartItem.t) :=
  match l with
  | [] => Some ([], [], [])
  | item :: r =>
      match variants !! CartItem.variant_id item with
      | None => None
      | Some v =>
          match validate_loop variants r with
          | None => None
          | Some (errs, upd, r') =>
              if negb (ProductVariant.is_active v)
              then Some (NoLongerAvailable (ProductVariant.name v) :: errs,
                         upd, item :: r')
              else if negb (ProductVariant.is_in_stock v)
              then Some (OutOfStock (ProductVariant.name v) :: errs,
                         upd, item :: r')
              else if ProductVariant.stock v <? CartItem.quantity item
              then Some (OnlyUnits (ProductVariant.stock v)
                           (ProductVariant.name v)
                           (CartItem.quantity item) :: errs,
                         upd, item :: r')
              else if negb (Qeq_bool (CartItem.price item)
                              (ProductVariant.price v))
              then let item' :=
                     CartItem.set_price item (ProductVariant.price v) in
                   Some (errs, item' :: upd, item' :: r')
              else Some (errs, upd, item :: r')
          end
      end
  end.

Definition validate_items (variants : gmap UUID ProductVariant.t) (c : t)
    : option (validation * t) :=
  match validate_loop variants (items c) with
  | None => None
  | Some (errs, upd, l') =>
      Some (mk_validation (match errs with [] => true | _ => false end)
              errs upd,
            set_items c l')
  end.

End Cart.

(** ** app/models/order.py *)

Module OrderItem.

Record t := mk {
  variant_id : UUID;
  quantity : Z;
  price : Q;
  total : Q;
  product_name : string;
  product_sku : string;
  variant_name : string;
  variant_sku : string
}.

(** [CheckConstraint('quantity > 0')], [CheckConstraint('price >= 0')]. *)
Definition check_constraints (i : t) : bool :=
  (quantity i >? 0) && Qle_bool 0 (price i).

End OrderItem.

Module Order.

Record address_snapshot := mk_snapshot {
  line1 : string;
  line2 : option string;
  city : string;
  state : string;
  postal_code : string;
  country : string
}.

(** The keys written to [order_metadata]. *)
Record meta := mk_meta {
  cancellation_reason : option string;
  cancelled_at : option Z;
  refund : option (Q * string * Z);
  admin_notes : option string
}.

Definition meta_empty : meta := mk_meta None None None None.

(** Truthiness of the dictionary: it has a key. *)
Definition truthy_meta (m : meta) : bool :=
  is_some (cancellation_reason m) || is_some (cancelled_at m)
  || is_some (refund m) || is_some (admin_notes m).

Record t := mk {
  id : UUID;
  user_id : option UUID;
  status : string;
  payment_status : string;
  subtotal : Q;
  tax_amount : Q;
  shipping_amount : Q;
  discount_amount : Q;
  total : Q;
  shipping_address : option address_snapshot;
  billing_address : option address_snapshot;
  notes : option string;
  order_metadata : meta;
  shipping_carrier : option string;
  tracking_number : option string;
  shipped_at : option Z;
  delivered_at : option Z;
  payment_method : option string;
  items : list OrderItem.t
}.

Definition set_status (o : t) (s : string) : t :=
  mk (id o) (user_id o) s (payment_status o) (subtotal o) (tax_amount o)
     (shipping_amount o) (discount_amount o) (total o) (shipping_address o)
     (billing_address o) (notes o) (order_metadata o) (shipping_carrier o)
     (tracking_number o) (shipped_at o) (delivered_at o) (payment_method o)
     (items o).

Definition set_payment_status (o : t) (s : string) : t :=
  mk (id o) (user_id o) (status o) s (subtotal o) (tax_amount o)
     (shipping_amount o) (discount_amount o) (total o) (shipping_address o)
     (billing_address o) (notes o) (order_metadata o) (shipping_carrier o)
     (tracking_number o) (shipped_at o) (delivered_at o) (payment_method o)
     (items o).

Definition set_items (o : t) (l : list OrderItem.t) : t :=
  mk (id o) (user_id o) (status o) (payment_status o) (subtotal o)
     (tax_amount o) (shipping_amount o) (discount_amount o) (total o)
     (shipping_address o) (billing_address o) (notes o) (order_metadata o)
     (shipping_carrier o) (tracking_number o) (shipped_at o) (delivered_at o)
     (payment_method o) l.

Definition set_order_metadata (o : t) (m : meta) : t :=
  mk (id o) (user_id o) (status o) (payment_status o) (subtotal o)
     (tax_amount o) (shipping_amount o) (discount_amount o) (total o)
     (shipping_address o) (billing_address o) (notes o) m
     (shipping_carrier o) (tracking_number o) (shipped_at o) (delivered_at o)
     (payment_method o) (items o).

Definition set_shipping_carrier (o : t) (c : option string) : t :=
  mk (id o) (user_id o) (status o) (payment_status o) (subtotal o)
     (tax_amount o) (shipping_amount o) (discount_amount o) (total o)
     (shipping_address o) (billing_address o) (notes o) (order_metadata o)
     c (tracking_number o) (shipped_at o) (delivered_at o)
     (payment_method o) (items o).

Definition set_tracking_number (o : t) (n : option string) : t :=
  mk (id o) (user_id o) (status o) (payment_status o) (subtotal o)
     (tax_amount o) (shipping_amount o) (discount_amount o) (total o)
     (shipping_address o) (billing_address o) (notes o) (order_metadata o)
     (shipping_carrier o) n (shipped_at o) (delivered_at o)
     (payment_method o) (items o).

Definition set_shipped_at (o : t) (d : option Z) : t :=
  mk (id o) (user_id o) (status o) (payment_status o) (subtotal o)
     (tax_amount o) (shipping_amount o) (discount_amount o) (total o)
     (shipping_address o) (billing_address o) (notes o) (order_metadata o)
     (shipping_carrier o) (tracking_number o) d (delivered_at o)
     (payment_method o) (items o).

Definition set_delivered_at (o : t) (d : option Z) : t :=
  mk (id o) (user_id o) (status o) (payment_status o) (subtotal o)
     (tax_amount o) (shipping_amount o) (discount_amount o) (total o)
     (shipping_address o) (billing_address o) (notes o) (order_metadata o)
     (shipping_carrier o) (tracking_number o) (shipped_at o) d
     (payment_method o) (items o).

Definition str_in (s : string) (l : list string) : bool :=
  existsb (String.eqb s) l.

Definition can_be_cancelled (o : t) : bool :=
  str_in (status o) ["pending"; "confirmed"]%string.

Definition can_be_refunded (o : t) : bool :=
  str_in (status o) ["delivered"; "shipped"]%string
  && (payment_status o =? "captured")%string.

(** [cancel_order(reason)]; [None] is the [ValueError]. *)
Definition cancel_order (now : Z) (o : t) (reason : string) : option t :=
  if negb (can_be_cancelled o) then None
  else
    let o := set_status o "cancelled" in
    if truthy_str reason
    then Some (set_order_metadata o
                 (mk_meta (Some reason) (Some now)
                    (refund (order_metadata o))
                    (admin_notes (order_metadata o))))
    else Some o.

(** The row that a commit writes for the order object [o] that was loaded
    as the row [old] and whose [order_metadata] was changed the way the
    code does it: [if not order.order_metadata: order.order_metadata = {}],
    then keys are put into the dictionary. The column is a plain [JSON]
    column, so only the assignment marks it as changed: a dictionary that
    had a key already is written back as it was loaded. *)
Definition flush_metadata (old o : t) : t :=
  if truthy_meta (order_metadata old)
  then set_order_metadata o (order_metadata old)
  else o.

(** [CheckConstraint('total >= 0', name='check_positive_total')] *)
Definition check_constraints (o : t) : bool := Qle_bool 0 (total o).

(** [Order.calculate_totals]: the totals recomputed from the items, with
    the order's own rate and shipping rule. *)
Definition calculate_totals (o : t) : t :=
  let subtotal := fold_left Qplus (map OrderItem.total (items o)) 0%Q in
  let tax_rate := 0.08%Q in
  let tax_amount := (subtotal * tax_rate)%Q in
  let shipping_amount := if Qltb 50 subtotal then 0.00%Q else 9.99%Q in
  mk (id o) (user_id o) (status o) (payment_status o) subtotal tax_amount
     shipping_amount (discount_amount o)
     (subtotal + tax_amount + shipping_amount - discount_amount o)%Q
     (shipping_address o) (billing_address o) (notes o) (order_metadata o)
     (shipping_carrier o) (tracking_number o) (shipped_at o) (delivered_at o)
     (payment_method o) (items o).

End Order.

(** ** The database *)

Module Address.

Record t := mk {
  id : UUID;
  user_id : UUID;
  line1 : string;
  line2 : option string;
  city : string;
  state : string;
  postal_code : string;
  country : string
}.

Definition snapshot (a : t) : Order.address_snapshot :=
  Order.mk_snapshot (line1 a) (line2 a) (city a) (state a) (postal_code a)
    (country a).

End Address.

Record DB := mkDB {
  variants : gmap UUID ProductVariant.t;
  carts : list Cart.t;
  orders : list Order.t;
  coupons : list Coupon.t;
  addresses : list Address.t;
  next_uuid : UUID
}.

Definition set_variants (db : DB) (m : gmap UUID ProductVariant.t) : DB :=
  mkDB m (carts db) (orders db) (coupons db) (addresses db) (next_uuid db).

Definition set_carts (db : DB) (l : list Cart.t) : DB :=
  mkDB (variants db) l (orders db) (coupons db) (addresses db) (next_uuid db).

Definition set_orders (db : DB) (l : list Order.t) : DB :=
  mkDB (variants db) (carts db) l (coupons db) (addresses db) (next_uuid db).

(** A row that is inserted takes the next id. *)
Definition take_uuid (db : DB) : DB :=
  mkDB (variants db) (carts db) (orders db) (coupons db) (addresses db)
       (next_uuid db + 1).

(** [item.variant.stock += item.quantity] for every item that still has a
    variant row. *)
Definition restore_stock (m : gmap UUID ProductVariant.t)
    (l : list OrderItem.t) : gmap UUID ProductVariant.t :=
  fold_left
    (fun m item =>
       match m !! OrderItem.variant_id item with
       | Some v =>
           <[OrderItem.variant_id item :=
               ProductVariant.set_stock v
                 (ProductVariant.stock v + OrderItem.quantity item)]> m
       | None => m
       end) l m.

(** The variant rows of the given ids satisfy their check constraints. *)
Definition variants_check (m : gmap UUID ProductVariant.t) (ids : list UUID)
    : bool :=
  forallb (fun vid => match m !! vid with
                      | Some v => ProductVariant.check_constraints v
                      | None => true
                      end) ids.

(** ** app/services/cart_service.py *)

Module CartService.

(** The ['error'] of a result:
    - [VariantUnavailable]   'Product variant not found or unavailable'
    - [OnlyUnitsInStock n]   f'Only {n} units available in stock'
    - [UnableToCreateCart]   'Unable to create cart'
    - [CartNotFound]         'Cart not found'
    - [CartItemNotFound]     'Cart item not found'
    - [OnlyUnitsAvailable n] f'Only {n} units available'
    - [InvalidCouponCode]    'Invalid coupon code'
    - [CouponErrors l]       ', '.join(validation['errors'])
    - [Failed what]          the message of an [except] branch *)
Inductive error :=
| VariantUnavailable
| OnlyUnitsInStock (n : Z)
| UnableToCreateCart
| CartNotFound
| CartItemNotFound
| OnlyUnitsAvailable (n : Z)
| InvalidCouponCode
| CouponErrors (l : list Coupon.error)
| Failed (what : string).

Record discount_info := mk_discount {
  d_code : string; d_amount : Q; d_type : string
}.

Inductive result :=
| Success (cart : Cart.t) (discount : option discount_info)
| Failure (e : error).

Definition is_active_of_user (uid : UUID) (c : Cart.t) : Prop :=
  Cart.user_id c = Some uid /\ Cart.status c = "active"%string.

Definition is_active_of_session (sid : string) (c : Cart.t) : Prop :=
  Cart.session_id c = Some sid /\ Cart.status c = "active"%string.

(** [find_one_by(filters)]: the first row and its position. *)
Definition find_cart (user_id : option UUID) (session_id : option string)
    (l : list Cart.t) : option (option (nat * Cart.t)) :=
  match user_id with
  | Some uid => Some (list_find (is_active_of_user uid) l)
  | None =>
      match session_id with
      | Some sid =>
          if truthy_str sid
          then Some (list_find (is_active_of_session sid) l)
          else None
      | None => None
      end
  end.

(** The cart that is returned, with its position in the table. *)
Definition get_or_create_cart (now : Z) (db : DB) (user_id : option UUID)
    (session_id : option string) : DB * option (nat * Cart.t) :=
  match find_cart user_id session_id (carts db) with
  | None => (db, None)
  | Some (Some ic) => (db, Some ic)
  | Some None =>
      let cart :=
        Cart.mk (next_uuid db) user_id session_id "active"
          (Some (now + Cart.days 30)) [] in
      (set_carts (take_uuid db) (carts db ++ [cart]),
       Some (length (carts db), cart))
  end.

(** The cart at position [i] is written back on commit. *)
Definition store_cart (db : DB) (i : nat) (c : Cart.t) : DB :=
  set_carts db (<[i := c]> (carts db)).

Definition add_to_cart (now : Z) (db : DB) (user_id : option UUID)
    (session_id : option string) (variant_id : UUID) (quantity : Z)
    : DB * result :=
  match variants db !! variant_id with
  | None => (db, Failure VariantUnavailable)
  | Some variant =>
      if negb (ProductVariant.is_active variant)
      then (db, Failure VariantUnavailable)
      else if negb (ProductVariant.is_in_stock variant)
              || (ProductVariant.stock variant <? quantity)
      then (db, Failure (OnlyUnitsInStock (ProductVariant.stock variant)))
      else
        let '(db1, r) := get_or_create_cart now db user_id session_id in
        match r with
        | None => (db1, Failure UnableToCreateCart)
        | Some (i, cart) =>
            let same := fun item => CartItem.variant_id item =? variant_id in
            match List.find same (Cart.items cart) with
            | Some existing_item =>
                let new_quantity := CartItem.quantity existing_item + quantity in
                if ProductVariant.stock variant <? new_quantity
                then (db1, Failure (OnlyUnitsInStock
                                      (ProductVariant.stock variant)))
                else
                  let cart' :=
                    Cart.extend_expiration now
                      (Cart.set_items cart
                         (update_first same
                            (fun item =>
                               CartItem.set_price
                                 (CartItem.set_quantity item new_quantity)
                                 (ProductVariant.price variant))
                            (Cart.items cart))) in
                  (store_cart db1 i cart', Success cart' None)
            | None =>
                let cart_item :=
                  CartItem.mk (next_uuid db1) variant_id quantity
                    (ProductVariant.price variant) in
                let cart' :=
                  Cart.extend_expiration now
                    (Cart.set_items cart (Cart.items cart ++ [cart_item])) in
                (store_cart (take_uuid db1) i cart', Success cart' None)
            end
        end
  end.

Definition update_cart_item (now : Z) (db : DB) (user_id : option UUID)
    (session_id : option string) (item_id : UUID) (quantity : Z)
    : DB * result :=
  let '(db1, r) := get_or_create_cart now db user_id session_id in
  match r with
  | None => (db1, Failure CartNotFound)
  | Some (i, cart) =>
      let this := fun item => CartItem.id item =? item_id in
      match List.find this (Cart.items cart) with
      | None => (db1, Failure CartItemNotFound)
      | Some cart_item =>
          if quantity =? 0
          then
            let cart' :=
              Cart.extend_expiration now
                (Cart.set_items cart (remove_first this (Cart.items cart))) in
            (store_cart db1 i cart', Success cart' None)
          else
            match variants db1 !! CartItem.variant_id cart_item with
            | None => (db1, Failure (Failed "Failed to update cart item"))
            | Some variant =>
                if ProductVariant.stock variant <? quantity
                then (db1, Failure (OnlyUnitsAvailable
                                      (ProductVariant.stock variant)))
                else
                  let cart' :=
                    Cart.extend_expiration now
                      (Cart.set_items cart
                         (update_first this
                            (fun item =>
                               CartItem.set_price
                                 (CartItem.set_quantity item quantity)
                                 (ProductVariant.price variant))
                            (Cart.items cart))) in
                  (store_cart db1 i cart', Success cart' None)
            end
      end
  end.

Definition remove_from_cart (now : Z) (db : DB) (user_id : option UUID)
    (session_id : option string) (item_id : UUID) : DB * result :=
  update_cart_item now db user_id session_id item_id 0.

Definition clear_cart (now : Z) (db : DB) (user_id : option UUID)
    (session_id : option string) : DB * result :=
  let '(db1, r) := get_or_create_cart now db user_id session_id in
  match r with
  | None => (db1, Failure CartNotFound)
  | Some (i, cart) =>
      let cart' := Cart.set_items cart [] in
      (store_cart db1 i cart', Success cart' None)
  end.

(** [str.upper()] on ASCII letters. *)
Definition upper_ascii (a : ascii) : ascii :=
  let n := nat_of_ascii a in
  if ((97 <=? n) && (n <=? 122))%nat then ascii_of_nat (n - 32) else a.

Fixpoint upper (s : string) : string :=
  match s with
  | EmptyString => EmptyString
  | String a r => String (upper_ascii a) (upper r)
  end.

Definition find_coupon (code : string) (l : list Coupon.t)
    : option Coupon.t :=
  List.find (fun c => (Coupon.code c =? code)%string) l.

Definition apply_coupon (now : Z) (db : DB) (user_id : option UUID)
    (session_id : option string) (coupon_code : string) : DB * result :=
  let '(db1, r) := get_or_create_cart now db user_id session_id in
  match r with
  | None => (db1, Failure CartNotFound)
  | Some (i, cart) =>
      match find_coupon (upper coupon_code) (coupons db1) with
      | None => (db1, Failure InvalidCouponCode)
      | Some coupon =>
          let cart_total := Cart.get_subtotal cart in
          let validation :=
            Coupon.is_valid coupon now (Some cart_total) user_id in
          if negb (Coupon.valid validation)
          then (db1, Failure (CouponErrors (Coupon.errors validation)))
          else
            let discount_amount :=
              Coupon.calculate_discount coupon cart_total in
            (* [hasattr(cart, 'metadata')] holds and [cart.metadata] is
               not [None]: nothing is assigned. *)
            match MetaData.update (Cart.metadata cart)
                    (upper coupon_code, Coupon.id coupon, discount_amount)
            with
            | None => (db1, Failure (Failed "Failed to apply coupon"))
            | Some _ =>
                (db1,
                 Success cart
                   (Some (mk_discount (upper coupon_code) discount_amount
                            (Coupon.discount_type coupon))))
            end
      end
  end.

Definition remove_coupon (now : Z) (db : DB) (user_id : option UUID)
    (session_id : option string) : DB * result :=
  let '(db1, r) := get_or_create_cart now db user_id session_id in
  match r with
  | None => (db1, Failure CartNotFound)
  | Some (i, cart) =>
      if MetaData.truthy (Cart.metadata cart)
      then
        match MetaData.pop (Cart.metadata cart) "coupon_code" with
        | None => (db1, Failure (Failed "Failed to remove coupon"))
        | Some m =>
            match MetaData.pop m "coupon_id" with
            | None => (db1, Failure (Failed "Failed to remove coupon"))
            | Some m =>
                match MetaData.pop m "discount_amount" with
                | None => (db1, Failure (Failed "Failed to remove coupon"))
                | Some _ => (db1, Success cart None)
                end
            end
        end
      else (db1, Success cart None)
  end.

(** ['errors'] of [validate_cart]: ['Cart not found'] or the messages of
    [validate_items]. *)
Record cart_validation := mk_cart_validation {
  cv_valid : bool;
  cv_cart_found : bool;
  cv_errors : list Cart.item_error;
  cv_warnings : list CartItem.t
}.

(** [None]: [validate_items] raised; nothing was committed. *)
Definition validate_cart (now : Z) (db : DB) (user_id : option UUID)
    (session_id : option string) : option (DB * cart_validation) :=
  let '(db1, r) := get_or_create_cart now db user_id session_id in
  match r with
  | None => Some (db1, mk_cart_validation false false [] [])
  | Some (i, cart) =>
      match Cart.validate_items (variants db1) cart with
      | None => None
      | Some (v, cart') =>
          let db2 :=
            match Cart.updated_items v with
            | [] => db1
            | _ => store_cart db1 i cart'
            end in
          Some (db2, mk_cart_validation (Cart.valid v) true (Cart.errors v)
                       (Cart.updated_items v))
      end
  end.

Record totals := mk_totals {
  t_subtotal : Q;
  t_tax : Q;
  t_shipping : Q;
  t_discount : Q;
  t_total : Q;
  t_items_count : option Z
}.

Definition _calculate_shipping (cart : Cart.t)
    (shipping_address_id : option UUID) : Q :=
  let subtotal := Cart.get_subtotal cart in
  if Qle_bool 50.00 subtotal then 0.00%Q else 9.99%Q.

(** The discount that [calculate_totals] takes: [Decimal('0.00')], or the
    ['discount_amount'] read from [cart.metadata] when the registry has
    that key. [None]: the subscript raises. *)
Definition stored_discount (cart : Cart.t) : option Q :=
  let m := Cart.metadata cart in
  if MetaData.truthy m && MetaData.contains m "discount_amount"
  then MetaData.getitem m "discount_amount"
  else Some 0.00%Q.

(** The totals of a cart that was found. [None]: an exception, answered
    with 'Failed to calculate totals'. *)
Definition cart_totals (cart : Cart.t) (shipping_address_id : option UUID)
    : option totals :=
  if Cart.is_empty cart
  then Some (mk_totals 0 0 0 0 0 None)
  else
    let subtotal := Cart.get_subtotal cart in
    match stored_discount cart with
    | None => None
    | Some discount =>
        let tax_rate := 0.08%Q in
        let tax := ((subtotal - discount) * tax_rate)%Q in
        let shipping := _calculate_shipping cart shipping_address_id in
        let total := (subtotal + tax + shipping - discount)%Q in
        Some (mk_totals subtotal tax shipping discount total
                (Some (Cart.get_total_quantity cart)))
    end.

(** [None] is [{'success': False, ...}], with 'Cart not found' or 'Failed
    to calculate totals'. *)
Definition calculate_totals (now : Z) (db : DB) (user_id : option UUID)
    (session_id : option string) (shipping_address_id : option UUID)
    : DB * option totals :=
  let '(db1, r) := get_or_create_cart now db user_id session_id in
  match r with
  | None => (db1, None)
  | Some (_, cart) => (db1, cart_totals cart shipping_address_id)
  end.

End CartService.

(** ** app/api/v1/orders.py *)

Module OrdersApi.

Record checkout := mk_checkout {
  shipping_address_id : option UUID;
  billing_address_id : option UUID;
  payment_method : option string;
  notes : option string
}.

(** A response: the created order with status 201, or
    [{'error': msg, 'details': details}] with its status code. *)
Inductive response :=
| Created (o : Order.t)
| Error (code : Z) (msg : string) (details : list Cart.item_error).

Definition find_address (id user_id : UUID) (l : list Address.t)
    : option Address.t :=
  List.find (fun a => (Address.id a =? id) && (Address.user_id a =? user_id)) l.

Definition order_item_of (cart_item : CartItem.t) (v : ProductVariant.t)
    : OrderItem.t :=
  OrderItem.mk (CartItem.variant_id cart_item) (CartItem.quantity cart_item)
    (CartItem.price cart_item)
    (CartItem.price cart_item * inject_Z (CartItem.quantity cart_item))%Q
    (match ProductVariant.product_of v with
     | Some p => ProductVariant.p_name p | None => EmptyString end)
    (match ProductVariant.product_of v with
     | Some p => ProductVariant.p_sku p | None => EmptyString end)
    (ProductVariant.name v) (ProductVariant.sku v).

(** The loop over [cart.items]: an order item per line, and
    [cart_item.variant.stock -= cart_item.quantity]. [None]: a line has
    no variant row and the attribute access raises. *)
Fixpoint order_items_loop (m : gmap UUID ProductVariant.t)
    (l : list CartItem.t)
    : option (list OrderItem.t * gmap UUID ProductVariant.t) :=
  match l with
  | [] => Some ([], m)
  | cart_item :: r =>
      match m !! CartItem.variant_id cart_item with
      | None => None
      | Some v =>
          let m' :=
            <[CartItem.variant_id cart_item :=
                ProductVariant.set_stock v
                  (ProductVariant.stock v - CartItem.quantity cart_item)]> m in
          match order_items_loop m' r with
          | None => None
          | Some (ois, m'') => Some (order_item_of cart_item v :: ois, m'')
          end
      end
  end.

(** The rows written by the checkout transaction pass their check
    constraints. *)
Definition commit_ok (order : Order.t) (m : gmap UUID ProductVariant.t)
    (l : list CartItem.t) : bool :=
  Order.check_constraints order
  && forallb OrderItem.check_constraints (Order.items order)
  && variants_check m (map CartItem.variant_id l).

(** The inner [try] block of [OrderList.post]: the checkout transaction
    on the cart at position [i]. Every exception is answered by
    [db.session.rollback()] and 'Failed to create order'. The five amounts
    go to [Numeric(10, 2)] columns: the tax and the total, which the
    service computed with a rate, are rounded by the write; the subtotal,
    the shipping amount and the discount have two places. *)
Definition create_order (now : Z) (db : DB) (user_id : UUID)
    (data : checkout) (payment : string)
    (shipping_address billing_address : Address.t)
    (i : nat) (cart : Cart.t) : DB * response :=
  let '(db_t, totals_result) :=
    CartService.calculate_totals now db (Some user_id) None
      (shipping_address_id data) in
  match totals_result with
  | None => (db_t, Error 500 "Failed to calculate totals" [])
  | Some totals =>
      let order :=
        Order.mk (next_uuid db_t) (Some user_id) "pending" "pending"
          (CartService.t_subtotal totals)
          (numeric_10_2 (CartService.t_tax totals))
          (CartService.t_shipping totals) (CartService.t_discount totals)
          (numeric_10_2 (CartService.t_total totals))
          (Some (Address.snapshot shipping_address))
          (Some (Address.snapshot billing_address))
          (notes data) Order.meta_empty None None None None
          (Some payment) [] in
      if negb (Order.check_constraints order)
      then (db_t, Error 500 "Failed to create order" [])
      else
        match order_items_loop (variants db_t) (Cart.items cart) with
        | None => (db_t, Error 500 "Failed to create order" [])
        | Some (order_items, variants') =>
            let order := Order.set_items order order_items in
            let cart' := Cart.set_status cart "converted" in
            let order :=
              if Order.str_in payment ["credit_card"; "paypal"]%string
              then Order.set_status
                     (Order.set_payment_status order "captured") "confirmed"
              else order in
            if commit_ok order variants' (Cart.items cart)
            then
              (mkDB variants' (<[i := cart']> (carts db_t))
                 (orders db_t ++ [order]) (coupons db_t) (addresses db_t)
                 (next_uuid db_t + 1),
               Created order)
            else (db_t, Error 500 "Failed to create order" [])
        end
  end.

(** What the transaction runs with once the checks before it passed:
    the request, the two addresses, and the cart with its position. *)
Record txn_input := mk_txn {
  in_data : checkout;
  in_payment : string;
  in_shipping : Address.t;
  in_billing : Address.t;
  in_pos : nat;
  in_cart : Cart.t
}.

(** [OrderList.post] up to the inner [try]: required fields, cart lookup
    and empty check, cart validation, address lookup. The cart object is
    the one of the session, so it carries the prices that
    [validate_items] re-synced. *)
Definition preconditions (now : Z) (db : DB) (user_id : UUID)
    (data : option checkout) : DB * (response + txn_input) :=
  match data with
  | None => (db, inl (Error 400 "Request body required" []))
  | Some data =>
      match shipping_address_id data, billing_address_id data,
            payment_method data with
      | None, _, _ => (db, inl (Error 400 "shipping_address_id is required" []))
      | _, None, _ => (db, inl (Error 400 "billing_address_id is required" []))
      | Some sid, Some bid, payment =>
          if negb (truthy_opt truthy_str payment)
          then (db, inl (Error 400 "payment_method is required" []))
          else
            let '(db1, r) :=
              CartService.get_or_create_cart now db (Some user_id) None in
            match r with
            | None => (db1, inl (Error 400 "Cart is empty" []))
            | Some (i, cart) =>
                if Cart.is_empty cart
                then (db1, inl (Error 400 "Cart is empty" []))
                else
                  match CartService.validate_cart now db1 (Some user_id) None
                  with
                  | None =>
                      (db1, inl (Error 500 "Failed to process checkout" []))
                  | Some (db2, validation_result) =>
                      if negb (CartService.cv_valid validation_result)
                      then (db2,
                            inl (Error 400 "Cart validation failed"
                                   (CartService.cv_errors validation_result)))
                      else
                        match find_address sid user_id (addresses db2),
                              find_address bid user_id (addresses db2) with
                        | Some sa, Some ba =>
                            (db2,
                             inr (mk_txn data (default EmptyString payment) sa ba i
                                    (default cart (carts db2 !! i))))
                        | _, _ => (db2, inl (Error 400 "Invalid address" []))
                        end
                  end
            end
      end
  end.

(** [OrderList.post] for the authenticated user [user_id]. *)
Definition post (now : Z) (db : DB) (user_id : UUID)
    (data : option checkout) : DB * response :=
  match preconditions now db user_id data with
  | (db2, inl r) => (db2, r)
  | (db2, inr t) =>
      create_order now db2 user_id (in_data t) (in_payment t)
        (in_shipping t) (in_billing t) (in_pos t) (in_cart t)
  end.

Inductive reply := Reply (code : Z) (msg : string).

Definition find_order (p : Order.t -> bool) (l : list Order.t)
    : option (nat * Order.t) :=
  list_find (fun o => p o = true) l.

(** [CancelOrder.post]; [reason] is the ['reason'] of the request body,
    when there is one. *)
Definition cancel (now : Z) (db : DB) (user_id order_id : UUID)
    (reason : option string) : DB * reply :=
  match find_order (fun o => (Order.id o =? order_id)
                             && bool_decide (Order.user_id o = Some user_id))
          (orders db) with
  | None => (db, Reply 404 "Order not found")
  | Some (i, order) =>
      if negb (Order.can_be_cancelled order)
      then (db, Reply 400 "Order cannot be cancelled")
      else
        let reason :=
          match reason with
          | Some r => r
          | None => "Customer requested cancellation"%string
          end in
        match Order.cancel_order now order reason with
        | None => (db, Reply 500 "Failed to cancel order")
        | Some order' =>
            let order' := Order.flush_metadata order order' in
            let variants' := restore_stock (variants db) (Order.items order) in
            if variants_check variants'
                 (map OrderItem.variant_id (Order.items order))
            then (mkDB variants' (carts db) (<[i := order']> (orders db))
                    (coupons db) (addresses db) (next_uuid db),
                  Reply 200 "Order cancelled successfully")
            else (db, Reply 500 "Failed to cancel order")
        end
  end.

(** Pagination of [OrderList.get]: the test of the parameters, the offset
    of a page and the number of pages, [(total + limit - 1) // limit]. *)
Definition valid_pagination (page limit : Z) : bool :=
  negb ((page <? 1) || (limit <? 1) || (limit >? 100)).

Definition page_offset (page limit : Z) : Z := (page - 1) * limit.

Definition pages (total limit : Z) : Z := (total + limit - 1) / limit.

(** The rows of a page: [query.offset(offset).limit(limit).all()] on the
    rows [l] that the ordered query selects. *)
Definition page_rows {A} (l : list A) (page limit : Z) : list A :=
  take (Z.to_nat limit) (drop (Z.to_nat (page_offset page limit)) l).

End OrdersApi.

(** ** app/api/v1/admin.py *)

Module AdminApi.

Record order_update := mk_update {
  u_status : option string;
  u_tracking_number : option string;
  u_shipping_carrier : option string;
  u_notes : option string
}.

Inductive response :=
| Updated (o : Order.t)
| Refunded (amount : Q) (order_status : string)
| Error (code : Z) (msg : string).

Definition valid_statuses : list string :=
  ["pending"; "confirmed"; "processing"; "shipped"; "delivered";
   "cancelled"; "refunded"]%string.

(** The request body is a non-empty dictionary. *)
Definition truthy_update (d : order_update) : bool :=
  is_some (u_status d) || is_some (u_tracking_number d)
  || is_some (u_shipping_carrier d) || is_some (u_notes d).

Definition set_if_present {A} (v : option A) (old : option A) : option A :=
  match v with Some _ => v | None => old end.

(** The ['status' in data] block of [AdminOrder.put], once the new status
    is known to be one of [valid_statuses]: the order, the variants, and
    the ids of the variant rows that were written. *)
Definition apply_status (now : Z) (data : order_update) (new_status : string)
    (order : Order.t) (m : gmap UUID ProductVariant.t)
    : Order.t * gmap UUID ProductVariant.t * list UUID :=
  let old_status := Order.status order in
  let order := Order.set_status order new_status in
  if (new_status =? "shipped")%string
     && negb (old_status =? "shipped")%string
  then
    let order := Order.set_shipped_at order (Some now) in
    let order :=
      Order.set_tracking_number order
        (set_if_present (u_tracking_number data)
           (Order.tracking_number order)) in
    let order :=
      Order.set_shipping_carrier order
        (set_if_present (u_shipping_carrier data)
           (Order.shipping_carrier order)) in
    (order, m, [])
  else if (new_status =? "delivered")%string
          && negb (old_status =? "delivered")%string
  then (Order.set_delivered_at order (Some now), m, [])
  else if (new_status =? "cancelled")%string
  then (order, restore_stock m (Order.items order),
        map OrderItem.variant_id (Order.items order))
  else (order, m, []).

(** [AdminOrder.put] *)
Definition put (now : Z) (db : DB) (is_admin : bool) (order_id : UUID)
    (data : option order_update) : DB * response :=
  if negb is_admin then (db, Error 403 "Admin access required")
  else
    match OrdersApi.find_order (fun o => Order.id o =? order_id)
            (orders db) with
    | None => (db, Error 404 "Order not found")
    | Some (i, order) =>
        match data with
        | None => (db, Error 400 "Request body required")
        | Some data =>
            if negb (truthy_update data)
            then (db, Error 400 "Request body required")
            else
              let status_step :=
                match u_status data with
                | Some new_status =>
                    if negb (Order.str_in new_status valid_statuses)
                    then None
                    else Some (apply_status now data new_status order
                                 (variants db))
                | None => Some (order, variants db, [])
                end in
              match status_step with
              | None => (db, Error 400 "Invalid order status")
              | Some (order, variants', written) =>
                  let order :=
                    Order.set_tracking_number order
                      (set_if_present (u_tracking_number data)
                         (Order.tracking_number order)) in
                  let order :=
                    Order.set_shipping_carrier order
                      (set_if_present (u_shipping_carrier data)
                         (Order.shipping_carrier order)) in
                  let order :=
                    match u_notes data with
                    | Some n =>
                        let md := Order.order_metadata order in
                        Order.flush_metadata order
                          (Order.set_order_metadata order
                             (Order.mk_meta (Order.cancellation_reason md)
                                (Order.cancelled_at md) (Order.refund md)
                                (Some n)))
                    | None => order
                    end in
                  if variants_check variants' written
                  then (mkDB variants' (carts db)
                          (<[i := order]> (orders db)) (coupons db)
                          (addresses db) (next_uuid db),
                        Updated order)
                  else (db, Error 500 "Failed to update order")
              end
        end
    end.

(** [AdminOrderRefund.post] *)
Definition refund (now : Z) (db : DB) (is_admin : bool) (order_id : UUID)
    (amount : option Q) (reason : option string) : DB * response :=
  if negb is_admin then (db, Error 403 "Admin access required")
  else
    match OrdersApi.find_order (fun o => Order.id o =? order_id)
            (orders db) with
    | None => (db, Error 404 "Order not found")
    | Some (i, order) =>
        if negb (Order.can_be_refunded order)
        then (db, Error 400 "Order cannot be refunded")
        else
          let refund_amount :=
            match amount with Some a => a | None => Order.total order end in
          let reason :=
            match reason with Some r => r | None => "Admin refund"%string end in
          let order' :=
            Order.set_payment_status (Order.set_status order "refunded")
              "refunded" in
          let md := Order.order_metadata order' in
          let order' :=
            Order.flush_metadata order
              (Order.set_order_metadata order'
                 (Order.mk_meta (Order.cancellation_reason md)
                    (Order.cancelled_at md)
                    (Some (refund_amount, reason, now))
                    (Order.admin_notes md))) in
          let variants' := restore_stock (variants db) (Order.items order) in
          if variants_check variants'
               (map OrderItem.variant_id (Order.items order))
          then (mkDB variants' (carts db) (<[i := order']> (orders db))
                  (coupons db) (addresses db) (next_uuid db),
                Refunded refund_amount (Order.status order'))
          else (db, Error 500 "Failed to process refund")
    end.

End AdminApi.

(** ** The specification's reading of the discount *)

Module CouponSpec.

(** The discount of the specification: [subtotal * value / 100] for a
    percentage coupon and [value] for a fixed coupon (nothing for another
    type), capped at [maximum_discount] if it is set, then capped at the
    subtotal. *)
Definition base_discount (c : Coupon.t) (subtotal : Q) : Q :=
  if (Coupon.discount_type c =? "percentage")%string
  then (subtotal * (Coupon.discount_value c / 100))%Q
  else if (Coupon.discount_type c =? "fixed")%string
  then Coupon.discount_value c
  else 0.00%Q.

(** 'capped at [maximum_discount] if set': the field has a value. *)
Definition capped_at_maximum (c : Coupon.t) (d : Q) : Q :=
  match Coupon.maximum_discount c with
  | Some m => Qmin d m
  | None => d
  end.

Definition discount (c : Coupon.t) (subtotal : Q) : Q :=
  Qmin (capped_at_maximum c (base_discount c subtotal)) subtotal.

(** The amended reading: a maximum of zero counts as no maximum. *)
Definition capped_at_nonzero_maximum (c : Coupon.t) (d : Q) : Q :=
  match Coupon.maximum_discount c with
  | Some m => if Qeq_bool m 0 then d else Qmin d m
  | None => d
  end.

Definition discount_nonzero_maximum (c : Coupon.t) (subtotal : Q) : Q :=
  Qmin (capped_at_nonzero_maximum c (base_discount c subtotal)) subtotal.

End CouponSpec.

(** ** Item mutations of the cart service *)

Inductive item_mutation :=
| AddItem (variant_id : UUID) (quantity : Z)
| UpdateItem (item_id : UUID) (quantity : Z)
| RemoveItem (item_id : UUID)
| ClearItems.

Definition mutate_items (now : Z) (db : DB) (user_id : option UUID)
    (session_id : option string) (mu : item_mutation)
    : DB * CartService.result :=
  match mu with
  | AddItem vid q => CartService.add_to_cart now db user_id session_id vid q
  | UpdateItem id q =>
      CartService.update_cart_item now db user_id session_id id q
  | RemoveItem id => CartService.remove_from_cart now db user_id session_id id
  | ClearItems => CartService.clear_cart now db user_id session_id
  end.

(** Every operation of the service that changes a cart. *)
Inductive cart_operation :=
| Mutate (mu : item_mutation)
| ApplyCoupon (coupon_code : string)
| RemoveCoupon.

Definition run_cart_operation (now : Z) (db : DB) (user_id : option UUID)
    (session_id : option string) (op : cart_operation)
    : DB * CartService.result :=
  match op with
  | Mutate mu => mutate_items now db user_id session_id mu
  | ApplyCoupon code =>
      CartService.apply_coupon now db user_id session_id code
  | RemoveCoupon => CartService.remove_coupon now db user_id session_id
  end.

(** What identifies a cart line and what it asks for. *)
Definition line_key (i : CartItem.t) : UUID * UUID * Z :=
  (CartItem.id i, CartItem.variant_id i, CartItem.quantity i).

(** The number of active carts of a user. *)
Definition active_count (user_id : UUID) (l : list Cart.t) : nat :=
  length (filter (CartService.is_active_of_user user_id) l).

(** ** Checkout: error kinds *)

(** The error kinds of the specification's taxonomy that concern
    checkout. *)
Inductive error_kind :=
| EmptyCartError
| CartValidationError
| InvalidAddressError
| InsufficientStock
| CartLockedError
| BadRequest
| GenericFailure.

(** The kind a checkout response stands for: the three precondition
    failures by their messages, a missing field as a bad request, and every
    status 500 as the generic failure. [OrderList.post] has no response for
    [InsufficientStock] or [CartLockedError]. *)
Definition kind_of (r : OrdersApi.response) : option error_kind :=
  match r with
  | OrdersApi.Created _ => None
  | OrdersApi.Error code msg _ =>
      if (msg =? "Cart is empty")%string then Some EmptyCartError
      else if (msg =? "Cart validation failed")%string
      then Some CartValidationError
      else if (msg =? "Invalid address")%string then Some InvalidAddressError
      else if code =? 500 then Some GenericFailure
      else Some BadRequest
  end.


(** ** Relations and predicates used by the statements *)

(** What an item mutation keeps of the cart it writes. *)
Definition keeps_status (c c' : Cart.t) : Prop :=
  Cart.status c' = Cart.status c.

(** One step of a cart operation on the table: nothing, or the write-back
    of an active cart, related to what it was by [R]. *)
Definition cart_written (R : Cart.t -> Cart.t -> Prop) (l l' : list Cart.t)
    : Prop :=
  l' = l
  \/ exists j c c', l !! j = Some c /\ Cart.status c = "active"%string
                    /\ R c c' /\ l' = <[j := c']> l.

Definition cart_added (l l1 : list Cart.t) : Prop :=
  l1 = l
  \/ exists c, l1 = l ++ [c] /\ Cart.status c = "active"%string
               /\ Cart.items c = [].

(** A line that passed [validate_items]. *)
Definition line_available (m : gmap UUID ProductVariant.t) (item : CartItem.t)
    : Prop :=
  exists v, m !! CartItem.variant_id item = Some v
            /\ ProductVariant.is_active v = true
            /\ 0 < ProductVariant.stock v
            /\ CartItem.quantity item <= ProductVariant.stock v.

(** A line with a positive quantity. *)
Definition positive_line (item : CartItem.t) : Prop :=
  0 < CartItem.quantity item.

(** The prices of the variant rows are values of a [Numeric(10, 2)]
    column. *)
Definition prices_two_places (m : gmap UUID ProductVariant.t) : Prop :=
  map_Forall (fun _ v => two_places (ProductVariant.price v)) m.


(** ** Sample data *)

Definition shirt : ProductVariant.t :=
  ProductVariant.mk 1 "SKU-1" "Shirt" 10.00 5 10 true
    (Some (ProductVariant.mk_product "Shirt" "P-1")).

Definition shirt_ops : list Ledger.op :=
  [Ledger.Reserve 1 3; Ledger.Reserve 1 4; Ledger.Release 1 2;
   Ledger.Reserve 2 1].

Definition save10 : Coupon.t :=
  Coupon.mk 300 "SAVE10" "percentage" 10.00 (Some 20.00%Q) None None 1 0
    None None true [].

Definition freeship : Coupon.t :=
  Coupon.mk 301 "FREESHIP" "free_shipping" 0.00 None None None 1 0
    None None true [].

Definition forty_off : Coupon.t :=
  Coupon.mk 302 "FORTY" "fixed" 40.00 None None None 1 0 None None true [].

Definition home : Address.t :=
  Address.mk 50 7 "1 Main St" None "Town" "ST" "00000" "US".

(** User 7 has an active cart with one line. *)
Definition cart_of (lines : list CartItem.t) : Cart.t :=
  Cart.mk 100 (Some 7) None "active" (Some 0) lines.

Definition shop (lines : list CartItem.t) : DB :=
  mkDB {[ 1 := shirt ]} [cart_of lines] [] [save10; freeship; forty_off]
    [home] 1000.


Definition pay_by_card : OrdersApi.checkout :=
  OrdersApi.mk_checkout (Some 50) (Some 50) (Some "credit_card"%string) None.

(** The shop when the shirt costs 10.10 and the cart holds one. *)
Definition priced_shop : DB :=
  mkDB {[ 1 := ProductVariant.mk 1 "SKU-1" "Shirt" 10.10 5 10 true
                 (Some (ProductVariant.mk_product "Shirt" "P-1")) ]}
    [cart_of [CartItem.mk 200 1 1 10.10]] []
    [save10; freeship; forty_off] [home] 1000.

(** User 7 has checked out before: the only cart is converted. *)
Definition converted_cart : Cart.t :=
  Cart.mk 99 (Some 7) None "converted" (Some 0) [CartItem.mk 199 1 2 10.00].

Definition closed_shop : DB :=
  mkDB {[ 1 := shirt ]} [converted_cart] [] [save10; freeship; forty_off]
    [home] 1000.

(** Order 500 of user 7 was paid and delivered: two shirts. *)
Definition delivered_order : Order.t :=
  Order.mk 500 (Some 7) "delivered" "captured" 20.00 1.60 9.99 0.00 31.59
    None None None Order.meta_empty None None (Some 10) (Some 20)
    (Some "credit_card"%string)
    [OrderItem.mk 1 2 10.00 20.00 "Shirt" "P-1" "Shirt" "SKU-1"].

Definition fulfilled_shop : DB :=
  mkDB {[ 1 := shirt ]} [converted_cart] [delivered_order]
    [save10; freeship; forty_off] [home] 1000.

Definition set_status_request (s : string) : AdminApi.order_update :=
  AdminApi.mk_update (Some s) None None None.

(** ** Further statements: one line per variant, quantities ordered *)

Definition variant_ids (c : Cart.t) : list UUID :=
  map CartItem.variant_id (Cart.items c).

(** At most one line per variant (the unique index of [cart_items]). *)
Definition lines_unique (c : Cart.t) : Prop := NoDup (variant_ids c).

(** The units of a variant that a list of cart lines asks for. *)
Definition units_of (vid : UUID) (l : list CartItem.t) : Z :=
  fold_left Z.add
    (map (fun i => if CartItem.variant_id i =? vid
                   then CartItem.quantity i else 0) l) 0.

(** The units of a variant in the items of an order. *)
Definition ordered_units (vid : UUID) (l : list OrderItem.t) : Z :=
  fold_left Z.add
    (map (fun i => if OrderItem.variant_id i =? vid
                   then OrderItem.quantity i else 0) l) 0.

(** A line that [validate_items] accepts: its variant is active, in stock,
    and has the quantity. *)
Definition line_ok (m : gmap UUID ProductVariant.t) (item : CartItem.t)
    : bool :=
  match m !! CartItem.variant_id item with
  | Some v =>
      ProductVariant.is_active v && ProductVariant.is_in_stock v
      && negb (ProductVariant.stock v <? CartItem.quantity item)
  | None => false
  end.

(** A line whose price is the current price of its variant. *)
Definition price_synced (m : gmap UUID ProductVariant.t) (item : CartItem.t)
    : Prop :=
  exists v, m !! CartItem.variant_id item = Some v
            /\ (CartItem.price item == ProductVariant.price v)%Q.

(** What every cart operation keeps of the cart it writes: its owner and
    its status. *)
Definition keeps_owner (c c' : Cart.t) : Prop :=
  Cart.user_id c' = Cart.user_id c
  /\ Cart.session_id c' = Cart.session_id c
  /\ Cart.status c' = Cart.status c.

(** A write that keeps the owner and the one-line-per-variant shape. *)
Definition item_step (c c' : Cart.t) : Prop :=
  keeps_owner c c' /\ (lines_unique c -> lines_unique c').

(** The ids of the lines of a cart are distinct (primary key). *)
Definition line_ids_unique (c : Cart.t) : Prop :=
  NoDup (map CartItem.id (Cart.items c)).

(** What a cart line and an order item ask for. *)
Definition cart_line (i : CartItem.t) : UUID * Z :=
  (CartItem.variant_id i, CartItem.quantity i).

Definition order_line (i : OrderItem.t) : UUID * Z :=
  (OrderItem.variant_id i, OrderItem.quantity i).

(** An order item priced at the current price of its variant. *)
Definition priced_at_variant (m : gmap UUID ProductVariant.t)
    (i : OrderItem.t) : Prop :=
  exists v, m !! OrderItem.variant_id i = Some v
            /\ (OrderItem.price i == ProductVariant.price v)%Q
            /\ (OrderItem.total i
                == ProductVariant.price v * inject_Z (OrderItem.quantity i))%Q.

(** An order item that the stock left by the checkout covers. *)
Definition covered_by_stock (m : gmap UUID ProductVariant.t)
    (i : OrderItem.t) : Prop :=
  0 < OrderItem.quantity i
  /\ exists v, m !! OrderItem.variant_id i = Some v
               /\ 0 <= ProductVariant.stock v.

(** Two states of the database that differ at most in carts that are
    active in the second: the other tables are equal, and a cart of the
    second state that is not active is the same row of the first. *)
Definition differ_in_active_carts (db db' : DB) : Prop :=
  variants db' = variants db /\ orders db' = orders db
  /\ coupons db' = coupons db /\ addresses db' = addresses db
  /\ forall i c', carts db' !! i = Some c' ->
       Cart.status c' <> "active"%string -> carts db !! i = Some c'.

(** ** Further sample data *)

Definition hat : ProductVariant.t :=
  ProductVariant.mk 2 "SKU-2" "Hat" 25.00 8 10 true
    (Some (ProductVariant.mk_product "Hat" "P-2")).

Definition two_lines : list CartItem.t :=
  [CartItem.mk 200 1 2 10.00; CartItem.mk 201 2 1 25.00].

Definition big_shop : DB :=
  mkDB {[ 1 := shirt; 2 := hat ]} [cart_of two_lines] []
    [save10; freeship; forty_off] [home] 1000.

(** * Properties *)

(** ** Comparisons on amounts *)

Lemma Qltb_true (x y : Q) : Qltb x y = true <-> (x < y)%Q.
Proof.
  unfold Qltb. rewrite negb_true_iff, <- not_true_iff_false, Qle_bool_iff.
  split; [apply Qnot_le_lt | apply Qlt_not_le].
Qed.

Lemma Qltb_false (x y : Q) : Qltb x y = false <-> (y <= x)%Q.
Proof. unfold Qltb. by rewrite negb_false_iff, Qle_bool_iff. Qed.

(** ** Amounts with two places *)

Lemma Qfloor_eq (x : Q) (z : Z) :
  (inject_Z z <= x)%Q -> (x < inject_Z (z + 1))%Q -> Qfloor x = z.
Proof.
  intros Hl Hu.
  pose proof (Qfloor_le x) as H1. pose proof (Qlt_floor x) as H2.
  assert (A : (inject_Z z < inject_Z (Qfloor x + 1))%Q)
    by (eapply Qle_lt_trans; eassumption).
  assert (B : (inject_Z (Qfloor x) < inject_Z (z + 1))%Q)
    by (eapply Qle_lt_trans; eassumption).
  rewrite <- Zlt_Qlt in A, B. lia.
Qed.

Lemma Qfloor_shift (z : Z) (x : Q) :
  Qfloor (inject_Z z + x) = z + Qfloor x.
Proof.
  pose proof (Qfloor_le x) as H1. pose proof (Qlt_floor x) as H2.
  apply Qfloor_eq.
  - rewrite inject_Z_plus. lra.
  - rewrite !inject_Z_plus in *. lra.
Qed.

Lemma numeric_10_2_shift (a y : Q) :
  two_places a -> (numeric_10_2 (a + y) == a + numeric_10_2 y)%Q.
Proof.
  intros [z Hz]. unfold numeric_10_2.
  assert (E : ((a + y) * 100 + (1 # 2) == inject_Z z + (y * 100 + (1 # 2)))%Q).
  { rewrite Hz. unfold inject_Z. unfold Qeq. simpl. lia. }
  rewrite (Qfloor_comp _ _ E), Qfloor_shift, Hz.
  unfold Qeq. simpl. lia.
Qed.

Lemma numeric_10_2_comp (x y : Q) :
  (x == y)%Q -> numeric_10_2 x = numeric_10_2 y.
Proof.
  intros E. unfold numeric_10_2. f_equal. apply Qfloor_comp. by rewrite E.
Qed.

Lemma numeric_10_2_two_places (x : Q) : two_places (numeric_10_2 x).
Proof. eexists. reflexivity. Qed.

Lemma numeric_10_2_id (a : Q) : two_places a -> (numeric_10_2 a == a)%Q.
Proof.
  intros Ha.
  rewrite (numeric_10_2_comp a (a + 0)) by ring.
  rewrite numeric_10_2_shift by done.
  change (numeric_10_2 0) with (0 # 100)%Q. unfold Qeq. simpl. lia.
Qed.

Lemma numeric_10_2_near (x : Q) :
  (x - (1 # 200) < numeric_10_2 x <= x + (1 # 200))%Q.
Proof.
  unfold numeric_10_2.
  pose proof (Qfloor_le (x * 100 + (1 # 2))) as H1.
  pose proof (Qlt_floor (x * 100 + (1 # 2))) as H2.
  rewrite inject_Z_plus in H2. change (inject_Z 1) with 1%Q in H2.
  set (f := Qfloor _) in *.
  assert (E : (f # 100 == inject_Z f * (1 # 100))%Q).
  { unfold Qeq, inject_Z. simpl. lia. }
  rewrite E. split; lra.
Qed.

Lemma two_places_Qeq (x y : Q) : (x == y)%Q -> two_places x -> two_places y.
Proof. intros E [z Hz]. exists z. by rewrite <- E. Qed.

Lemma two_places_plus (x y : Q) :
  two_places x -> two_places y -> two_places (x + y).
Proof.
  intros [a Ha] [b Hb]. exists (a + b). rewrite Ha, Hb.
  unfold Qeq. simpl. lia.
Qed.

Lemma two_places_minus (x y : Q) :
  two_places x -> two_places y -> two_places (x - y).
Proof.
  intros [a Ha] [b Hb]. exists (a - b). rewrite Ha, Hb.
  unfold Qeq. simpl. lia.
Qed.

Lemma two_places_mult_Z (x : Q) (n : Z) :
  two_places x -> two_places (x * inject_Z n).
Proof.
  intros [a Ha]. exists (a * n). rewrite Ha.
  unfold Qeq, inject_Z. simpl. lia.
Qed.

Lemma two_places_sum (l : list Q) :
  Forall two_places l -> two_places (fold_left Qplus l 0%Q).
Proof.
  assert (G : forall a, two_places a -> Forall two_places l ->
                        two_places (fold_left Qplus l a)).
  { induction l as [|x l IH]; intros a Ha Hl; simpl; [done|].
    inversion Hl; subst. apply IH; [by apply two_places_plus | done]. }
  apply G. by exists 0.
Qed.

(** An amount with two places taxed at 8% is at least 0.0002 from a tie. *)
Lemma tax_not_near_a_tie (s : Q) (k : Z) :
  two_places s ->
  (1 # 50 <= Qabs (s * 0.08 * 100 - (inject_Z k + (1 # 2))))%Q.
Proof.
  intros [z Hz].
  assert (E : (s * 0.08 * 100 - (inject_Z k + (1 # 2))
               == (2 * (4 * z - 50 * k - 25)) # 100)%Q).
  { rewrite Hz. unfold Qeq, inject_Z. simpl. lia. }
  rewrite E. unfold Qabs, Qle. simpl. lia.
Qed.

(** ** Inventory ledger *)

Section ledger.
Import ProductVariant.

Lemma reserve_stock_success (v : t) (q : Z) :
  snd (reserve_stock v q) = true <-> q <= stock v.
Proof.
  unfold reserve_stock. destruct (Z.geb_spec (stock v) q); simpl; split;
    intros; try done; lia.
Qed.

Lemma reserve_stock_nonneg (v : t) (q : Z) :
  0 <= stock v -> 0 <= stock (fst (reserve_stock v q)).
Proof.
  unfold reserve_stock. destruct (Z.geb_spec (stock v) q); simpl; lia.
Qed.

Lemma release_stock_nonneg (v : t) (q : Z) :
  0 <= stock v -> 0 <= q -> 0 <= stock (release_stock v q).
Proof. unfold release_stock; simpl; lia. Qed.

Lemma step_stock_nonneg (m : gmap UUID t) (o : Ledger.op) :
  Ledger.stock_nonneg m -> Ledger.op_wf o ->
  Ledger.stock_nonneg (Ledger.step m o).
Proof.
  intros Hm Ho. destruct o as [vid q|vid q]; simpl.
  - unfold Ledger.reserve. destruct (m !! vid) as [v|] eqn:Hv; [|done].
    pose proof (reserve_stock_nonneg v q (Hm _ _ Hv)) as Hn.
    destruct (reserve_stock v q) as [v' ok]; simpl in *.
    by apply map_Forall_insert_2.
  - unfold Ledger.release. destruct (m !! vid) as [v|] eqn:Hv; [|done].
    apply map_Forall_insert_2; [|done].
    apply release_stock_nonneg; [exact (Hm _ _ Hv) | exact Ho].
Qed.

Lemma run_stock_nonneg (ops : list Ledger.op) (m : gmap UUID t) :
  Ledger.stock_nonneg m -> Forall Ledger.op_wf ops ->
  Ledger.stock_nonneg (Ledger.run ops m).
Proof.
  intros Hm Hops. revert m Hm.
  induction Hops as [|o ops Ho _ IH]; intros m Hm; [done|].
  apply IH. by apply step_stock_nonneg.
Qed.

End ledger.

(** C2 (amended). [reserve_stock] reports success exactly when
    [stock >= quantity]; on success the stock drops by the quantity, on
    failure the variant is unchanged. From non-negative stocks, any
    sequence of reserve and release calls in which no release has a
    negative quantity leaves every variant's stock non-negative. *)
Theorem reserve_release_stock_nonneg
    (v : ProductVariant.t) (quantity : Z)
    (m : gmap UUID ProductVariant.t) (ops : list Ledger.op) :
  (snd (ProductVariant.reserve_stock v quantity) = true
     <-> ProductVariant.stock v >= quantity)
  /\ (ProductVariant.stock v >= quantity ->
      ProductVariant.reserve_stock v quantity
      = (ProductVariant.set_stock v (ProductVariant.stock v - quantity), true))
  /\ (~ ProductVariant.stock v >= quantity ->
      ProductVariant.reserve_stock v quantity = (v, false))
  /\ (Ledger.stock_nonneg m ->
      Forall Ledger.op_wf ops ->
      Ledger.stock_nonneg (Ledger.run ops m)).
Proof.
  split_and!.
  - rewrite reserve_stock_success. lia.
  - intros H. unfold ProductVariant.reserve_stock.
    destruct (Z.geb_spec (ProductVariant.stock v) quantity); [done | lia].
  - intros H. unfold ProductVariant.reserve_stock.
    destruct (Z.geb_spec (ProductVariant.stock v) quantity); [lia | done].
  - apply run_stock_nonneg.
Qed.

Lemma reserve_release_stock_nonneg_witness :
  Ledger.stock_nonneg {[ 1 := shirt ]}
  /\ Forall Ledger.op_wf shirt_ops
  /\ ProductVariant.reserve_stock shirt 3
     = (ProductVariant.set_stock shirt 2, true)
  /\ ProductVariant.reserve_stock shirt 6 = (shirt, false)
  /\ Ledger.stock_nonneg (Ledger.run shirt_ops {[ 1 := shirt ]}).
Proof.
  assert (H1 : Ledger.stock_nonneg {[ 1 := shirt ]}).
  { apply map_Forall_singleton. simpl. lia. }
  assert (H2 : Forall Ledger.op_wf shirt_ops).
  { repeat constructor. simpl. lia. }
  split_and!; [exact H1 | exact H2 | | |].
  - apply (reserve_release_stock_nonneg shirt 3 {[ 1 := shirt ]} shirt_ops).
    simpl. lia.
  - apply (reserve_release_stock_nonneg shirt 6 {[ 1 := shirt ]} shirt_ops).
    simpl. lia.
  - exact (proj2 (proj2 (proj2
             (reserve_release_stock_nonneg shirt 3 _ _))) H1 H2).
Defined.

(** C2, as stated, fails for a sequence with a release of a negative
    quantity: [release_stock] adds its argument without a test, and
    [release_stock(-9)] leaves a stock of 5 at -4. *)
Lemma release_of_negative_quantity_breaks_invariant :
  Ledger.stock_nonneg {[ 1 := shirt ]}
  /\ ProductVariant.stock (ProductVariant.release_stock shirt (-9)) = -4
  /\ ~ Ledger.stock_nonneg
         (Ledger.run [Ledger.Release 1 (-9)] {[ 1 := shirt ]}).
Proof.
  split_and!.
  - apply map_Forall_singleton. simpl. lia.
  - reflexivity.
  - intros H.
    assert (L : Ledger.run [Ledger.Release 1 (-9)] {[ 1 := shirt ]} !! 1
                = Some (ProductVariant.set_stock shirt (-4)))
      by (vm_compute; reflexivity).
    specialize (H _ _ L). simpl in H. lia.
Qed.

(** ** Coupons *)

Lemma Qmin_ltb (x y : Q) : ((if Qltb y x then y else x) == Qmin x y)%Q.
Proof.
  destruct (Qltb y x) eqn:E.
  - apply Qltb_true in E. symmetry. apply Q.min_r. lra.
  - apply Qltb_false in E. symmetry. by apply Q.min_l.
Qed.

(** C7 (amended). [calculate_discount] is [subtotal * value / 100] for a
    percentage coupon and [value] for a fixed coupon, capped first at
    [maximum_discount] when it is set and not zero, and then at the
    subtotal; the result never exceeds the subtotal. For a coupon whose
    maximum is not set to zero this is the discount of the specification. *)
Theorem calculate_discount_capped (c : Coupon.t) (subtotal : Q) :
  (Coupon.calculate_discount c subtotal
   == CouponSpec.discount_nonzero_maximum c subtotal)%Q
  /\ (Coupon.calculate_discount c subtotal <= subtotal)%Q
  /\ ((forall m, Coupon.maximum_discount c = Some m -> ~ (m == 0)%Q) ->
      (Coupon.calculate_discount c subtotal
       == CouponSpec.discount c subtotal)%Q).
Proof.
  assert (E : (Coupon.calculate_discount c subtotal
               == CouponSpec.discount_nonzero_maximum c subtotal)%Q).
  { unfold Coupon.calculate_discount, CouponSpec.discount_nonzero_maximum,
      CouponSpec.capped_at_nonzero_maximum, CouponSpec.base_discount.
    set (d0 := if (Coupon.discount_type c =? "percentage")%string then _
               else _).
    set (d0' := if (Coupon.discount_type c =? "percentage")%string then _
                else _).
    assert (d0 = d0') as ->.
    { subst d0 d0'. by repeat case_match. }
    rewrite Qmin_ltb. apply Q.min_compat; [|reflexivity].
    destruct (Coupon.maximum_discount c) as [m|]; simpl; [|reflexivity].
    unfold truthy_Q.
    destruct (Qeq_bool m 0); simpl; [reflexivity | apply Qmin_ltb]. }
  split_and!; [exact E | rewrite E; apply Q.le_min_r |].
  intros Hm. rewrite E.
  unfold CouponSpec.discount_nonzero_maximum, CouponSpec.discount,
    CouponSpec.capped_at_nonzero_maximum, CouponSpec.capped_at_maximum.
  destruct (Coupon.maximum_discount c) as [m|]; [|reflexivity].
  destruct (Qeq_bool m 0) eqn:Ez; [|reflexivity].
  apply Qeq_bool_iff in Ez. by destruct (Hm m eq_refl).
Qed.

Lemma calculate_discount_capped_witness :
  let c := Coupon.mk 2 "HALF" "percentage" 50.00 None (Some 20.00%Q) None 1 0
             None None true [] in
  (Coupon.calculate_discount c 100.00 == CouponSpec.discount c 100.00)%Q
  /\ (Coupon.calculate_discount c 100.00 == 20.00)%Q.
Proof.
  intros c. split; [|reflexivity].
  apply (calculate_discount_capped c 100.00).
  intros m [= <-]. vm_compute. discriminate.
Defined.

(** C7, as stated, fails for a maximum stored as zero: the code tests the
    field by truthiness, so a maximum of 0.00 does not cap, where 'capped
    at maximum_discount if set' gives a discount of zero. *)
Lemma calculate_discount_zero_cap :
  let c := Coupon.mk 1 "FIVE" "fixed" 5.00 None (Some 0.00%Q) None 1 0 None
             None true [] in
  Coupon.maximum_discount c = Some 0.00%Q
  /\ Coupon.calculate_discount c 100.00 = 5.00%Q
  /\ (CouponSpec.discount c 100.00 == 0)%Q
  /\ ~ (Coupon.calculate_discount c 100.00
        == CouponSpec.discount c 100.00)%Q.
Proof.
  intros c. split_and!; [reflexivity | reflexivity | reflexivity |].
  vm_compute. discriminate.
Qed.

Example calculate_discount_save10 :
  (Coupon.calculate_discount save10 100.00 == 10.00)%Q.
Proof. reflexivity. Qed.

(** The checks of [is_valid] are independent: each condition contributes
    its own error, in the order of the code. *)
Lemma is_valid_errors (c : Coupon.t) (now : Z) (cart_total : option Q)
    (user_id : option UUID) :
  Coupon.errors (Coupon.is_valid c now cart_total user_id)
  = (if negb (Coupon.is_active c) then [Coupon.NotActive] else [])
    ++ (if match Coupon.valid_from c with
           | Some f => now <? f | None => false end
        then [Coupon.NotYetValid] else [])
    ++ (if match Coupon.valid_until c with
           | Some u => now >? u | None => false end
        then [Coupon.Expired] else [])
    ++ (if match Coupon.usage_limit c with
           | Some l => truthy_Z l && (Coupon.usage_count c >=? l)
           | None => false end
        then [Coupon.UsageLimitExceeded] else [])
    ++ (match Coupon.minimum_amount c, cart_total with
        | Some m, Some total =>
            if truthy_Q m && truthy_Q total && Qltb total m
            then [Coupon.MinimumAmount m] else []
        | _, _ => []
        end)
    ++ (match user_id with
        | Some uid =>
            if truthy_Z (Coupon.usage_limit_per_user c)
               && (Coupon.user_usage_count c uid
                   >=? Coupon.usage_limit_per_user c)
            then [Coupon.PerUserLimit] else []
        | None => []
        end).
Proof.
  unfold Coupon.is_valid, Coupon.append_if; simpl.
  repeat case_match; simpl; rewrite ?app_nil_r; try reflexivity.
Qed.

Lemma is_valid_valid (c : Coupon.t) (now : Z) (cart_total : option Q)
    (user_id : option UUID) :
  Coupon.valid (Coupon.is_valid c now cart_total user_id) = true
  <-> Coupon.errors (Coupon.is_valid c now cart_total user_id) = [].
Proof.
  unfold Coupon.is_valid. cbv zeta.
  match goal with |- context [Coupon.mk_validation _ ?l] => generalize l end.
  intros [|e l]; simpl; split; congruence.
Qed.

(** A total of zero is falsy, so the minimum-amount check is skipped for
    it, whatever the minimum. *)
Lemma is_valid_zero_total_no_minimum_error (c : Coupon.t) (now : Z)
    (user_id : option UUID) (m : Q) :
  ~ In (Coupon.MinimumAmount m)
       (Coupon.errors (Coupon.is_valid c now (Some 0%Q) user_id)).
Proof.
  rewrite is_valid_errors.
  change (truthy_Q 0) with false.
  destruct (Coupon.minimum_amount c) as [m'|];
    [rewrite andb_false_r; simpl andb; cbv iota|];
    rewrite !in_app_iff;
    intros H; repeat case_match; simpl in *; intuition congruence.
Qed.

(** C8. At the input [minimum_amount = 20.00], [cart_total = 0] (the
    subtotal of an empty cart): the coupon requires a minimum order of
    20.00 and the total is below it, yet [is_valid] reports the coupon
    valid, with no error; for a total of 10.00 it reports the minimum. *)
Theorem is_valid_zero_total_passes_minimum :
  Coupon.minimum_amount save10 = Some 20.00%Q
  /\ (0 < 20.00)%Q
  /\ Coupon.is_valid save10 0 (Some 0%Q) (Some 7)
     = Coupon.mk_validation true []
  /\ Coupon.errors (Coupon.is_valid save10 0 (Some 10.00%Q) (Some 7))
     = [Coupon.MinimumAmount 20.00]
  /\ (Cart.get_subtotal (cart_of []) == 0)%Q.
Proof. split_and!; reflexivity. Qed.

(** ** Coupons on the cart *)

(** No call of [apply_coupon] or [remove_coupon] gets past
    [cart.metadata]: a call that has found the cart (and, for
    [apply_coupon], a coupon that is valid) is answered by the [except]
    branch, and nothing is written. *)
Lemma apply_coupon_fails (now : Z) (db : DB) (u : option UUID)
    (s : option string) (code : string) :
  exists e,
    CartService.apply_coupon now db u s code
    = (fst (CartService.get_or_create_cart now db u s),
       CartService.Failure e).
Proof.
  unfold CartService.apply_coupon.
  destruct (CartService.get_or_create_cart now db u s) as [db1 [[i c]|]];
    simpl; [|by eexists].
  destruct (CartService.find_coupon _ _); [|by eexists].
  destruct (negb _); by eexists.
Qed.

Lemma remove_coupon_fails (now : Z) (db : DB) (u : option UUID)
    (s : option string) :
  exists e,
    CartService.remove_coupon now db u s
    = (fst (CartService.get_or_create_cart now db u s),
       CartService.Failure e).
Proof.
  unfold CartService.remove_coupon.
  destruct (CartService.get_or_create_cart now db u s) as [db1 [[i c]|]];
    simpl; by eexists.
Qed.

(** [calculate_totals] finds no stored discount. *)
Lemma stored_discount_zero (cart : Cart.t) :
  CartService.stored_discount cart = Some 0.00%Q.
Proof. reflexivity. Qed.

Lemma cart_totals_lines (cart : Cart.t) (addr : option UUID) :
  Cart.is_empty cart = false ->
  CartService.cart_totals cart addr
  = Some (CartService.mk_totals (Cart.get_subtotal cart)
            ((Cart.get_subtotal cart - 0.00) * 0.08)%Q
            (CartService._calculate_shipping cart addr) 0.00%Q
            (Cart.get_subtotal cart
             + (Cart.get_subtotal cart - 0.00) * 0.08
             + CartService._calculate_shipping cart addr - 0.00)%Q
            (Some (Cart.get_total_quantity cart))).
Proof. unfold CartService.cart_totals. by intros ->. Qed.


(** ** Shipping *)

(** [_calculate_shipping] is a step function of the subtotal, and nothing
    else of the cart enters it. *)
Lemma calculate_shipping_step (cart : Cart.t) (addr : option UUID) :
  CartService._calculate_shipping cart addr
  = if Qle_bool 50.00 (Cart.get_subtotal cart) then 0.00%Q else 9.99%Q.
Proof. reflexivity. Qed.

(** ** Shape of the cart operations *)

Section cart_steps.

Lemma find_cart_active (u : option UUID) (s : option string)
    (l : list Cart.t) (j : nat) (c : Cart.t) :
  CartService.find_cart u s l = Some (Some (j, c)) ->
  l !! j = Some c /\ Cart.status c = "active"%string.
Proof.
  unfold CartService.find_cart. intros H.
  destruct u as [uid|]; [|destruct s as [sid|]; [|done];
                          destruct (truthy_str sid); [|done]];
    simplify_eq; match goal with H : list_find _ _ = _ |- _ =>
      apply list_find_Some in H as (? & [? ?] & _) end; done.
Qed.

(** [get_or_create_cart] returns a cart that is active and in the table;
    the table is the old one, or the old one with a new, empty, active
    cart at its end. *)
Lemma get_or_create_cart_spec (now : Z) (db db1 : DB) (u : option UUID)
    (s : option string) (r : option (nat * Cart.t)) :
  CartService.get_or_create_cart now db u s = (db1, r) ->
  variants db1 = variants db /\ orders db1 = orders db
  /\ coupons db1 = coupons db /\ addresses db1 = addresses db
  /\ (db1 = db
      \/ exists c, carts db1 = carts db ++ [c]
                   /\ Cart.status c = "active"%string
                   /\ Cart.items c = []
                   /\ r = Some (length (carts db), c))
  /\ (forall j c, r = Some (j, c) ->
        carts db1 !! j = Some c /\ Cart.status c = "active"%string).
Proof.
  unfold CartService.get_or_create_cart. intros H.
  destruct (CartService.find_cart u s (carts db)) as [[[j c]|]|] eqn:F;
    simplify_eq; simpl; split_and!; try done; try (by left).
  - intros j' c' [= -> ->]. by apply find_cart_active in F.
  - right. eexists. split_and!; done.
  - intros j' c' [= <- <-]. split; [|done].
    by rewrite lookup_app_r, Nat.sub_diag.
Qed.

Lemma get_or_create_cart_added now db db1 u s r :
  CartService.get_or_create_cart now db u s = (db1, r) ->
  cart_added (carts db) (carts db1).
Proof.
  intros H. apply get_or_create_cart_spec in H as (_&_&_&_&[->|H]&_).
  - by left.
  - destruct H as (c&?&?&?&_). right. by exists c.
Qed.

(** Carts that are not active are out of reach of both steps. *)
Lemma cart_added_frame l l1 i c :
  cart_added l l1 -> l !! i = Some c -> l1 !! i = Some c.
Proof.
  intros [->|(c0&->&_)] H; [done|]. by apply lookup_app_l_Some.
Qed.

Lemma cart_written_inactive R l l' i c :
  cart_written R l l' -> l !! i = Some c ->
  Cart.status c <> "active"%string -> l' !! i = Some c.
Proof.
  intros [->|(j&c0&c'&Hj&Hact&_&->)] H Hs; [done|].
  rewrite list_lookup_insert_ne; [done|]. intros ->. congruence.
Qed.

Lemma cart_written_related R l l' i c :
  cart_written R l l' -> l !! i = Some c ->
  exists c', l' !! i = Some c' /\ (c' = c \/ R c c').
Proof.
  intros [->|(j&c0&c'&Hj&Hact&HR&->)] H; [by eauto|].
  destruct (decide (j = i)) as [->|Hne].
  - exists c'. rewrite list_lookup_insert_eq by (by eapply lookup_lt_Some).
    split; [done|]. right. congruence.
  - exists c. rewrite list_lookup_insert_ne by done. eauto.
Qed.

End cart_steps.

Lemma mutate_items_shape now db u s mu :
  exists db1,
    cart_added (carts db) (carts db1)
    /\ cart_written keeps_status (carts db1)
         (carts (fst (mutate_items now db u s mu))).
Proof.
  destruct (CartService.get_or_create_cart now db u s) as [db1 r] eqn:G.
  pose proof (get_or_create_cart_added _ _ _ _ _ _ G) as Hadd.
  pose proof (get_or_create_cart_spec _ _ _ _ _ _ G) as (Hv&_&_&_&_&Hr).
  assert (W : forall j c c', r = Some (j, c) -> keeps_status c c' ->
              cart_written keeps_status (carts db1) (<[j := c']> (carts db1))).
  { intros j c c' -> HR. destruct (Hr j c eq_refl) as [Hj Hact].
    right. by exists j, c, c'. }
  destruct mu as [vid q|id q|id|]; simpl;
    unfold CartService.remove_from_cart, CartService.add_to_cart,
      CartService.update_cart_item, CartService.clear_cart.
  - destruct (variants db !! vid) as [v|];
      [|exists db; split; left; done].
    destruct (negb (ProductVariant.is_active v));
      [exists db; split; left; done|].
    destruct (negb (ProductVariant.is_in_stock v)
              || (ProductVariant.stock v <? q));
      [exists db; split; left; done|].
    rewrite G. exists db1. split; [done|].
    destruct r as [[j c]|]; simpl; [|by left].
    destruct (find _ _); [destruct (_ <? _); simpl; [by left|]|];
      simpl; eapply W; done.
  - rewrite G. exists db1. split; [done|].
    destruct r as [[j c]|]; simpl; [|by left].
    destruct (find _ _); simpl; [|by left].
    destruct (q =? 0); simpl; [by eapply W|].
    destruct (variants db1 !! _); simpl; [|by left].
    destruct (_ <? _); simpl; [by left|]. by eapply W.
  - rewrite G. exists db1. split; [done|].
    destruct r as [[j c]|]; simpl; [|by left].
    destruct (find _ _); simpl; [|by left]. by eapply W.
  - rewrite G. exists db1. split; [done|].
    destruct r as [[j c]|]; simpl; [|by left]. by eapply W.
Qed.

Lemma coupon_ops_shape now db u s (op : cart_operation) :
  (forall mu, op <> Mutate mu) ->
  exists db1,
    cart_added (carts db) (carts db1)
    /\ carts (fst (run_cart_operation now db u s op)) = carts db1.
Proof.
  intros Hop.
  destruct (CartService.get_or_create_cart now db u s) as [db1 r] eqn:G.
  pose proof (get_or_create_cart_added _ _ _ _ _ _ G) as Hadd.
  exists db1. split; [done|].
  destruct op as [mu|code|]; [by destruct (Hop mu)| |]; simpl.
  - destruct (apply_coupon_fails now db u s code) as [e ->].
    by rewrite G.
  - destruct (remove_coupon_fails now db u s) as [e ->]. by rewrite G.
Qed.

(** C4 (as the code has it). Every cart operation of the service (add,
    update, remove, clear, apply coupon, remove coupon) works on the
    caller's active cart, which it creates when there is none; a cart whose
    status is not active, converted and expired carts among them, is left
    unchanged in the table. *)
Theorem inactive_cart_untouched (now : Z) (db : DB) (user_id : option UUID)
    (session_id : option string) (op : cart_operation)
    (i : nat) (c : Cart.t) :
  carts db !! i = Some c ->
  Cart.status c <> "active"%string ->
  carts (fst (run_cart_operation now db user_id session_id op)) !! i = Some c.
Proof.
  intros Hi Hs.
  destruct op as [mu|code|].
  - destruct (mutate_items_shape now db user_id session_id mu)
      as (db1 & Ha & Hw).
    eapply cart_written_inactive; [exact Hw | | done].
    by eapply cart_added_frame.
  - destruct (coupon_ops_shape now db user_id session_id (ApplyCoupon code))
      as (db1 & Ha & ->); [done|].
    by eapply cart_added_frame.
  - destruct (coupon_ops_shape now db user_id session_id RemoveCoupon)
      as (db1 & Ha & ->); [done|].
    by eapply cart_added_frame.
Qed.

Lemma inactive_cart_untouched_witness :
  carts closed_shop !! 0%nat = Some converted_cart
  /\ Cart.status converted_cart <> "active"%string
  /\ carts (fst (run_cart_operation 0 closed_shop (Some 7) None
                   (Mutate (AddItem 1 1)))) !! 0%nat
     = Some converted_cart.
Proof.
  assert (H1 : carts closed_shop !! 0%nat = Some converted_cart)
    by reflexivity.
  assert (H2 : Cart.status converted_cart <> "active"%string)
    by (simpl; discriminate).
  split_and!; [exact H1 | exact H2 |].
  exact (inactive_cart_untouched 0 closed_shop (Some 7) None
           (Mutate (AddItem 1 1)) 0%nat converted_cart H1 H2).
Defined.

(** C4, as stated, fails on a converted cart: the method [Cart.add_item]
    called on it adds the line, and the service call of the cart's owner is
    not rejected: it succeeds, on a cart that it creates. *)
Lemma mutation_on_converted_cart_not_rejected :
  Cart.status converted_cart = "converted"%string
  /\ Cart.items (fst (Cart.add_item converted_cart shirt 1))
     = [CartItem.mk 199 1 3 10.00]
  /\ fst (Cart.add_item converted_cart shirt 1) <> converted_cart
  /\ exists cart',
       snd (run_cart_operation 0 closed_shop (Some 7) None
              (Mutate (AddItem 1 1)))
       = CartService.Success cart' None
       /\ Cart.id cart' <> Cart.id converted_cart.
Proof.
  split_and!; [reflexivity | reflexivity | discriminate |].
  eexists. split; [vm_compute; reflexivity | simpl; discriminate].
Qed.

(** ** Shipping and discount of the totals *)




(** C10. At the input of a cart with one line of 50.00 and the valid
    coupon FORTY: [apply_coupon] validates the coupon and computes the
    discount, 40.00, and then fails at the store in [cart.metadata]; it
    answers 'Failed to apply coupon' and the cart is as before. The totals
    computed afterwards have the discount 0.00. It is so for every call:
    [apply_coupon] never succeeds and never writes, and the discount of
    the totals of a cart with lines is always 0.00. *)
Theorem apply_coupon_stores_no_discount (now : Z) (db : DB)
    (u : option UUID) (s : option string) (code : string) (cart : Cart.t)
    (addr : option UUID) :
  (forall cart' info,
      snd (CartService.apply_coupon now db u s code)
      <> CartService.Success cart' info)
  /\ fst (CartService.apply_coupon now db u s code)
     = fst (CartService.get_or_create_cart now db u s)
  /\ (CartService.t_discount <$> CartService.cart_totals cart addr)
     = Some (if Cart.is_empty cart then 0 else 0.00)%Q
  /\ (let db0 := shop [CartItem.mk 200 1 5 10.00] in
      Coupon.valid
        (Coupon.is_valid forty_off 0 (Some (Cart.get_subtotal
                                              (cart_of [CartItem.mk 200 1 5 10.00])))
           (Some 7)) = true
      /\ Coupon.calculate_discount forty_off 50.00 = 40.00%Q
      /\ CartService.apply_coupon 0 db0 (Some 7) None "forty"
         = (db0, CartService.Failure
                   (CartService.Failed "Failed to apply coupon"))
      /\ (CartService.t_discount
            <$> snd (CartService.calculate_totals 0 db0 (Some 7) None None))
         = Some 0.00%Q).
Proof.
  split_and!.
  - intros cart' info.
    destruct (apply_coupon_fails now db u s code) as [e ->]. done.
  - by destruct (apply_coupon_fails now db u s code) as [e ->].
  - unfold CartService.cart_totals. by destruct (Cart.is_empty cart).
  - split_and!; vm_compute; reflexivity.
Qed.

(** ** Checkout: what holds when the transaction starts *)

Lemma set_items_same (c : Cart.t) : Cart.set_items c (Cart.items c) = c.
Proof. by destruct c. Qed.

Lemma store_cart_same (db : DB) (i : nat) (c : Cart.t) :
  carts db !! i = Some c -> CartService.store_cart db i c = db.
Proof.
  intros H. unfold CartService.store_cart, set_carts.
  rewrite list_insert_id by done. by destruct db.
Qed.

Lemma validate_loop_spec (m : gmap UUID ProductVariant.t)
    (l l' upd : list CartItem.t) (errs : list Cart.item_error) :
  Cart.validate_loop m l = Some (errs, upd, l') ->
  map line_key l' = map line_key l
  /\ (upd = [] -> l' = l)
  /\ (errs = [] -> Forall (line_available m) l').
Proof.
  revert l' upd errs.
  induction l as [|item r IH]; intros l' upd errs H; simpl in H.
  - by simplify_eq.
  - destruct (m !! CartItem.variant_id item) as [v|] eqn:Hv; [|done].
    destruct (Cart.validate_loop m r) as [[[errs0 upd0] r0]|]; [|done].
    destruct (IH _ _ _ eq_refl) as (Hk & Hu & Hf).
    destruct (negb (ProductVariant.is_active v)) eqn:Ha;
      [simplify_eq; simpl; split_and!; [by f_equal | by intros ->%Hu | done]|].
    destruct (negb (ProductVariant.is_in_stock v)) eqn:Hs;
      [simplify_eq; simpl; split_and!; [by f_equal | by intros ->%Hu | done]|].
    destruct (ProductVariant.stock v <? CartItem.quantity item) eqn:Hq;
      [simplify_eq; simpl; split_and!; [by f_equal | by intros ->%Hu | done]|].
    apply negb_false_iff in Ha, Hs. unfold ProductVariant.is_in_stock in Hs.
    apply Z.ltb_ge in Hq.
    assert (0 < ProductVariant.stock v) by lia.
    destruct (negb (Qeq_bool _ _)); simplify_eq; simpl.
    + split_and!; [by f_equal | done |].
      intros ->. constructor; [by exists v | by apply Hf].
    + split_and!; [by f_equal | by intros ->%Hu |].
      intros ->. constructor; [by exists v | by apply Hf].
Qed.

Lemma get_or_create_cart_found (now : Z) (db : DB) (user : UUID) (j : nat)
    (c : Cart.t) :
  list_find (CartService.is_active_of_user user) (carts db) = Some (j, c) ->
  CartService.get_or_create_cart now db (Some user) None = (db, Some (j, c)).
Proof.
  intros H. unfold CartService.get_or_create_cart, CartService.find_cart.
  by rewrite H.
Qed.

Lemma get_or_create_cart_nonempty (now : Z) (db db1 : DB) (user : UUID)
    (i : nat) (cart : Cart.t) :
  CartService.get_or_create_cart now db (Some user) None
  = (db1, Some (i, cart)) ->
  Cart.is_empty cart = false ->
  db1 = db
  /\ list_find (CartService.is_active_of_user user) (carts db)
     = Some (i, cart).
Proof.
  unfold CartService.get_or_create_cart, CartService.find_cart.
  destruct (list_find _ _) as [[j c]|]; intros H Hne; simplify_eq; done.
Qed.

Lemma find_after_store (user : UUID) (l : list Cart.t) (i : nat)
    (c0 c : Cart.t) :
  list_find (CartService.is_active_of_user user) l = Some (i, c0) ->
  CartService.is_active_of_user user c ->
  list_find (CartService.is_active_of_user user) (<[i := c]> l) = Some (i, c).
Proof.
  intros H Hc. apply list_find_Some in H as (Hi & _ & Hlt).
  apply list_find_insert_Some. right; left.
  split_and!; try done. by eapply lookup_lt_Some.
Qed.

Lemma preconditions_inr (now : Z) (db db2 : DB) (user : UUID)
    (data : option OrdersApi.checkout) (t : OrdersApi.txn_input) :
  OrdersApi.preconditions now db user data = (db2, inr t) ->
  exists cart0,
    list_find (CartService.is_active_of_user user) (carts db)
    = Some (OrdersApi.in_pos t, cart0)
    /\ db2 = CartService.store_cart db (OrdersApi.in_pos t) (OrdersApi.in_cart t)
    /\ CartService.is_active_of_user user (OrdersApi.in_cart t)
    /\ map line_key (Cart.items (OrdersApi.in_cart t))
       = map line_key (Cart.items cart0)
    /\ Cart.is_empty (OrdersApi.in_cart t) = false
    /\ data = Some (OrdersApi.in_data t)
    /\ Forall (line_available (variants db)) (Cart.items (OrdersApi.in_cart t)).
Proof.
  unfold OrdersApi.preconditions.
  destruct data as [d|]; [|done].
  destruct (OrdersApi.shipping_address_id d) as [sid|]; [|done].
  destruct (OrdersApi.billing_address_id d) as [bid|]; [|done].
  destruct (negb _); [done|].
  destruct (CartService.get_or_create_cart now db (Some user) None)
    as [db1 [[i cart]|]] eqn:G; [|done].
  destruct (Cart.is_empty cart) eqn:Hne; [done|].
  destruct (get_or_create_cart_nonempty _ _ _ _ _ _ G Hne) as [-> F].
  unfold CartService.validate_cart. rewrite G.
  destruct (Cart.validate_items (variants db) cart) as [[v cart']|] eqn:V;
    [|done].
  simpl. destruct (negb (Cart.valid v)) eqn:Hv; [done|].
  destruct (OrdersApi.find_address sid _ _) as [sa|]; [|done].
  destruct (OrdersApi.find_address bid _ _) as [ba|]; [|done].
  intros [= <- <-]; simpl.
  pose proof F as F'. apply list_find_Some in F' as (Hi & Hact & _).
  unfold Cart.validate_items in V.
  destruct (Cart.validate_loop (variants db) (Cart.items cart))
    as [[[errs upd] l']|] eqn:L; [|done].
  injection V as <- <-. simpl in *.
  destruct (validate_loop_spec _ _ _ _ _ L) as (Hk & Hu & Hf).
  assert (errs = []) as -> by (by destruct errs).
  assert (Hl' : l' <> []).
  { intros ->. unfold Cart.is_empty in Hne.
    destruct (Cart.items cart); [done | simpl in Hk; done]. }
  exists cart.
  destruct upd as [|u0 upd].
  - pose proof (Hu eq_refl) as ->. rewrite Hi; simpl.
    split_and!; try done.
    + by rewrite store_cart_same.
    + by apply Hf.
  - simpl. rewrite list_lookup_insert_eq by (by eapply lookup_lt_Some).
    simpl. destruct Hact as [Hu' Hs'].
    split_and!; try done.
    + unfold Cart.is_empty; simpl. by destruct l'.
    + by apply Hf.
Qed.

Lemma get_or_create_cart_in_txn (now now' : Z) (db db2 : DB) (user : UUID)
    (data : option OrdersApi.checkout) (t : OrdersApi.txn_input) :
  OrdersApi.preconditions now db user data = (db2, inr t) ->
  CartService.get_or_create_cart now' db2 (Some user) None
  = (db2, Some (OrdersApi.in_pos t, OrdersApi.in_cart t)).
Proof.
  intros H. apply preconditions_inr in H as (cart0 & F & -> & Hact & _).
  apply get_or_create_cart_found. simpl. by eapply find_after_store.
Qed.

(** ** Checkout: the order that is created *)

Lemma create_order_created (now : Z) (db db' : DB) (user : UUID)
    (d : OrdersApi.checkout) (payment : string) (sa ba : Address.t)
    (i : nat) (cart : Cart.t) (o : Order.t) :
  OrdersApi.create_order now db user d payment sa ba i cart
  = (db', OrdersApi.Created o) ->
  (0 <= Order.total o)%Q /\ last (orders db') = Some o.
Proof.
  unfold OrdersApi.create_order.
  destruct (CartService.calculate_totals now db (Some user) None
              (OrdersApi.shipping_address_id d)) as [db_t [t|]] eqn:T;
    [|done].
  destruct (negb (Order.check_constraints _)) eqn:Hc; [done|].
  destruct (OrdersApi.order_items_loop _ _) as [[ois m']|]; [|done].
  apply negb_false_iff in Hc. unfold Order.check_constraints in Hc.
  simpl in Hc. apply Qle_bool_iff in Hc.
  destruct (Order.str_in payment _);
    (destruct (OrdersApi.commit_ok _ _ _) eqn:Hok; [|done]);
    intros [= <- <-]; simpl; (split; [exact Hc |]);
    by rewrite last_snoc.
Qed.

Lemma preconditions_inl (now : Z) (db db2 : DB) (user : UUID)
    (data : option OrdersApi.checkout) (r : OrdersApi.response) :
  OrdersApi.preconditions now db user data = (db2, inl r) ->
  exists code msg details, r = OrdersApi.Error code msg details.
Proof.
  unfold OrdersApi.preconditions.
  repeat case_match; intros; simplify_eq; eauto.
Qed.

(** ** Checkout: a line short of stock *)






(** ** Checkout: the order-item loop *)

Section loop.
Import OrdersApi.

Lemma loop_quantities m l ois m' :
  order_items_loop m l = Some (ois, m') ->
  forallb OrderItem.check_constraints ois = true ->
  Forall positive_line l.
Proof.
  revert m ois m'. induction l as [|item r IH]; intros m ois m' H Hc;
    [constructor|].
  simpl in H. destruct (m !! CartItem.variant_id item) as [v|]; [|done].
  destruct (order_items_loop _ r) as [[ois0 m0]|] eqn:L; [|done].
  injection H as <- <-. simpl in Hc.
  apply andb_prop in Hc as [Hc1 Hc2].
  constructor; [|by eapply IH].
  unfold OrderItem.check_constraints in Hc1. simpl in Hc1.
  apply andb_prop in Hc1 as [Hq _]. unfold positive_line. lia.
Qed.

End loop.

(** ** Checkout twice *)

Section one_active_cart.
Context (user : UUID).
Local Abbreviation P := (CartService.is_active_of_user user).

Lemma filter_one (l : list Cart.t) j z :
  l !! j = Some z -> P z -> (1 <= length (filter P l))%nat.
Proof.
  revert j. induction l as [|a l IH]; intros j Hj Hz; [done|].
  destruct j as [|j]; simpl in Hj.
  - injection Hj as ->. rewrite filter_cons_True by done. simpl. lia.
  - specialize (IH _ Hj Hz).
    destruct (decide (P a)); [rewrite filter_cons_True by done; simpl; lia|].
    by rewrite filter_cons_False.
Qed.

Lemma filter_two (l : list Cart.t) i j x z :
  i <> j -> l !! i = Some x -> l !! j = Some z -> P x -> P z ->
  (2 <= length (filter P l))%nat.
Proof.
  revert i j. induction l as [|a l IH]; intros i j Hne Hi Hj Hx Hz; [done|].
  destruct i as [|i], j as [|j]; simpl in Hi, Hj; [done | | |].
  - injection Hi as ->. rewrite filter_cons_True by done. simpl.
    pose proof (filter_one _ _ _ Hj Hz). lia.
  - injection Hj as ->. rewrite filter_cons_True by done. simpl.
    pose proof (filter_one _ _ _ Hi Hx). lia.
  - assert (i <> j) as Hne' by congruence.
    specialize (IH _ _ Hne' Hi Hj Hx Hz).
    destruct (decide (P a)); [rewrite filter_cons_True by done; simpl; lia|].
    by rewrite filter_cons_False.
Qed.

(** Once the only active cart of the user is converted, the user has no
    active cart. *)
Lemma no_active_after_convert (l : list Cart.t) i x y :
  l !! i = Some x -> P x -> (active_count user l <= 1)%nat -> ~ P y ->
  list_find P (<[i := y]> l) = None.
Proof.
  intros Hi Hx Hc Hy. apply list_find_None, Forall_lookup.
  intros j z Hj. destruct (decide (i = j)) as [->|Hne].
  - rewrite list_lookup_insert_eq in Hj by (by eapply lookup_lt_Some).
    by injection Hj as <-.
  - rewrite list_lookup_insert_ne in Hj by done. intros Hz.
    pose proof (filter_two _ _ _ _ _ Hne Hi Hj Hx Hz).
    unfold active_count in Hc. lia.
Qed.

End one_active_cart.

Lemma create_order_converts (now : Z) (db db' : DB) (user : UUID)
    (d : OrdersApi.checkout) (payment : string) (sa ba : Address.t)
    (i : nat) (cart : Cart.t) (o : Order.t) :
  CartService.get_or_create_cart now db (Some user) None
  = (db, Some (i, cart)) ->
  OrdersApi.create_order now db user d payment sa ba i cart
  = (db', OrdersApi.Created o) ->
  carts db' = <[i := Cart.set_status cart "converted"]> (carts db)
  /\ orders db' = orders db ++ [o].
Proof.
  intros G. unfold OrdersApi.create_order, CartService.calculate_totals.
  rewrite G.
  destruct (CartService.cart_totals cart _) as [totals|]; [|done].
  destruct (negb (Order.check_constraints _)); [done|].
  destruct (OrdersApi.order_items_loop _ _) as [[ois m']|]; [|done].
  destruct (OrdersApi.commit_ok _ _ _); [|done].
  by intros [= <- <-].
Qed.

(** C5 (as the code has it). When a checkout of a user with at most one
    active cart has created an order, the same request made again creates
    no order: the user's cart is converted, [get_or_create_cart] makes a
    new, empty one, and the response is status 400 'Cart is empty'. The
    orders table holds the one order of the first call. *)
Theorem second_checkout_finds_empty_cart (now now' : Z) (db db1 : DB)
    (user : UUID) (data : option OrdersApi.checkout) (o : Order.t) :
  (active_count user (carts db) <= 1)%nat ->
  OrdersApi.post now db user data = (db1, OrdersApi.Created o) ->
  exists db2,
    OrdersApi.post now' db1 user data
    = (db2, OrdersApi.Error 400 "Cart is empty" [])
    /\ orders db1 = orders db ++ [o]
    /\ orders db2 = orders db1
    /\ kind_of (snd (OrdersApi.post now' db1 user data)) = Some EmptyCartError.
Proof.
  intros Hc H. unfold OrdersApi.post in H.
  destruct (OrdersApi.preconditions now db user data) as [db2' [r|t]] eqn:Pre.
  { apply preconditions_inl in Pre as (code & msg & details & ->).
    by injection H. }
  pose proof (get_or_create_cart_in_txn now now _ _ _ _ _ Pre) as G.
  destruct (create_order_converts _ _ _ _ _ _ _ _ _ _ _ G H) as [Hcarts Hord].
  pose proof (preconditions_inr _ _ _ _ _ _ Pre)
    as (cart0 & F & Hdb & Hact & _).
  apply list_find_Some in F as (Hi & Hact0 & _).
  assert (N : list_find (CartService.is_active_of_user user) (carts db1)
              = None).
  { rewrite Hcarts, Hdb. simpl. rewrite list_insert_insert_eq.
    eapply no_active_after_convert; [exact Hi | exact Hact0 | exact Hc |].
    intros [_ Hs]. simpl in Hs. discriminate. }
  assert (Post : OrdersApi.post now' db1 user data
                 = (set_carts (take_uuid db1)
                      (carts db1
                       ++ [Cart.mk (next_uuid db1) (Some user) None "active"
                             (Some (now' + Cart.days 30)) []]),
                    OrdersApi.Error 400 "Cart is empty" [])).
  { unfold OrdersApi.post, OrdersApi.preconditions in *.
    destruct data as [d|]; [|done].
    destruct (OrdersApi.shipping_address_id d) as [sid|]; [|done].
    destruct (OrdersApi.billing_address_id d) as [bid|]; [|done].
    destruct (negb _); [done|].
    unfold CartService.get_or_create_cart, CartService.find_cart.
    by rewrite N. }
  eexists. split_and!; [exact Post | | done | by rewrite Post].
  by rewrite Hord, Hdb.
Qed.

Lemma second_checkout_finds_empty_cart_witness :
  let db := shop [CartItem.mk 200 1 3 10.00] in
  exists db1 o db2,
    (active_count 7%Z (carts db) <= 1)%nat
    /\ OrdersApi.post 0 db 7 (Some pay_by_card) = (db1, OrdersApi.Created o)
    /\ OrdersApi.post 1 db1 7 (Some pay_by_card)
       = (db2, OrdersApi.Error 400 "Cart is empty" [])
    /\ orders db2 = [o].
Proof.
  intros db.
  assert (H0 : (active_count 7%Z (carts db) <= 1)%nat) by (vm_compute; lia).
  assert (exists db1 o,
             OrdersApi.post 0 db 7 (Some pay_by_card)
             = (db1, OrdersApi.Created o)) as (db1 & o & H1).
  { eexists _, _. vm_compute. reflexivity. }
  destruct (second_checkout_finds_empty_cart 0 1 db db1 7 (Some pay_by_card)
              o H0 H1) as (db2 & H2 & H3 & H4 & _).
  exists db1, o, db2. split_and!; [exact H0 | exact H1 | exact H2 |].
  rewrite H4, H3. reflexivity.
Defined.

(** C5, as stated, fails on its second half: the second call is answered
    'Cart is empty' on a cart created by that call, not by an error about
    the converted cart. *)
Lemma second_checkout_is_not_cart_locked :
  let db := shop [CartItem.mk 200 1 3 10.00] in
  let first := OrdersApi.post 0 db 7 (Some pay_by_card) in
  let second := OrdersApi.post 1 (fst first) 7 (Some pay_by_card) in
  kind_of (snd first) = None
  /\ length (orders (fst first)) = 1%nat
  /\ snd second = OrdersApi.Error 400 "Cart is empty" []
  /\ kind_of (snd second) = Some EmptyCartError
  /\ kind_of (snd second) <> Some CartLockedError
  /\ length (orders (fst second)) = 1%nat
  /\ Cart.status <$> carts (fst second)
     = ["converted"; "active"]%string.
Proof.
  split_and!; [vm_compute; reflexivity .. | vm_compute; discriminate | |];
    vm_compute; reflexivity.
Qed.

(** ** Order status *)

(** [AdminOrder.put] takes any status of [valid_statuses], from any
    status: only membership in the list is tested. *)
Lemma admin_put_accepts_any_status (now : Z) (db : DB) (order_id : UUID)
    (i : nat) (order : Order.t) (new_status : string) :
  OrdersApi.find_order (fun o => Order.id o =? order_id) (orders db)
  = Some (i, order) ->
  Order.str_in new_status AdminApi.valid_statuses = true ->
  new_status <> "cancelled"%string ->
  exists o',
    AdminApi.put now db true order_id (Some (set_status_request new_status))
    = (mkDB (variants db) (carts db) (<[i := o']> (orders db)) (coupons db)
         (addresses db) (next_uuid db),
       AdminApi.Updated o')
    /\ Order.status o' = new_status.
Proof.
  intros F Hin Hnc. unfold AdminApi.put. rewrite F.
  cbn -[Order.str_in AdminApi.apply_status String.eqb]. rewrite Hin.
  cbn -[Order.str_in AdminApi.apply_status String.eqb].
  unfold AdminApi.apply_status.
  assert ((new_status =? "cancelled")%string = false) as Ec
    by (by apply String.eqb_neq).
  destruct ((new_status =? "shipped")%string
            && negb (Order.status order =? "shipped")%string);
    [simpl; eexists; split; [reflexivity | done]|].
  destruct ((new_status =? "delivered")%string
            && negb (Order.status order =? "delivered")%string);
    [simpl; eexists; split; [reflexivity | done]|].
  rewrite Ec. simpl. eexists; split; [reflexivity | done].
Qed.

(** C6. On the delivered order 500: the customer's cancel endpoint
    refuses ([can_be_cancelled] is false), yet the admin status update
    takes 'cancelled', writes it and adds the two units back to the stock;
    it also takes 'pending', the way back from 'delivered'. *)
Theorem admin_put_skips_transition_check :
  let db := fulfilled_shop in
  let cancelled :=
    AdminApi.put 30 db true 500 (Some (set_status_request "cancelled")) in
  let pending :=
    AdminApi.put 30 db true 500 (Some (set_status_request "pending")) in
  Order.can_be_cancelled delivered_order = false
  /\ OrdersApi.cancel 30 db 7 500 None
     = (db, OrdersApi.Reply 400 "Order cannot be cancelled")
  /\ snd cancelled
     = AdminApi.Updated (Order.set_status delivered_order "cancelled")
  /\ ProductVariant.stock <$> variants db !! 1 = Some 5
  /\ ProductVariant.stock <$> variants (fst cancelled) !! 1 = Some 7
  /\ snd pending
     = AdminApi.Updated (Order.set_status delivered_order "pending")
  /\ orders (fst pending) = [Order.set_status delivered_order "pending"].
Proof. split_and!; vm_compute; reflexivity. Qed.

(** The refund endpoint, for comparison, tests [can_be_refunded]. *)
Lemma refund_requires_can_be_refunded (now : Z) (db : DB) (order_id : UUID)
    (i : nat) (order : Order.t) (amount : option Q) (reason : option string) :
  OrdersApi.find_order (fun o => Order.id o =? order_id) (orders db)
  = Some (i, order) ->
  Order.can_be_refunded order = false ->
  AdminApi.refund now db true order_id amount reason
  = (db, AdminApi.Error 400 "Order cannot be refunded").
Proof. intros F H. unfold AdminApi.refund. by rewrite F, H. Qed.

(** * Further properties *)

(** A list of distinct literals has no duplicates. *)
Ltac solve_NoDup :=
  repeat (apply NoDup_cons_2;
          [rewrite ?elem_of_cons, ?elem_of_nil; lia|]);
  apply NoDup_nil_2.

(** ** Rows found by a test *)

Section first_row.
Context {A : Type} (p : A -> bool).

Lemma find_none_Forall (l : list A) :
  List.find p l = None -> Forall (fun x => p x = false) l.
Proof.
  induction l as [|x l IH]; simpl; [constructor|].
  destruct (p x) eqn:E; [done|]. intros H. constructor; auto.
Qed.

Lemma Forall_find_none (l : list A) :
  Forall (fun x => p x = false) l -> List.find p l = None.
Proof. induction 1 as [|x l Hx _ IH]; simpl; [done|]. by rewrite Hx. Qed.

Lemma find_app_new (l : list A) (y : A) :
  List.find p l = None -> p y = true -> List.find p (l ++ [y]) = Some y.
Proof.
  intros H Hy. induction l as [|x l IH]; simpl in *; [by rewrite Hy|].
  destruct (p x); [done | by apply IH].
Qed.


Lemma remove_first_none (l : list A) :
  List.find p l = None -> remove_first p l = l.
Proof.
  induction l as [|x l IH]; simpl; [done|].
  destruct (p x); [done|]. intros H. by rewrite IH.
Qed.

Lemma update_first_map {B} (g : A -> B) (f : A -> A) (l : list A) :
  (forall x, g (f x) = g x) -> map g (update_first p f l) = map g l.
Proof.
  intros Hg. induction l as [|x l IH]; simpl; [done|].
  destruct (p x); simpl; [by rewrite Hg | by rewrite IH].
Qed.

Lemma update_first_find (f : A -> A) (l : list A) (x : A) :
  List.find p l = Some x -> p (f x) = true ->
  List.find p (update_first p f l) = Some (f x).
Proof.
  intros H Hf. induction l as [|y l IH]; simpl in *; [done|].
  destruct (p y) eqn:E; simpl.
  - injection H as ->. by rewrite Hf.
  - rewrite E. by apply IH.
Qed.

Lemma find_some_true (l : list A) (x : A) :
  List.find p l = Some x -> p x = true /\ In x l.
Proof.
  intros H. apply find_some in H as [? ?]. done.
Qed.

End first_row.

Lemma remove_first_key_gone {A} (g : A -> Z) (k : Z) (l : list A) :
  NoDup (map g l) ->
  List.find (fun x => g x =? k) (remove_first (fun x => g x =? k) l) = None.
Proof.
  induction l as [|x l IH]; simpl; [done|].
  intros Hn. apply NoDup_cons in Hn as [Hx Hn].
  destruct (Z.eqb_spec (g x) k) as [E|E]; simpl.
  - apply Forall_find_none, Forall_forall. intros y Hy.
    apply Z.eqb_neq. intros Ey. apply Hx.
    apply list_elem_of_In, in_map_iff. exists y. split; [congruence|].
    by apply list_elem_of_In.
  - destruct (Z.eqb_spec (g x) k); [done|]. by apply IH.
Qed.

Lemma remove_first_NoDup {A} (g : A -> Z) (p : A -> bool) (l : list A) :
  NoDup (map g l) -> NoDup (map g (remove_first p l)).
Proof.
  induction l as [|x l IH]; simpl; [done|].
  intros Hn. pose proof Hn as Hn'. apply NoDup_cons in Hn' as [Hx Hl].
  destruct (p x); [done|]. simpl. apply NoDup_cons. split; [|by apply IH].
  intros Hin. apply Hx. clear -Hin.
  induction l as [|y l IH]; simpl in *; [done|].
  destruct (p y); simpl in *.
  - by right.
  - apply elem_of_cons in Hin as [->|Hin]; [by left | right; by apply IH].
Qed.

Lemma fold_add_shift (l : list Z) (a : Z) :
  fold_left Z.add l a = a + fold_left Z.add l 0.
Proof.
  revert a. induction l as [|x l IH]; intros a; simpl; [lia|].
  rewrite (IH (a + x)), (IH (0 + x)). lia.
Qed.

Lemma fold_Qplus_shift (l : list Q) (a : Q) :
  (fold_left Qplus l a == a + fold_left Qplus l 0)%Q.
Proof.
  revert a. induction l as [|x l IH]; intros a; simpl; [ring|].
  rewrite (IH (a + x)%Q), (IH (0 + x)%Q). ring.
Qed.

(** ** app/models/cart.py: the methods of [Cart] *)

(** X2. For a variant that has a line in the cart, [add_item] creates no
    new object: it raises the quantity of that line by the quantity added,
    and the total quantity of the cart with it; one line per variant is
    kept. *)
Theorem add_item_merges_quantity (c : Cart.t) (variant : ProductVariant.t)
    (quantity : Z) (old : CartItem.t) :
  Cart.get_item_by_variant c (ProductVariant.id variant) = Some old ->
  let c' := fst (Cart.add_item c variant quantity) in
  snd (Cart.add_item c variant quantity) = []
  /\ Cart.get_total_quantity c' = Cart.get_total_quantity c + quantity
  /\ Cart.get_item_by_variant c' (ProductVariant.id variant)
     = Some (CartItem.set_quantity old (CartItem.quantity old + quantity))
  /\ (lines_unique c -> lines_unique c').
Proof.
  unfold Cart.add_item, Cart.get_item_by_variant, Cart.get_total_quantity,
    lines_unique, variant_ids.
  set (p := fun i => CartItem.variant_id i =? ProductVariant.id variant).
  intros F. rewrite F. simpl. split_and!.
  - done.
  - unfold Cart.update_variant. fold p. revert F.
    induction (Cart.items c) as [|x l IH]; simpl; [done|].
    destruct (p x); simpl; intros F.
    + rewrite (fold_add_shift _ (0 + _)), (fold_add_shift _ (0 + _)). lia.
    + rewrite (fold_add_shift _ (0 + _)),
        (fold_add_shift (map _ l) (0 + _)).
      rewrite (IH F). lia.
  - unfold Cart.update_variant. fold p.
    apply (update_first_find p
             (fun i => CartItem.set_quantity i
                         (CartItem.quantity i + quantity)) _ _ F).
    by apply find_some_true in F as [? _].
  - intros Hn. unfold Cart.update_variant.
    by rewrite update_first_map.
Qed.

Lemma add_item_merges_quantity_witness :
  let c := cart_of two_lines in
  Cart.get_item_by_variant c (ProductVariant.id hat)
  = Some (CartItem.mk 201 2 1 25.00)
  /\ Cart.add_item c hat 4
     = (cart_of [CartItem.mk 200 1 2 10.00; CartItem.mk 201 2 5 25.00], [])
  /\ Cart.get_total_quantity (fst (Cart.add_item c hat 4)) = 7.
Proof.
  intros c.
  assert (H : Cart.get_item_by_variant c (ProductVariant.id hat)
              = Some (CartItem.mk 201 2 1 25.00)) by reflexivity.
  split_and!; [exact H | reflexivity |].
  exact (proj1 (proj2 (add_item_merges_quantity c hat 4 _ H))).
Defined.

(** X3. With one line per variant, [remove_item] is idempotent: after a
    removal the variant has no line, a second [remove_item] reports
    [False] and leaves the cart as the first one left it; the same holds
    for [update_item_quantity] with a quantity of zero or less, which
    removes the line. *)
Theorem remove_item_twice (c : Cart.t) (vid : UUID) (quantity : Z) :
  lines_unique c ->
  quantity <= 0 ->
  let c1 := fst (Cart.remove_item c vid) in
  Cart.get_item_by_variant c1 vid = None
  /\ Cart.remove_item c1 vid = (c1, false)
  /\ Cart.update_item_quantity c vid quantity = Cart.remove_item c vid
  /\ Cart.update_item_quantity c1 vid quantity = (c1, false)
  /\ lines_unique c1.
Proof.
  intros Hn Hq. simpl.
  assert (G : Cart.get_item_by_variant (fst (Cart.remove_item c vid)) vid
              = None).
  { unfold Cart.remove_item.
    destruct (Cart.get_item_by_variant c vid) eqn:F; simpl; [|done].
    unfold Cart.get_item_by_variant, Cart.remove_variant. simpl.
    by apply (remove_first_key_gone CartItem.variant_id). }
  split_and!.
  - exact G.
  - unfold Cart.remove_item at 1. by rewrite G.
  - unfold Cart.update_item_quantity, Cart.remove_item.
    destruct (Cart.get_item_by_variant c vid); [|done].
    by destruct (Z.leb_spec quantity 0); [|lia].
  - unfold Cart.update_item_quantity. by rewrite G.
  - unfold Cart.remove_item.
    destruct (Cart.get_item_by_variant c vid); simpl; [|done].
    unfold lines_unique, variant_ids, Cart.remove_variant. simpl.
    by apply remove_first_NoDup.
Qed.

Lemma remove_item_twice_witness :
  let c := cart_of two_lines in
  lines_unique c
  /\ Cart.remove_item c 1 = (cart_of [CartItem.mk 201 2 1 25.00], true)
  /\ Cart.remove_item (fst (Cart.remove_item c 1)) 1
     = (cart_of [CartItem.mk 201 2 1 25.00], false).
Proof.
  intros c.
  assert (H : lines_unique c).
  { unfold lines_unique, variant_ids. simpl. solve_NoDup. }
  split_and!; [exact H | reflexivity |].
  assert (H0 : 0 <= 0) by lia.
  exact (proj1 (proj2 (remove_item_twice c 1 0 H H0))).
Defined.

(** X4. For a variant that has a line in the cart, [add_item] raises the
    subtotal by the quantity added at the snapshot price of that line, not
    at the current price of the variant. *)
Theorem add_item_subtotal (c : Cart.t) (variant : ProductVariant.t)
    (quantity : Z) (old : CartItem.t) :
  Cart.get_item_by_variant c (ProductVariant.id variant) = Some old ->
  (Cart.get_subtotal (fst (Cart.add_item c variant quantity))
   == Cart.get_subtotal c + CartItem.price old * inject_Z quantity)%Q.
Proof.
  unfold Cart.add_item, Cart.get_item_by_variant, Cart.get_subtotal,
    Cart.sumQ.
  set (p := fun i => CartItem.variant_id i =? ProductVariant.id variant).
  intros F. rewrite F. cbn [fst Cart.items Cart.set_items].
  unfold Cart.update_variant. fold p. revert F.
  induction (Cart.items c) as [|x l IH]; [done|].
  cbn [find update_first map fold_left]. destruct (p x); intros F.
  - injection F as ->. cbn [map fold_left].
    rewrite (fold_Qplus_shift _ (0 + _)%Q),
      (fold_Qplus_shift (map _ l) (0 + _)%Q).
    unfold CartItem.get_total; simpl. rewrite inject_Z_plus. ring.
  - cbn [map fold_left].
    rewrite (fold_Qplus_shift _ (0 + _)%Q),
      (fold_Qplus_shift (map _ l) (0 + _)%Q).
    rewrite (IH F). ring.
Qed.

Lemma add_item_subtotal_witness :
  let c := cart_of [CartItem.mk 200 2 1 20.00] in
  Cart.get_item_by_variant c (ProductVariant.id hat)
  = Some (CartItem.mk 200 2 1 20.00)
  /\ (ProductVariant.price hat == 25.00)%Q
  /\ (Cart.get_subtotal (fst (Cart.add_item c hat 2)) == 60.00)%Q.
Proof.
  intros c.
  assert (H : Cart.get_item_by_variant c (ProductVariant.id hat)
              = Some (CartItem.mk 200 2 1 20.00)) by reflexivity.
  split_and!; [exact H | reflexivity |].
  rewrite (add_item_subtotal c hat 2 _ H). reflexivity.
Defined.

(** ** app/models/cart.py: [validate_items] *)

Lemma line_ok_available (m : gmap UUID ProductVariant.t) (item : CartItem.t) :
  line_ok m item = true <-> line_available m item.
Proof.
  unfold line_ok, line_available, ProductVariant.is_in_stock.
  destruct (m !! CartItem.variant_id item) as [v|].
  - rewrite !andb_true_iff, negb_true_iff, Z.ltb_ge. split.
    + intros [[Ha Hs] Hq]. exists v. split_and!; try done; lia.
    + intros (v' & [= <-] & Ha & Hs & Hq). split_and!; try done; lia.
  - split; [done | by intros (v & ? & _)].
Qed.

Lemma validate_loop_full (m : gmap UUID ProductVariant.t)
    (l l' upd : list CartItem.t) (errs : list Cart.item_error) :
  Cart.validate_loop m l = Some (errs, upd, l') ->
  length errs = length (List.filter (fun it => negb (line_ok m it)) l)
  /\ (errs = [] -> Forall (price_synced m) l')
  /\ Cart.validate_loop m l' = Some (errs, [], l').
Proof.
  revert l' upd errs.
  induction l as [|item r IH]; intros l' upd errs H; simpl in H.
  - by simplify_eq.
  - destruct (m !! CartItem.variant_id item) as [v|] eqn:Hv; [|done].
    destruct (Cart.validate_loop m r) as [[[errs0 upd0] r0]|]; [|done].
    destruct (IH _ _ _ eq_refl) as (Hlen & Hsync & Hagain).
    cbn [List.filter].
    assert (Eok : line_ok m item
                  = ProductVariant.is_active v && ProductVariant.is_in_stock v
                    && negb (ProductVariant.stock v <? CartItem.quantity item))
      by (unfold line_ok; by rewrite Hv).
    rewrite Eok.
    destruct (ProductVariant.is_active v) eqn:Ha; simpl in H.
    2:{ simplify_eq. simpl. rewrite Hv, Hagain, Ha. simpl.
        split_and!; [by f_equal | done | done]. }
    destruct (ProductVariant.is_in_stock v) eqn:Hs; simpl in H.
    2:{ simplify_eq. simpl. rewrite Hv, Hagain, Ha, Hs. simpl.
        split_and!; [by f_equal | done | done]. }
    destruct (ProductVariant.stock v <? CartItem.quantity item) eqn:Hq.
    { simplify_eq. simpl. rewrite Hv, Hagain, Ha, Hs, Hq. simpl.
      split_and!; [by f_equal | done | done]. }
    destruct (negb (Qeq_bool _ _)) eqn:Hp; simplify_eq; simpl.
    + rewrite Hv, Hagain, Ha, Hs, Hq. simpl.
      rewrite (proj2 (Qeq_bool_iff _ _) (Qeq_refl _)). simpl.
      split_and!; [done | | done].
      intros ->. constructor; [|by apply Hsync].
      exists v. split; [done | reflexivity].
    + rewrite Hv, Hagain, Ha, Hs, Hq, Hp. simpl.
      split_and!; [done | | done].
      intros ->. constructor; [|by apply Hsync].
      exists v. split; [done|]. apply negb_false_iff in Hp.
      by apply Qeq_bool_iff.
Qed.

Lemma filter_not_ok_nil (m : gmap UUID ProductVariant.t)
    (l : list CartItem.t) :
  Forall (line_available m) l ->
  List.filter (fun it => negb (line_ok m it)) l = [].
Proof.
  induction 1 as [|it r Hit _ IH]; simpl; [done|].
  apply line_ok_available in Hit. by rewrite Hit.
Qed.

(** X5. [validate_items] is not fail-fast: it reports one error for each
    line that is not available (inactive, out of stock, or short of the
    quantity). The result is valid exactly when every line is available,
    and then every line carries the current price of its variant; the
    lines keep their ids, variants and quantities. *)
Theorem validate_items_one_error_per_line
    (m : gmap UUID ProductVariant.t) (c c' : Cart.t) (v : Cart.validation) :
  Cart.validate_items m c = Some (v, c') ->
  length (Cart.errors v)
  = length (List.filter (fun it => negb (line_ok m it)) (Cart.items c))
  /\ (Cart.valid v = true <-> Forall (line_available m) (Cart.items c))
  /\ (Cart.valid v = true -> Forall (price_synced m) (Cart.items c'))
  /\ map line_key (Cart.items c') = map line_key (Cart.items c).
Proof.
  unfold Cart.validate_items.
  destruct (Cart.validate_loop m (Cart.items c)) as [[[errs upd] l']|] eqn:L;
    [|done].
  intros [= <- <-]. simpl.
  destruct (validate_loop_full _ _ _ _ _ L) as (Hlen & Hsync & _).
  destruct (validate_loop_spec _ _ _ _ _ L) as (Hk & _ & _).
  assert (E : errs = [] <-> Forall (line_available m) (Cart.items c)).
  { rewrite Forall_forall. split.
    - intros ->. simpl in Hlen. symmetry in Hlen.
      apply length_zero_iff_nil in Hlen. intros it Hin.
      apply line_ok_available. apply negb_false_iff.
      apply not_true_is_false. intros Hn.
      assert (In it (List.filter (fun it => negb (line_ok m it)) (Cart.items c)))
        as Hf by (apply filter_In; split; [by apply list_elem_of_In | done]).
      by rewrite Hlen in Hf.
    - intros Hall. apply length_zero_iff_nil. rewrite Hlen.
      apply length_zero_iff_nil, filter_not_ok_nil.
      by apply Forall_forall. }
  split_and!; [done | | | done].
  - rewrite <- E. destruct errs; simpl; split; congruence.
  - intros Hv. apply Hsync. by destruct errs.
Qed.

Lemma validate_items_one_error_per_line_witness :
  let m : gmap UUID ProductVariant.t := {[ 1 := shirt; 2 := hat ]} in
  let c := cart_of [CartItem.mk 200 1 9 10.00; CartItem.mk 201 2 1 20.00] in
  exists v c',
    Cart.validate_items m c = Some (v, c')
    /\ Cart.errors v = [Cart.OnlyUnits 5 "Shirt" 9]
    /\ Cart.items c'
       = [CartItem.mk 200 1 9 10.00; CartItem.mk 201 2 1 25.00]
    /\ length (Cart.errors v)
       = length (List.filter (fun it => negb (line_ok m it)) (Cart.items c)).
Proof.
  intros m c. eexists _, _.
  match goal with |- ?P /\ _ => assert (H : P) by (vm_compute; reflexivity) end.
  split_and!; [exact H | reflexivity | reflexivity |].
  exact (proj1 (validate_items_one_error_per_line _ _ _ _ H)).
Defined.

(** X6. [validate_items] settles in one pass: run again on the cart it
    returns, it reports the same errors, has no price left to update and
    returns that cart unchanged. *)
Theorem validate_items_settles (m : gmap UUID ProductVariant.t)
    (c c' : Cart.t) (v : Cart.validation) :
  Cart.validate_items m c = Some (v, c') ->
  Cart.validate_items m c'
  = Some (Cart.mk_validation (Cart.valid v) (Cart.errors v) [], c').
Proof.
  unfold Cart.validate_items.
  destruct (Cart.validate_loop m (Cart.items c)) as [[[errs upd] l']|] eqn:L;
    [|done].
  intros [= <- <-]. simpl.
  destruct (validate_loop_full _ _ _ _ _ L) as (_ & _ & ->). simpl.
  by destruct c.
Qed.

Lemma validate_items_settles_witness :
  let m : gmap UUID ProductVariant.t := {[ 1 := shirt; 2 := hat ]} in
  let c := cart_of [CartItem.mk 200 1 9 10.00; CartItem.mk 201 2 1 20.00] in
  exists v c',
    Cart.validate_items m c = Some (v, c')
    /\ Cart.updated_items v = [CartItem.mk 201 2 1 25.00]
    /\ Cart.validate_items m c'
       = Some (Cart.mk_validation false [Cart.OnlyUnits 5 "Shirt" 9] [], c').
Proof.
  intros m c. eexists _, _.
  match goal with |- ?P /\ _ => assert (H : P) by (vm_compute; reflexivity) end.
  split_and!; [exact H | reflexivity |].
  exact (validate_items_settles _ _ _ _ H).
Defined.

(** ** app/services/cart_service.py: finding the cart again *)

Lemma list_find_snoc {A} (P : A -> Prop) `{!forall x, Decision (P x)}
    (l : list A) (y : A) :
  list_find P l = None -> P y -> list_find P (l ++ [y]) = Some (length l, y).
Proof.
  intros Hn Hy. rewrite list_find_app_r by done. simpl.
  rewrite decide_True by done. done.
Qed.

Lemma list_find_store {A} (P : A -> Prop) `{!forall x, Decision (P x)}
    (l : list A) (i : nat) (x y : A) :
  list_find P l = Some (i, x) -> P y ->
  list_find P (<[i := y]> l) = Some (i, y).
Proof.
  intros Hf Hy. apply list_find_Some in Hf as (Hi & _ & Hlt).
  apply list_find_insert_Some. right; left.
  split_and!; try done. by eapply lookup_lt_Some.
Qed.

Lemma find_cart_snoc (u : option UUID) (s : option string)
    (l : list Cart.t) (id : UUID) (e : option Z) :
  CartService.find_cart u s l = Some None ->
  CartService.find_cart u s (l ++ [Cart.mk id u s "active" e []])
  = Some (Some (length l, Cart.mk id u s "active" e [])).
Proof.
  unfold CartService.find_cart.
  destruct u as [uid|]; [|destruct s as [sid|]; [|done];
                          destruct (truthy_str sid); [|done]];
    intros [= H]; f_equal; by apply list_find_snoc.
Qed.

Lemma find_cart_store (u : option UUID) (s : option string)
    (l : list Cart.t) (i : nat) (c0 c : Cart.t) :
  CartService.find_cart u s l = Some (Some (i, c0)) ->
  keeps_owner c0 c ->
  CartService.find_cart u s (<[i := c]> l) = Some (Some (i, c)).
Proof.
  unfold CartService.find_cart. intros H (Hu & Hs & Hst).
  destruct u as [uid|]; [|destruct s as [sid|]; [|done];
                          destruct (truthy_str sid); [|done]];
    injection H as H'; f_equal;
    (eapply list_find_store; [exact H'|]);
    apply list_find_Some in H' as (_ & [? ?] & _);
    split; congruence.
Qed.

Lemma get_or_create_cart_refind (now : Z) (db db1 : DB) (u : option UUID)
    (s : option string) (r : option (nat * Cart.t)) :
  CartService.get_or_create_cart now db u s = (db1, r) ->
  CartService.find_cart u s (carts db1) = Some <$> r.
Proof.
  unfold CartService.get_or_create_cart.
  destruct (CartService.find_cart u s (carts db)) as [[ic|]|] eqn:F;
    intros [= <- <-]; simpl; [done | | done].
  by apply find_cart_snoc.
Qed.

Lemma get_or_create_cart_of_find (now : Z) (db : DB) (u : option UUID)
    (s : option string) (ic : nat * Cart.t) :
  CartService.find_cart u s (carts db) = Some (Some ic) ->
  CartService.get_or_create_cart now db u s = (db, Some ic).
Proof. intros F. unfold CartService.get_or_create_cart. by rewrite F. Qed.

Lemma get_or_create_cart_again (now now' : Z) (db db1 : DB)
    (u : option UUID) (s : option string) (r : option (nat * Cart.t)) :
  CartService.get_or_create_cart now db u s = (db1, r) ->
  CartService.get_or_create_cart now' db1 u s = (db1, r).
Proof.
  intros G. pose proof (get_or_create_cart_refind _ _ _ _ _ _ G) as F.
  destruct r as [ic|]; simpl in F.
  - by apply get_or_create_cart_of_find.
  - revert G. unfold CartService.get_or_create_cart.
    destruct (CartService.find_cart u s (carts db)) as [[ic|]|] eqn:F0;
      intros [= <-]; by rewrite F0.
Qed.

(** X7. [get_or_create_cart] creates at most once: called again on the
    database it returned, for the same user or session, it returns the same
    cart at the same position and changes nothing. *)
Theorem get_or_create_cart_idempotent (now now' : Z) (db db1 : DB)
    (u : option UUID) (s : option string) (r : option (nat * Cart.t)) :
  CartService.get_or_create_cart now db u s = (db1, r) ->
  CartService.get_or_create_cart now' db1 u s = (db1, r).
Proof.
  intros G. pose proof (get_or_create_cart_refind _ _ _ _ _ _ G) as F.
  destruct r as [ic|]; simpl in F.
  - by apply get_or_create_cart_of_find.
  - revert G. unfold CartService.get_or_create_cart.
    destruct (CartService.find_cart u s (carts db)) as [[ic|]|] eqn:F0;
      intros [= <-]; by rewrite F0.
Qed.

Lemma get_or_create_cart_idempotent_witness :
  exists db1 c,
    CartService.get_or_create_cart 5 closed_shop (Some 7) None
    = (db1, Some (1%nat, c))
    /\ Cart.id c = 1000 /\ length (carts db1) = 2%nat
    /\ CartService.get_or_create_cart 9 db1 (Some 7) None
       = (db1, Some (1%nat, c)).
Proof.
  eexists _, _.
  match goal with |- ?P /\ _ => assert (H : P) by (vm_compute; reflexivity) end.
  split_and!; [exact H | reflexivity | reflexivity |].
  exact (get_or_create_cart_idempotent 5 9 _ _ _ _ _ H).
Defined.

(** X8. No operation on the cart reserves anything: add, update, remove,
    clear, apply coupon and remove coupon leave the variants (and so every
    stock), the orders, the coupons and the addresses as they were. *)
Theorem cart_operations_touch_only_carts (now : Z) (db : DB)
    (u : option UUID) (s : option string) (op : cart_operation) :
  let db' := fst (run_cart_operation now db u s op) in
  variants db' = variants db /\ orders db' = orders db
  /\ coupons db' = coupons db /\ addresses db' = addresses db.
Proof.
  destruct (CartService.get_or_create_cart now db u s) as [db1 r] eqn:G.
  pose proof (get_or_create_cart_spec _ _ _ _ _ _ G) as (Hv&Ho&Hc&Ha&_).
  destruct op as [[vid q|id q|id|]|code|]; simpl;
    unfold CartService.remove_from_cart, CartService.add_to_cart,
      CartService.update_cart_item, CartService.clear_cart,
      CartService.apply_coupon, CartService.remove_coupon;
    rewrite ?G; repeat case_match; simplify_eq; simpl; try done;
    rewrite ?G; simpl; done.
Qed.

(** ** app/services/cart_service.py: the lines of a cart *)

Lemma cart_operation_shape (now : Z) (db : DB) (u : option UUID)
    (s : option string) (op : cart_operation) :
  exists db1,
    cart_added (carts db) (carts db1)
    /\ cart_written item_step (carts db1)
         (carts (fst (run_cart_operation now db u s op))).
Proof.
  destruct (CartService.get_or_create_cart now db u s) as [db1 r] eqn:G.
  pose proof (get_or_create_cart_added _ _ _ _ _ _ G) as Hadd.
  pose proof (get_or_create_cart_spec _ _ _ _ _ _ G) as (_&_&_&_&_&Hr).
  assert (W : forall j c c', r = Some (j, c) -> item_step c c' ->
              cart_written item_step (carts db1) (<[j := c']> (carts db1))).
  { intros j c c' -> HR. destruct (Hr j c eq_refl) as [Hj Hact].
    right. by exists j, c, c'. }
  destruct op as [[vid q|id q|id|]|code|]; simpl;
    unfold CartService.remove_from_cart, CartService.add_to_cart,
      CartService.update_cart_item, CartService.clear_cart,
      CartService.apply_coupon, CartService.remove_coupon.
  - destruct (variants db !! vid) as [v|];
      [|exists db; split; left; done].
    destruct (negb (ProductVariant.is_active v));
      [exists db; split; left; done|].
    destruct (negb (ProductVariant.is_in_stock v)
              || (ProductVariant.stock v <? q));
      [exists db; split; left; done|].
    rewrite G. exists db1. split; [done|].
    destruct r as [[j c]|]; simpl; [|by left].
    destruct (find _ _) eqn:F; [destruct (_ <? _); simpl; [by left|]|];
      simpl; (eapply W; [done|]); (split; [done|]);
      unfold lines_unique, variant_ids; simpl; intros Hn.
    + by rewrite update_first_map.
    + rewrite map_app. simpl.
      apply NoDup_app. split_and!; [done | | apply NoDup_singleton].
      intros x Hx ->%list_elem_of_singleton.
      apply find_none_Forall in F. rewrite Forall_forall in F.
      apply list_elem_of_In, in_map_iff in Hx as (y & Hy & Hin).
      specialize (F y (proj2 (list_elem_of_In _ _) Hin)). simpl in F.
      apply Z.eqb_neq in F. congruence.
  - rewrite G. exists db1. split; [done|].
    destruct r as [[j c]|]; simpl; [|by left].
    destruct (find _ _); simpl; [|by left].
    destruct (q =? 0); simpl.
    { eapply W; [done|]. split; [done|].
      unfold lines_unique, variant_ids; simpl.
      apply remove_first_NoDup. }
    destruct (variants db1 !! _); simpl; [|by left].
    destruct (_ <? _); simpl; [by left|].
    eapply W; [done|]. split; [done|].
    unfold lines_unique, variant_ids; simpl. by rewrite update_first_map.
  - rewrite G. exists db1. split; [done|].
    destruct r as [[j c]|]; simpl; [|by left].
    destruct (find _ _); simpl; [|by left].
    eapply W; [done|]. split; [done|].
    unfold lines_unique, variant_ids; simpl. apply remove_first_NoDup.
  - rewrite G. exists db1. split; [done|].
    destruct r as [[j c]|]; simpl; [|by left].
    eapply W; [done|]. split; [done|]. intros _. apply NoDup_nil_2.
  - rewrite G. exists db1. split; [done|].
    destruct r as [[j c]|]; simpl; [|by left].
    destruct (CartService.find_coupon _ _); simpl; [|by left].
    destruct (negb _); simpl; by left.
  - rewrite G. exists db1. split; [done|].
    destruct r as [[j c]|]; simpl; by left.
Qed.

(** X9. The cart service keeps at most one line per variant in every
    cart: if no cart has two lines of one variant, none has after add,
    update, remove, clear, apply coupon or remove coupon. *)
Theorem cart_operations_keep_one_line_per_variant (now : Z) (db : DB)
    (u : option UUID) (s : option string) (op : cart_operation) :
  Forall lines_unique (carts db) ->
  Forall lines_unique (carts (fst (run_cart_operation now db u s op))).
Proof.
  intros H.
  destruct (cart_operation_shape now db u s op) as (db1 & Ha & Hw).
  assert (H1 : Forall lines_unique (carts db1)).
  { destruct Ha as [->|(c & -> & _ & Hi)]; [done|].
    apply Forall_app. split; [done|]. constructor; [|done].
    unfold lines_unique, variant_ids. rewrite Hi. apply NoDup_nil_2. }
  destruct Hw as [->|(j & c & c' & Hj & _ & [_ Hu] & ->)]; [done|].
  apply Forall_insert; [done|]. apply Hu.
  by eapply (Forall_lookup_1 lines_unique).
Qed.

Lemma cart_operations_keep_one_line_per_variant_witness :
  Forall lines_unique (carts big_shop)
  /\ Cart.items
       <$> carts (fst (run_cart_operation 0 big_shop (Some 7) None
                         (Mutate (AddItem 2 3))))
     = [[CartItem.mk 200 1 2 10.00; CartItem.mk 201 2 4 25.00]]
  /\ Forall lines_unique
       (carts (fst (run_cart_operation 0 big_shop (Some 7) None
                      (Mutate (AddItem 2 3))))).
Proof.
  assert (H : Forall lines_unique (carts big_shop)).
  { apply Forall_singleton. unfold lines_unique, variant_ids. simpl.
    solve_NoDup. }
  split_and!; [exact H | vm_compute; reflexivity |].
  exact (cart_operations_keep_one_line_per_variant 0 big_shop (Some 7) None
           (Mutate (AddItem 2 3)) H).
Defined.

(** X10. A successful [add_to_cart] never asks for more than the stock:
    the variant exists and is active, and the cart's line of the variant
    holds a quantity within the variant's stock, at the variant's current
    price. *)
Theorem add_to_cart_within_stock (now : Z) (db db' : DB) (u : option UUID)
    (s : option string) (variant_id : UUID) (quantity : Z) (cart' : Cart.t)
    (info : option CartService.discount_info) :
  CartService.add_to_cart now db u s variant_id quantity
  = (db', CartService.Success cart' info) ->
  exists v line,
    variants db !! variant_id = Some v
    /\ ProductVariant.is_active v = true
    /\ Cart.get_item_by_variant cart' variant_id = Some line
    /\ CartItem.quantity line <= ProductVariant.stock v
    /\ CartItem.price line = ProductVariant.price v.
Proof.
  unfold CartService.add_to_cart, Cart.get_item_by_variant.
  destruct (variants db !! variant_id) as [v|] eqn:Hv; [|done].
  destruct (negb (ProductVariant.is_active v)) eqn:Ha; [done|].
  destruct (negb (ProductVariant.is_in_stock v)
            || (ProductVariant.stock v <? quantity)) eqn:Hs; [done|].
  apply negb_false_iff in Ha. apply orb_false_iff in Hs as [_ Hq].
  apply Z.ltb_ge in Hq.
  destruct (CartService.get_or_create_cart now db u s) as [db1 [[i c]|]];
    [|done].
  set (p := fun item => CartItem.variant_id item =? variant_id).
  destruct (find p (Cart.items c)) as [old|] eqn:F.
  - destruct (ProductVariant.stock v <? CartItem.quantity old + quantity)
      eqn:Hn; [done|].
    apply Z.ltb_ge in Hn. intros [= <- <- <-]. simpl.
    eexists v, _. split_and!; [done | done | | |].
    + apply (update_first_find p _ _ _ F).
      by apply find_some_true in F as [? _].
    + simpl. lia.
    + done.
  - intros [= <- <- <-]. simpl.
    eexists v, _. split_and!; [done | done | | |].
    + apply find_app_new; [done|]. unfold p; simpl. apply Z.eqb_refl.
    + simpl. lia.
    + done.
Qed.

Lemma add_to_cart_within_stock_witness :
  exists db' cart',
    CartService.add_to_cart 0 big_shop (Some 7) None 2 3
    = (db', CartService.Success cart' None)
    /\ CartService.add_to_cart 0 big_shop (Some 7) None 2 8
       = (big_shop, CartService.Failure (CartService.OnlyUnitsInStock 8))
    /\ exists v line,
         variants big_shop !! 2 = Some v
         /\ ProductVariant.is_active v = true
         /\ Cart.get_item_by_variant cart' 2 = Some line
         /\ CartItem.quantity line <= ProductVariant.stock v
         /\ CartItem.price line = ProductVariant.price v.
Proof.
  eexists _, _.
  match goal with |- ?P /\ _ => assert (H : P) by (vm_compute; reflexivity) end.
  split_and!; [exact H | vm_compute; reflexivity |].
  exact (add_to_cart_within_stock _ _ _ _ _ _ _ _ _ H).
Defined.

Lemma refind_after_store (now now' : Z) (db dbg : DB) (u : option UUID)
    (s : option string) (i : nat) (c c' : Cart.t) :
  CartService.get_or_create_cart now db u s = (dbg, Some (i, c)) ->
  keeps_owner c c' ->
  CartService.get_or_create_cart now' (CartService.store_cart dbg i c') u s
  = (CartService.store_cart dbg i c', Some (i, c')).
Proof.
  intros G K. apply get_or_create_cart_of_find. simpl.
  apply get_or_create_cart_refind in G. simpl in G.
  by eapply find_cart_store.
Qed.

Lemma get_or_create_cart_keeps (now : Z) (db db1 : DB) (u : option UUID)
    (s : option string) (r : option (nat * Cart.t)) (P : Cart.t -> Prop) :
  CartService.get_or_create_cart now db u s = (db1, r) ->
  Forall P (carts db) ->
  (forall c, Cart.items c = [] -> P c) ->
  Forall P (carts db1).
Proof.
  intros G H Hnew. apply get_or_create_cart_added in G.
  destruct G as [->|(c & -> & _ & Hi)]; [done|].
  apply Forall_app. split; [done|]. constructor; [by apply Hnew | done].
Qed.

(** X11. Removing a line twice is not an error that changes anything: when
    the ids of the lines are distinct and [remove_from_cart] has removed a
    line, the same call made again answers 'Cart item not found' and leaves
    the database as the first call left it. *)
Theorem remove_from_cart_twice (now now' : Z) (db db1 : DB)
    (u : option UUID) (s : option string) (item_id : UUID) (cart' : Cart.t)
    (info : option CartService.discount_info) :
  Forall line_ids_unique (carts db) ->
  CartService.remove_from_cart now db u s item_id
  = (db1, CartService.Success cart' info) ->
  List.find (fun item => CartItem.id item =? item_id) (Cart.items cart') = None
  /\ CartService.remove_from_cart now' db1 u s item_id
     = (db1, CartService.Failure CartService.CartItemNotFound).
Proof.
  intros Hids. unfold CartService.remove_from_cart.
  unfold CartService.update_cart_item at 1.
  destruct (CartService.get_or_create_cart now db u s) as [dbg r] eqn:G.
  pose proof (get_or_create_cart_keeps _ _ _ _ _ _ line_ids_unique G Hids)
    as Hg.
  pose proof (get_or_create_cart_spec _ _ _ _ _ _ G) as (_&_&_&_&_&Hr).
  destruct r as [[i c]|]; [|done].
  destruct (Hr i c eq_refl) as [Hi _].
  assert (Hc : line_ids_unique c).
  { eapply (Forall_lookup_1 line_ids_unique); [apply Hg | exact Hi].
    intros c0 H0. unfold line_ids_unique. rewrite H0. apply NoDup_nil_2. }
  set (this := fun item => CartItem.id item =? item_id).
  destruct (find this (Cart.items c)) as [it|] eqn:F; [|done].
  simpl. intros [= <- <- <-]. simpl.
  assert (N : find this (remove_first this (Cart.items c)) = None)
    by (by apply (remove_first_key_gone CartItem.id)).
  split; [exact N|].
  unfold CartService.update_cart_item.
  erewrite refind_after_store; [| exact G | done].
  simpl. fold this. by rewrite N.
Qed.

Lemma remove_from_cart_twice_witness :
  exists db1 cart',
    Forall line_ids_unique (carts big_shop)
    /\ CartService.remove_from_cart 0 big_shop (Some 7) None 200
       = (db1, CartService.Success cart' None)
    /\ Cart.items cart' = [CartItem.mk 201 2 1 25.00]
    /\ CartService.remove_from_cart 1 db1 (Some 7) None 200
       = (db1, CartService.Failure CartService.CartItemNotFound).
Proof.
  assert (H : Forall line_ids_unique (carts big_shop)).
  { apply Forall_singleton. unfold line_ids_unique. simpl. solve_NoDup. }
  eexists _, _. split; [exact H|].
  match goal with |- ?P /\ _ => assert (H1 : P) by (vm_compute; reflexivity) end.
  split_and!; [exact H1 | reflexivity |].
  exact (proj2 (remove_from_cart_twice 0 1 _ _ _ _ _ _ _ H H1)).
Defined.

(** ** app/services/cart_service.py: coupons on the cart *)

Lemma upper_ascii_idempotent (a : ascii) :
  CartService.upper_ascii (CartService.upper_ascii a)
  = CartService.upper_ascii a.
Proof.
  destruct a as [[] [] [] [] [] [] [] []]; reflexivity.
Qed.

Lemma upper_idempotent (s : string) :
  CartService.upper (CartService.upper s) = CartService.upper s.
Proof.
  induction s as [|a s IH]; simpl; [done|].
  by rewrite upper_ascii_idempotent, IH.
Qed.

(** X12. [apply_coupon] looks the code up in upper case: two codes that
    differ only in the case of their ASCII letters get the same answer,
    the code as typed and its upper-case form among them; and a call that
    gets past the lookup (its answer is neither 'Cart not found' nor
    'Invalid coupon code') has found a coupon whose stored code is in
    upper case, so a coupon stored with a lower-case letter is never
    found. *)
Theorem apply_coupon_ignores_case (now : Z) (db : DB) (u : option UUID)
    (s : option string) (code code' : string) :
  (CartService.upper code = CartService.upper code' ->
   CartService.apply_coupon now db u s code
   = CartService.apply_coupon now db u s code')
  /\ CartService.apply_coupon now db u s (CartService.upper code)
     = CartService.apply_coupon now db u s code
  /\ (snd (CartService.apply_coupon now db u s code)
      <> CartService.Failure CartService.CartNotFound ->
      snd (CartService.apply_coupon now db u s code)
      <> CartService.Failure CartService.InvalidCouponCode ->
      exists coupon,
        In coupon (coupons db)
        /\ Coupon.code coupon = CartService.upper code
        /\ CartService.upper (Coupon.code coupon) = Coupon.code coupon).
Proof.
  split_and!.
  - intros E. unfold CartService.apply_coupon. by rewrite E.
  - unfold CartService.apply_coupon. by rewrite upper_idempotent.
  - unfold CartService.apply_coupon.
    destruct (CartService.get_or_create_cart now db u s) as [db1 r] eqn:G.
    pose proof (get_or_create_cart_spec _ _ _ _ _ _ G) as (_&_&Hc&_).
    destruct r as [[i c]|]; [|done].
    destruct (CartService.find_coupon _ _) as [coupon|] eqn:F; [|done].
    intros _ _.
    unfold CartService.find_coupon in F. apply find_some in F as [Hin Hcode].
    apply String.eqb_eq in Hcode. exists coupon.
    split_and!; [by rewrite <- Hc | done |].
    rewrite Hcode. apply upper_idempotent.
Qed.

Lemma apply_coupon_ignores_case_witness :
  let db := shop [CartItem.mk 200 1 3 10.00] in
  CartService.upper "Save10" = CartService.upper "sAVE10"
  /\ CartService.apply_coupon 0 db (Some 7) None "Save10"
     = CartService.apply_coupon 0 db (Some 7) None "sAVE10"
  /\ snd (CartService.apply_coupon 0 db (Some 7) None "Save10")
     = CartService.Failure (CartService.Failed "Failed to apply coupon")
  /\ exists coupon, In coupon (coupons db)
                    /\ Coupon.code coupon = "SAVE10"%string.
Proof.
  intros db.
  assert (H : CartService.upper "Save10" = CartService.upper "sAVE10")
    by reflexivity.
  split_and!; [exact H | | vm_compute; reflexivity |].
  - exact (proj1 (apply_coupon_ignores_case 0 db (Some 7) None
                    "Save10" "sAVE10") H).
  - destruct (proj2 (proj2 (apply_coupon_ignores_case 0 db (Some 7) None
                              "Save10" "Save10")))
      as (coupon & Hin & Hcode & _);
      [vm_compute; discriminate | vm_compute; discriminate |].
    by exists coupon.
Defined.


(** X13. [remove_coupon] never succeeds: a caller without user and session
    is answered 'Cart not found' and every other caller 'Failed to remove
    coupon'; nothing is written but the active cart that
    [get_or_create_cart] creates for a caller who has none, and the call
    made again gets the same answer and changes nothing. *)
Theorem remove_coupon_never_succeeds (now now' : Z) (db : DB)
    (u : option UUID) (s : option string) :
  let found := CartService.get_or_create_cart now db u s in
  let r := CartService.remove_coupon now db u s in
  r = (fst found,
       CartService.Failure
         (if is_some (snd found)
          then CartService.Failed "Failed to remove coupon"
          else CartService.CartNotFound))
  /\ CartService.remove_coupon now' (fst r) u s = r.
Proof.
  cbv zeta.
  assert (E : CartService.remove_coupon now db u s
              = (fst (CartService.get_or_create_cart now db u s),
                 CartService.Failure
                   (if is_some (snd (CartService.get_or_create_cart
                                       now db u s))
                    then CartService.Failed "Failed to remove coupon"
                    else CartService.CartNotFound))).
  { unfold CartService.remove_coupon.
    by destruct (CartService.get_or_create_cart now db u s)
      as [db1 [[i c]|]]. }
  split; [exact E|]. rewrite E. cbn [fst].
  unfold CartService.remove_coupon.
  destruct (CartService.get_or_create_cart now db u s) as [db1 r] eqn:G.
  cbn [fst snd]. rewrite (get_or_create_cart_again now now' _ _ _ _ _ G).
  by destruct r as [[i c]|].
Qed.

(** X14. No coupon call changes the totals of the cart: after
    [apply_coupon] or [remove_coupon], whatever it answered,
    [calculate_totals] reports what it reports without the call, and the
    discount it reports is zero. *)
Theorem totals_after_coupon_calls (now now' : Z) (db : DB)
    (u : option UUID) (s : option string) (code : string)
    (addr : option UUID) :
  let totals := snd (CartService.calculate_totals now db u s addr) in
  snd (CartService.calculate_totals now'
         (fst (CartService.apply_coupon now db u s code)) u s addr)
  = totals
  /\ snd (CartService.calculate_totals now'
            (fst (CartService.remove_coupon now db u s)) u s addr)
     = totals
  /\ forall t, totals = Some t -> (CartService.t_discount t == 0)%Q.
Proof.
  simpl.
  destruct (apply_coupon_fails now db u s code) as [e ->].
  destruct (remove_coupon_fails now db u s) as [e' ->].
  unfold CartService.calculate_totals.
  destruct (CartService.get_or_create_cart now db u s) as [db1 r] eqn:G.
  simpl. rewrite (get_or_create_cart_again now now' _ _ _ _ _ G).
  split_and!; [done | done |].
  destruct r as [[i c]|]; simpl; [|done].
  unfold CartService.cart_totals.
  destruct (Cart.is_empty c); intros t [= <-]; reflexivity.
Qed.

Lemma totals_after_coupon_calls_witness :
  let db := shop [CartItem.mk 200 1 3 10.00] in
  exists t,
    snd (CartService.calculate_totals 0 db (Some 7) None None) = Some t
    /\ snd (CartService.calculate_totals 1
              (fst (CartService.apply_coupon 0 db (Some 7) None "forty"))
              (Some 7) None None) = Some t
    /\ (CartService.t_discount t == 0)%Q
    /\ (CartService.t_total t == 42.39)%Q.
Proof.
  intros db.
  assert (exists t,
             snd (CartService.calculate_totals 0 db (Some 7) None None)
             = Some t) as (t & H).
  { eexists. vm_compute. reflexivity. }
  destruct (totals_after_coupon_calls 0 1 db (Some 7) None "forty" None)
    as (Ha & _ & Hd).
  exists t. split_and!; [exact H | by rewrite Ha | exact (Hd t H) |].
  assert (Some t
          = snd (CartService.calculate_totals 0 db (Some 7) None None))
    as [= ->] by (by rewrite H).
  reflexivity.
Defined.

(** ** app/api/v1/orders.py: what a checkout writes *)

Lemma units_of_cons (vid : UUID) (item : CartItem.t) (l : list CartItem.t) :
  units_of vid (item :: l)
  = (if CartItem.variant_id item =? vid then CartItem.quantity item else 0)
    + units_of vid l.
Proof.
  unfold units_of. simpl. rewrite fold_add_shift. lia.
Qed.

Lemma ordered_units_cons (vid : UUID) (item : OrderItem.t)
    (l : list OrderItem.t) :
  ordered_units vid (item :: l)
  = (if OrderItem.variant_id item =? vid then OrderItem.quantity item else 0)
    + ordered_units vid l.
Proof.
  unfold ordered_units. simpl. rewrite fold_add_shift. lia.
Qed.

Lemma set_stock_same (v : ProductVariant.t) (s : Z) :
  s = ProductVariant.stock v -> ProductVariant.set_stock v s = v.
Proof. intros ->. by destruct v. Qed.

Lemma set_stock_twice (v : ProductVariant.t) (a b : Z) :
  ProductVariant.set_stock (ProductVariant.set_stock v a) b
  = ProductVariant.set_stock v b.
Proof. reflexivity. Qed.

(** The loop of the checkout writes, for every variant, its stock less the
    units the cart asks of it, and an order item per line. *)
Lemma order_items_loop_lookup (m m' : gmap UUID ProductVariant.t)
    (l : list CartItem.t) (ois : list OrderItem.t) :
  OrdersApi.order_items_loop m l = Some (ois, m') ->
  map OrderItem.variant_id ois = map CartItem.variant_id l
  /\ map OrderItem.quantity ois = map CartItem.quantity l
  /\ map OrderItem.price ois = map CartItem.price l
  /\ map OrderItem.total ois = map CartItem.get_total l
  /\ forall vid,
       m' !! vid
       = (fun v => ProductVariant.set_stock v
                     (ProductVariant.stock v - units_of vid l)) <$> m !! vid.
Proof.
  revert m ois m'. induction l as [|item r IH]; intros m ois m' H.
  - simpl in H. injection H as <- <-. split_and!; try done.
    intros vid. destruct (m !! vid) as [v|]; simpl; [|done].
    f_equal. symmetry. apply set_stock_same. unfold units_of. simpl. lia.
  - simpl in H.
    destruct (m !! CartItem.variant_id item) as [v0|] eqn:Hv0; [|done].
    destruct (OrdersApi.order_items_loop _ r) as [[ois0 m0]|] eqn:L; [|done].
    injection H as <- <-.
    destruct (IH _ _ _ L) as (Hid & Hq & Hp & Ht & Hm).
    split_and!; simpl; try (by f_equal).
    intros vid. rewrite Hm, units_of_cons.
    destruct (Z.eqb_spec (CartItem.variant_id item) vid) as [E|E].
    + subst vid. rewrite lookup_insert_eq, Hv0. simpl.
      rewrite set_stock_twice. do 2 f_equal. lia.
    + rewrite lookup_insert_ne by done.
      destruct (m !! vid); simpl; [|done]. do 2 f_equal.
Qed.

Lemma ordered_units_of_lines (vid : UUID) (l : list CartItem.t)
    (ois : list OrderItem.t) :
  map OrderItem.variant_id ois = map CartItem.variant_id l ->
  map OrderItem.quantity ois = map CartItem.quantity l ->
  ordered_units vid ois = units_of vid l.
Proof.
  revert ois. induction l as [|item r IH]; intros [|oi ois] Hv Hq;
    simplify_eq/=; [done|].
  rewrite units_of_cons, ordered_units_cons.
  rewrite (IH ois) by done. by repeat match goal with H : _ = _ |- _ =>
    rewrite H end.
Qed.

Lemma restore_stock_lookup (m : gmap UUID ProductVariant.t)
    (ois : list OrderItem.t) (vid : UUID) :
  restore_stock m ois !! vid
  = (fun v => ProductVariant.set_stock v
                (ProductVariant.stock v + ordered_units vid ois)) <$> m !! vid.
Proof.
  revert m. induction ois as [|oi ois IH]; intros m.
  - simpl. destruct (m !! vid) as [v|]; simpl; [|done].
    f_equal. symmetry. apply set_stock_same. unfold ordered_units. simpl. lia.
  - unfold restore_stock in *. simpl. rewrite IH, ordered_units_cons.
    destruct (m !! OrderItem.variant_id oi) as [v0|] eqn:Hv0.
    + destruct (Z.eqb_spec (OrderItem.variant_id oi) vid) as [E|E].
      * subst vid. rewrite lookup_insert_eq, Hv0. simpl.
        rewrite set_stock_twice. do 2 f_equal. lia.
      * rewrite lookup_insert_ne by done.
        destruct (m !! vid); simpl; [|done]. do 2 f_equal.
    + destruct (Z.eqb_spec (OrderItem.variant_id oi) vid) as [E|E].
      * subst vid. by rewrite Hv0.
      * destruct (m !! vid); simpl; [|done]. do 2 f_equal.
Qed.

(** What a created order tells about the transaction that made it. *)
Lemma post_created (now : Z) (db db' : DB) (user : UUID)
    (data : option OrdersApi.checkout) (o : Order.t) :
  OrdersApi.post now db user data = (db', OrdersApi.Created o) ->
  exists db2 t m',
    OrdersApi.preconditions now db user data = (db2, inr t)
    /\ OrdersApi.order_items_loop (variants db2)
         (Cart.items (OrdersApi.in_cart t))
       = Some (Order.items o, m')
    /\ OrdersApi.commit_ok o m' (Cart.items (OrdersApi.in_cart t)) = true
    /\ db' = mkDB m'
               (<[OrdersApi.in_pos t :=
                    Cart.set_status (OrdersApi.in_cart t) "converted"]>
                  (carts db2))
               (orders db2 ++ [o]) (coupons db2) (addresses db2)
               (next_uuid db2 + 1)
    /\ Order.id o = next_uuid db2
    /\ Order.user_id o = Some user
    /\ Order.subtotal o = Cart.get_subtotal (OrdersApi.in_cart t)
    /\ (Order.status o, Order.payment_status o)
       = if Order.str_in (OrdersApi.in_payment t)
              ["credit_card"; "paypal"]%string
         then ("confirmed", "captured")%string
         else ("pending", "pending")%string.
Proof.
  unfold OrdersApi.post.
  destruct (OrdersApi.preconditions now db user data) as [db2 [r|t]] eqn:P.
  { apply preconditions_inl in P as (code & msg & details & ->). done. }
  pose proof (get_or_create_cart_in_txn now now _ _ _ _ _ P) as G.
  pose proof (preconditions_inr _ _ _ _ _ _ P)
    as (_ & _ & _ & _ & _ & Hne & _).
  unfold OrdersApi.create_order, CartService.calculate_totals. rewrite G.
  rewrite cart_totals_lines by done.
  destruct (negb (Order.check_constraints _)); [done|].
  destruct (OrdersApi.order_items_loop _ _) as [[ois m']|] eqn:L; [|done].
  destruct (Order.str_in (OrdersApi.in_payment t) _) eqn:Pay;
    (destruct (OrdersApi.commit_ok _ _ _) eqn:Hok; [|done]);
    intros [= <- <-]; exists db2, t, m';
    split_and!; try done; by rewrite Pay.
Qed.

Lemma preconditions_validated (now : Z) (db db2 : DB) (user : UUID)
    (data : option OrdersApi.checkout) (t : OrdersApi.txn_input) :
  OrdersApi.preconditions now db user data = (db2, inr t) ->
  exists cart0 v,
    list_find (CartService.is_active_of_user user) (carts db)
    = Some (OrdersApi.in_pos t, cart0)
    /\ Cart.validate_items (variants db) cart0 = Some (v, OrdersApi.in_cart t)
    /\ Cart.valid v = true
    /\ data = Some (OrdersApi.in_data t)
    /\ OrdersApi.payment_method (OrdersApi.in_data t)
       = Some (OrdersApi.in_payment t).
Proof.
  unfold OrdersApi.preconditions.
  destruct data as [d|]; [|done].
  destruct (OrdersApi.shipping_address_id d) as [sid|]; [|done].
  destruct (OrdersApi.billing_address_id d) as [bid|]; [|done].
  destruct (OrdersApi.payment_method d) as [pay|] eqn:Pay; [|done].
  destruct (negb _); [done|].
  destruct (CartService.get_or_create_cart now db (Some user) None)
    as [db1 [[i cart]|]] eqn:G; [|done].
  destruct (Cart.is_empty cart) eqn:Hne; [done|].
  destruct (get_or_create_cart_nonempty _ _ _ _ _ _ G Hne) as [-> F].
  unfold CartService.validate_cart. rewrite G.
  destruct (Cart.validate_items (variants db) cart) as [[v cart']|] eqn:V;
    [|done].
  simpl. destruct (negb (Cart.valid v)) eqn:Hv; [done|].
  apply negb_false_iff in Hv.
  destruct (OrdersApi.find_address sid _ _) as [sa|]; [|done].
  destruct (OrdersApi.find_address bid _ _) as [ba|]; [|done].
  intros [= <- <-]; simpl.
  pose proof F as F'. apply list_find_Some in F' as (Hi & _ & _).
  exists cart, v. split_and!; try done.
  unfold Cart.validate_items in V.
  destruct (Cart.validate_loop (variants db) (Cart.items cart))
    as [[[errs upd] l']|] eqn:L; [|done].
  injection V as <- <-. simpl in *.
  destruct (validate_loop_spec _ _ _ _ _ L) as (_ & Hu & _).
  unfold Cart.validate_items. rewrite L. do 2 f_equal.
  destruct upd as [|u0 upd].
  - rewrite (Hu eq_refl), set_items_same, Hi. done.
  - simpl. by rewrite list_lookup_insert_eq by (by eapply lookup_lt_Some).
Qed.

Lemma order_items_loop_rows (m m' : gmap UUID ProductVariant.t)
    (l : list CartItem.t) (ois : list OrderItem.t) :
  OrdersApi.order_items_loop m l = Some (ois, m') ->
  Forall (fun it => is_Some (m !! CartItem.variant_id it)) l.
Proof.
  revert m ois m'. induction l as [|item r IH]; intros m ois m' H;
    [constructor|].
  simpl in H.
  destruct (m !! CartItem.variant_id item) as [v0|] eqn:Hv0; [|done].
  destruct (OrdersApi.order_items_loop _ r) as [[ois0 m0]|] eqn:L; [|done].
  constructor; [by rewrite Hv0|].
  eapply Forall_impl; [exact (IH _ _ _ L)|]. simpl. intros it.
  rewrite lookup_insert. case_decide as E; [|done].
  intros _. by rewrite <- E, Hv0.
Qed.

(** X15. A checkout that creates an order lowers the stock of every
    variant by exactly the units the order holds of it, changes nothing
    else of the variant rows, and never oversells: every item of the order
    has a positive quantity and leaves a stock that is not negative. *)
Theorem checkout_decrements_stock (now : Z) (db db' : DB) (user : UUID)
    (data : option OrdersApi.checkout) (o : Order.t) :
  OrdersApi.post now db user data = (db', OrdersApi.Created o) ->
  (forall vid,
      variants db' !! vid
      = (fun v => ProductVariant.set_stock v
                    (ProductVariant.stock v
                     - ordered_units vid (Order.items o)))
        <$> variants db !! vid)
  /\ Forall (covered_by_stock (variants db')) (Order.items o).
Proof.
  intros H.
  destruct (post_created _ _ _ _ _ _ H)
    as (db2 & t & m' & P & L & Hok & -> & _).
  pose proof (preconditions_inr _ _ _ _ _ _ P) as (_ & _ & Hdb & _).
  assert (Hv2 : variants db2 = variants db) by (by rewrite Hdb).
  rewrite Hv2 in L.
  destruct (order_items_loop_lookup _ _ _ _ L) as (Hid & Hq & _ & _ & Hm).
  pose proof (order_items_loop_rows _ _ _ _ L) as Hrows.
  split.
  - intros vid. simpl. rewrite Hm.
    by rewrite (ordered_units_of_lines vid _ _ Hid Hq).
  - simpl. unfold OrdersApi.commit_ok in Hok.
    apply andb_prop in Hok as [Hok Hvar]. apply andb_prop in Hok as [_ Hitems].
    rewrite forallb_forall in Hitems. unfold variants_check in Hvar.
    rewrite forallb_forall in Hvar.
    apply Forall_forall. intros oi Hoi. apply list_elem_of_In in Hoi.
    specialize (Hitems oi Hoi). unfold OrderItem.check_constraints in Hitems.
    apply andb_prop in Hitems as [Hpos _].
    split; [lia|].
    assert (Hin : In (OrderItem.variant_id oi)
                    (map CartItem.variant_id
                       (Cart.items (OrdersApi.in_cart t)))).
    { rewrite <- Hid. by apply in_map. }
    specialize (Hvar _ Hin).
    apply in_map_iff in Hin as (ci & Hci & Hcin).
    rewrite Forall_forall in Hrows.
    destruct (Hrows ci (proj2 (list_elem_of_In _ _) Hcin)) as [v Hv].
    rewrite Hci in Hv. rewrite Hm, Hv in Hvar |- *. simpl in *.
    eexists. split; [reflexivity|].
    unfold ProductVariant.check_constraints in Hvar.
    apply andb_prop in Hvar as [_ Hs]. simpl in *. lia.
Qed.

Lemma checkout_decrements_stock_witness :
  exists db' o,
    OrdersApi.post 0 big_shop 7 (Some pay_by_card)
    = (db', OrdersApi.Created o)
    /\ (ProductVariant.stock <$> variants db' !! 1) = Some 3
    /\ (ProductVariant.stock <$> variants db' !! 2) = Some 7
    /\ Forall (covered_by_stock (variants db')) (Order.items o).
Proof.
  eexists _, _.
  match goal with |- ?P /\ _ => assert (H : P) by (vm_compute; reflexivity) end.
  split_and!; [exact H | vm_compute; reflexivity | vm_compute; reflexivity |].
  exact (proj2 (checkout_decrements_stock _ _ _ _ _ _ H)).
Defined.

(** X16. A checkout that creates an order retires the user's active cart
    and nothing else: that cart becomes 'converted' with the lines it had
    (ids, variants, quantities), every other cart is as it was, and the
    orders table gains exactly the created order at its end. *)
Theorem checkout_converts_cart (now : Z) (db db' : DB) (user : UUID)
    (data : option OrdersApi.checkout) (o : Order.t) :
  OrdersApi.post now db user data = (db', OrdersApi.Created o) ->
  exists i cart0 cart',
    list_find (CartService.is_active_of_user user) (carts db) = Some (i, cart0)
    /\ carts db' !! i = Some cart'
    /\ Cart.status cart' = "converted"%string
    /\ Cart.id cart' = Cart.id cart0
    /\ map line_key (Cart.items cart') = map line_key (Cart.items cart0)
    /\ (forall j, j <> i -> carts db' !! j = carts db !! j)
    /\ length (carts db') = length (carts db)
    /\ orders db' = orders db ++ [o].
Proof.
  intros H.
  destruct (post_created _ _ _ _ _ _ H)
    as (db2 & t & m' & P & _ & _ & -> & _).
  pose proof (preconditions_inr _ _ _ _ _ _ P)
    as (cart0 & F & Hdb & _ & Hk & _).
  pose proof (preconditions_validated _ _ _ _ _ _ P)
    as (cart0' & v & F' & V & _).
  assert (cart0' = cart0) as -> by congruence.
  pose proof F as F0. apply list_find_Some in F0 as (Hi & _).
  exists (OrdersApi.in_pos t), cart0,
    (Cart.set_status (OrdersApi.in_cart t) "converted").
  rewrite Hdb. simpl. rewrite list_insert_insert_eq.
  split_and!; try done.
  - apply list_lookup_insert_eq. by eapply lookup_lt_Some.
  - unfold Cart.validate_items in V.
    destruct (Cart.validate_loop _ _) as [[[? ?] ?]|]; [|done].
    by injection V as <- <-.
  - intros j Hj. by rewrite list_lookup_insert_ne.
  - by rewrite length_insert.
Qed.

Lemma checkout_converts_cart_witness :
  exists db' o cart',
    OrdersApi.post 0 big_shop 7 (Some pay_by_card)
    = (db', OrdersApi.Created o)
    /\ carts db' !! 0%nat = Some cart'
    /\ Cart.status cart' = "converted"%string
    /\ map line_key (Cart.items cart') = map line_key two_lines
    /\ orders db' = [o].
Proof.
  eexists _, _, _.
  match goal with |- ?P /\ _ => assert (H : P) by (vm_compute; reflexivity) end.
  split; [exact H|].
  destruct (checkout_converts_cart _ _ _ _ _ _ H)
    as (i & c0 & c' & F & _ & _ & _ & _ & _ & _ & Ho).
  split_and!; [vm_compute; reflexivity | reflexivity | reflexivity |].
  exact Ho.
Defined.

(** X17. The order that a checkout creates belongs to the caller and is a
    snapshot of the cart: one item per line, in order, with the line's
    variant and quantity, priced at the current price of the variant; its
    subtotal is the sum of the item totals; and it is 'confirmed' and
    'captured' when the payment method is 'credit_card' or 'paypal', else
    'pending' and 'pending'. *)
Theorem created_order_snapshots_cart (now : Z) (db db' : DB) (user : UUID)
    (data : option OrdersApi.checkout) (o : Order.t) :
  OrdersApi.post now db user data = (db', OrdersApi.Created o) ->
  exists i cart0 d payment,
    list_find (CartService.is_active_of_user user) (carts db) = Some (i, cart0)
    /\ data = Some d
    /\ OrdersApi.payment_method d = Some payment
    /\ Order.user_id o = Some user
    /\ map order_line (Order.items o) = map cart_line (Cart.items cart0)
    /\ Forall (priced_at_variant (variants db)) (Order.items o)
    /\ Order.subtotal o
       = fold_left Qplus (map OrderItem.total (Order.items o)) 0%Q
    /\ (Order.status o, Order.payment_status o)
       = if Order.str_in payment ["credit_card"; "paypal"]%string
         then ("confirmed", "captured")%string
         else ("pending", "pending")%string.
Proof.
  intros H.
  destruct (post_created _ _ _ _ _ _ H)
    as (db2 & t & m' & P & L & _ & _ & _ & Hu & Hsub & Hst).
  pose proof (preconditions_inr _ _ _ _ _ _ P)
    as (cart0 & F & Hdb & _ & Hk & Hne & _).
  pose proof (preconditions_validated _ _ _ _ _ _ P)
    as (cart0' & v & F' & V & Hv & Hd & Hp).
  assert (cart0' = cart0) as -> by congruence.
  assert (Hv2 : variants db2 = variants db) by (by rewrite Hdb).
  rewrite Hv2 in L.
  destruct (order_items_loop_lookup _ _ _ _ L) as (Hid & Hq & Hpr & Ht & _).
  unfold Cart.validate_items in V.
  destruct (Cart.validate_loop (variants db) (Cart.items cart0))
    as [[[errs upd] l']|] eqn:VL; [|done].
  injection V as <- Hc.
  destruct (validate_loop_full _ _ _ _ _ VL) as (_ & Hsync & _).
  assert (errs = []) as -> by (simpl in Hv; by destruct errs).
  specialize (Hsync eq_refl).
  assert (Hl' : Cart.items (OrdersApi.in_cart t) = l') by (by rewrite <- Hc).
  rewrite Hl' in *.
  exists (OrdersApi.in_pos t), cart0, (OrdersApi.in_data t),
    (OrdersApi.in_payment t).
  split_and!; try done.
  - assert (Hkey : map cart_line l' = map cart_line (Cart.items cart0)).
    { clear -Hk. revert Hk. generalize (Cart.items cart0).
      induction l' as [|x l IH]; intros [|y l0] Hk; simplify_eq/=;
        [done|].
      f_equal; [|by apply IH]. unfold cart_line. congruence. }
    rewrite <- Hkey. clear -Hid Hq. revert Hid Hq. generalize (Order.items o).
    induction l' as [|x l IH]; intros [|y l0] Hid Hq; simplify_eq/=; [done|].
    f_equal; [|by apply IH]. unfold order_line, cart_line. congruence.
  - clear -Hid Hq Hpr Ht Hsync. revert Hid Hq Hpr Ht.
    generalize (Order.items o).
    induction Hsync as [|x l (v & Hv & Hp) _ IH];
      intros [|y l0] Hid Hq Hpr Ht; simplify_eq/=; constructor.
    + exists v. unfold CartItem.get_total in *.
      split_and!; [congruence | congruence |].
      match goal with E : OrderItem.total y = _ |- _ => rewrite E end.
      match goal with E : OrderItem.quantity y = _ |- _ => rewrite E end.
      by rewrite Hp.
    + by apply IH.
  - rewrite Hsub. unfold Cart.get_subtotal, Cart.sumQ.
    by rewrite Hl', Ht.
Qed.

Lemma created_order_snapshots_cart_witness :
  exists db' o,
    OrdersApi.post 0 big_shop 7 (Some pay_by_card)
    = (db', OrdersApi.Created o)
    /\ map order_line (Order.items o) = [(1, 2); (2, 1)]
    /\ (Order.subtotal o == 45)%Q
    /\ Order.status o = "confirmed"%string
    /\ Forall (priced_at_variant (variants big_shop)) (Order.items o).
Proof.
  eexists _, _.
  match goal with |- ?P /\ _ => assert (H : P) by (vm_compute; reflexivity) end.
  split; [exact H|].
  destruct (created_order_snapshots_cart _ _ _ _ _ _ H)
    as (i & c0 & d & p & _ & _ & _ & _ & _ & Hprice & _).
  split_and!; [reflexivity | reflexivity | reflexivity | exact Hprice].
Defined.

(** ** app/api/v1/orders.py: cancelling *)

Lemma units_of_nonneg (vid : UUID) (l : list CartItem.t) :
  Forall positive_line l -> 0 <= units_of vid l.
Proof.
  induction 1 as [|x l Hx _ IH]; [unfold units_of; simpl; lia|].
  rewrite units_of_cons. unfold positive_line in Hx.
  destruct (CartItem.variant_id x =? vid); lia.
Qed.

Lemma cancel_order_some (now : Z) (o : Order.t) (reason : string) :
  Order.can_be_cancelled o = true ->
  exists o1,
    Order.cancel_order now o reason = Some o1
    /\ let o' := Order.flush_metadata o o1 in
       Order.status o' = "cancelled"%string
       /\ Order.id o' = Order.id o
       /\ Order.user_id o' = Order.user_id o
       /\ Order.payment_status o' = Order.payment_status o
       /\ Order.items o' = Order.items o.
Proof.
  intros H. unfold Order.cancel_order, Order.flush_metadata. rewrite H.
  simpl.
  destruct (truthy_str reason); eexists; (split; [reflexivity|]);
    destruct (Order.truthy_meta (Order.order_metadata o));
    split_and!; done.
Qed.

(** X18. Cancelling the order that a checkout has just created puts the
    stock back: when no earlier order bears the id the new order takes,
    the customer's cancel call succeeds, the order is 'cancelled', and the
    variant table is again the one before the checkout. *)
Theorem checkout_then_cancel_restores_stock (now now' : Z) (db db1 : DB)
    (user : UUID) (data : option OrdersApi.checkout) (o : Order.t)
    (reason : option string) :
  OrdersApi.post now db user data = (db1, OrdersApi.Created o) ->
  Forall (fun o' => Order.id o' <> next_uuid db) (orders db) ->
  exists db2 o2,
    OrdersApi.cancel now' db1 user (Order.id o) reason
    = (db2, OrdersApi.Reply 200 "Order cancelled successfully")
    /\ variants db2 = variants db
    /\ orders db2 = orders db ++ [o2]
    /\ Order.status o2 = "cancelled"%string
    /\ Order.items o2 = Order.items o.
Proof.
  intros H Hfresh.
  destruct (post_created _ _ _ _ _ _ H)
    as (db2' & t & m' & P & L & Hok & -> & Hid & Hu & _ & Hst).
  pose proof (preconditions_inr _ _ _ _ _ _ P) as (_ & _ & Hdb & _).
  assert (Hv2 : variants db2' = variants db) by (by rewrite Hdb).
  assert (Ho2 : orders db2' = orders db) by (by rewrite Hdb).
  assert (Hn2 : next_uuid db2' = next_uuid db) by (by rewrite Hdb).
  rewrite Hv2 in L. rewrite Ho2.
  destruct (order_items_loop_lookup _ _ _ _ L) as (Hvid & Hq & _ & _ & Hm).
  pose proof (order_items_loop_rows _ _ _ _ L) as Hrows.
  (* the order is found *)
  set (p := fun o' => (Order.id o' =? Order.id o)
                      && bool_decide (Order.user_id o' = Some user)).
  assert (F : OrdersApi.find_order p (orders db ++ [o])
              = Some (length (orders db), o)).
  { unfold OrdersApi.find_order. apply list_find_snoc.
    - apply list_find_None. eapply Forall_impl; [exact Hfresh|].
      intros o' Hne Hp. unfold p in Hp. apply andb_prop in Hp as [Hp _].
      apply Z.eqb_eq in Hp. congruence.
    - unfold p. rewrite Z.eqb_refl. simpl. by apply bool_decide_eq_true. }
  assert (Hcan : Order.can_be_cancelled o = true).
  { unfold Order.can_be_cancelled.
    destruct (Order.str_in (OrdersApi.in_payment t) _);
      injection Hst as -> _; reflexivity. }
  destruct (cancel_order_some now' o
              (match reason with
               | Some r => r
               | None => "Customer requested cancellation"%string
               end) Hcan) as (o2 & Hc & Hs2 & _ & _ & _ & Hi2).
  (* the stock is the one before the checkout *)
  unfold OrdersApi.commit_ok in Hok.
  apply andb_prop in Hok as [Hok Hvar]. apply andb_prop in Hok as [_ Hitems].
  assert (Hpos : Forall positive_line (Cart.items (OrdersApi.in_cart t))).
  { eapply loop_quantities; [exact L | exact Hitems]. }
  assert (Hback : restore_stock m' (Order.items o) = variants db).
  { apply map_eq. intros vid. rewrite restore_stock_lookup, Hm.
    rewrite (ordered_units_of_lines vid _ _ Hvid Hq).
    destruct (variants db !! vid) as [v|]; simpl; [|done].
    f_equal. rewrite set_stock_twice. apply set_stock_same. simpl. lia. }
  assert (Hchk : variants_check (variants db)
                   (map OrderItem.variant_id (Order.items o)) = true).
  { unfold variants_check in *. rewrite Hvid.
    rewrite forallb_forall in Hvar |- *. intros vid Hin.
    specialize (Hvar vid Hin). rewrite Hm in Hvar.
    destruct (variants db !! vid) as [v|]; simpl in *; [|done].
    unfold ProductVariant.check_constraints in *. simpl in Hvar.
    apply andb_prop in Hvar as [Hprice Hs]. rewrite Hprice. simpl.
    pose proof (units_of_nonneg vid _ Hpos). lia. }
  exists (mkDB (variants db)
            (<[OrdersApi.in_pos t :=
                 Cart.set_status (OrdersApi.in_cart t) "converted"]>
               (carts db2'))
            (orders db ++ [Order.flush_metadata o o2]) (coupons db2')
            (addresses db2') (next_uuid db2' + 1)),
    (Order.flush_metadata o o2).
  split_and!; try done.
  unfold OrdersApi.cancel. cbn [orders]. fold p. rewrite F, Hcan.
  cbn [negb]. rewrite Hc. cbn [variants]. rewrite Hback, Hchk.
  do 2 f_equal. cbn [orders].
  rewrite insert_app_r_alt by lia. by rewrite Nat.sub_diag.
Qed.

Lemma checkout_then_cancel_restores_stock_witness :
  exists db1 o db2,
    OrdersApi.post 0 big_shop 7 (Some pay_by_card)
    = (db1, OrdersApi.Created o)
    /\ Forall (fun o' => Order.id o' <> next_uuid big_shop) (orders big_shop)
    /\ (ProductVariant.stock <$> variants db1 !! 1) = Some 3
    /\ OrdersApi.cancel 1 db1 7 (Order.id o) None
       = (db2, OrdersApi.Reply 200 "Order cancelled successfully")
    /\ variants db2 = variants big_shop.
Proof.
  assert (exists db1 o,
             OrdersApi.post 0 big_shop 7 (Some pay_by_card)
             = (db1, OrdersApi.Created o)) as (db1 & o & H).
  { eexists _, _. vm_compute. reflexivity. }
  assert (Hf : Forall (fun o' => Order.id o' <> next_uuid big_shop)
                 (orders big_shop)) by constructor.
  destruct (checkout_then_cancel_restores_stock 0 1 _ _ _ _ _ None H Hf)
    as (db2 & o2 & Hc & Hv & _).
  exists db1, o, db2. split_and!; [exact H | exact Hf | | exact Hc | exact Hv].
  assert (Some db1 = Some (fst (OrdersApi.post 0 big_shop 7 (Some pay_by_card))))
    as [= ->] by (by rewrite H).
  vm_compute. reflexivity.
Defined.

(** ** app/api/v1/orders.py: a checkout that is refused *)

Lemma differ_in_active_carts_refl (db : DB) : differ_in_active_carts db db.
Proof. by unfold differ_in_active_carts. Qed.

Lemma differ_in_active_carts_trans (db1 db2 db3 : DB) :
  differ_in_active_carts db1 db2 -> differ_in_active_carts db2 db3 ->
  differ_in_active_carts db1 db3.
Proof.
  intros (Hv & Ho & Hc & Ha & H1) (Hv' & Ho' & Hc' & Ha' & H2).
  unfold differ_in_active_carts. split_and!; try congruence.
  intros i c' Hi Hs. apply H1; [|done]. by apply H2.
Qed.

Lemma get_or_create_cart_differ (now : Z) (db db1 : DB) (u : option UUID)
    (s : option string) (r : option (nat * Cart.t)) :
  CartService.get_or_create_cart now db u s = (db1, r) ->
  differ_in_active_carts db db1.
Proof.
  intros G.
  destruct (get_or_create_cart_spec _ _ _ _ _ _ G)
    as (Hv & Ho & Hc & Ha & [->|(c & Hl & Hs & _)] & _);
    [apply differ_in_active_carts_refl|].
  unfold differ_in_active_carts. split_and!; try done.
  intros i c' Hi Hna. rewrite Hl in Hi.
  apply lookup_app_Some in Hi as [Hi|[_ Hi]]; [done|].
  apply list_lookup_singleton_Some in Hi as [_ <-]. done.
Qed.

Lemma store_active_cart_differ (db : DB) (i : nat) (c : Cart.t) :
  Cart.status c = "active"%string ->
  differ_in_active_carts db (CartService.store_cart db i c).
Proof.
  intros Hs. unfold differ_in_active_carts. split_and!; try done.
  intros j c' Hj Hna. simpl in Hj.
  destruct (decide (i = j)) as [->|Hne].
  - apply list_lookup_insert_Some in Hj as [(_ & <- & _)|[? _]]; done.
  - by rewrite list_lookup_insert_ne in Hj.
Qed.

Lemma validate_cart_differ (now : Z) (db db2 : DB) (u : option UUID)
    (s : option string) (v : CartService.cart_validation) :
  CartService.validate_cart now db u s = Some (db2, v) ->
  differ_in_active_carts db db2.
Proof.
  unfold CartService.validate_cart.
  destruct (CartService.get_or_create_cart now db u s) as [db1 r] eqn:G.
  pose proof (get_or_create_cart_differ _ _ _ _ _ _ G) as Hd.
  pose proof (get_or_create_cart_spec _ _ _ _ _ _ G) as (_&_&_&_&_&Hr).
  destruct r as [[i cart]|]; [|by intros [= <- _]].
  destruct (Hr i cart eq_refl) as [_ Hact].
  unfold Cart.validate_items.
  destruct (Cart.validate_loop _ _) as [[[errs upd] l']|]; [|done].
  simpl. intros [= <- _].
  destruct upd; [done|].
  eapply differ_in_active_carts_trans; [exact Hd|].
  by apply store_active_cart_differ.
Qed.

Lemma preconditions_differ (now : Z) (db db2 : DB) (user : UUID)
    (data : option OrdersApi.checkout)
    (r : OrdersApi.response + OrdersApi.txn_input) :
  OrdersApi.preconditions now db user data = (db2, r) ->
  differ_in_active_carts db db2.
Proof.
  unfold OrdersApi.preconditions.
  destruct data as [d|]; [|intros [= <- _]; apply differ_in_active_carts_refl].
  destruct (OrdersApi.shipping_address_id d) as [sid|];
    [|intros [= <- _]; apply differ_in_active_carts_refl].
  destruct (OrdersApi.billing_address_id d) as [bid|];
    [|intros [= <- _]; apply differ_in_active_carts_refl].
  destruct (negb _); [intros [= <- _]; apply differ_in_active_carts_refl|].
  destruct (CartService.get_or_create_cart now db (Some user) None)
    as [db1 [[i cart]|]] eqn:G;
    [|intros [= <- _]; by eapply get_or_create_cart_differ].
  pose proof (get_or_create_cart_differ _ _ _ _ _ _ G) as Hd.
  destruct (Cart.is_empty cart); [by intros [= <- _]|].
  destruct (CartService.validate_cart now db1 (Some user) None)
    as [[db3 v]|] eqn:V; [|by intros [= <- _]].
  apply validate_cart_differ in V.
  pose proof (differ_in_active_carts_trans _ _ _ Hd V) as Hd3.
  repeat case_match; by intros [= <- _].
Qed.

(** X20. A checkout that is answered with an error, whatever the error,
    reserves nothing and creates nothing: every stock, the orders, the
    coupons and the addresses are as before, and no cart has been
    converted (a cart that is not active afterwards is the row it was). *)
Theorem refused_checkout_changes_no_stock (now : Z) (db db' : DB)
    (user : UUID) (data : option OrdersApi.checkout) (code : Z)
    (msg : string) (details : list Cart.item_error) :
  OrdersApi.post now db user data = (db', OrdersApi.Error code msg details) ->
  variants db' = variants db /\ orders db' = orders db
  /\ coupons db' = coupons db /\ addresses db' = addresses db
  /\ forall i c', carts db' !! i = Some c' ->
       Cart.status c' <> "active"%string -> carts db !! i = Some c'.
Proof.
  unfold OrdersApi.post.
  destruct (OrdersApi.preconditions now db user data) as [db2 [r|t]] eqn:P;
    apply preconditions_differ in P.
  - by intros [= <- _].
  - unfold OrdersApi.create_order, CartService.calculate_totals.
    destruct (CartService.get_or_create_cart now db2 (Some user) None)
      as [db_t r] eqn:G.
    apply get_or_create_cart_differ in G.
    pose proof (differ_in_active_carts_trans _ _ _ P G) as Hd.
    destruct r as [[j c]|]; [|by intros [= <- _]].
    repeat case_match; intros; simplify_eq; exact Hd.
Qed.

Lemma refused_checkout_changes_no_stock_witness :
  exists db',
    OrdersApi.post 0 big_shop 8 (Some pay_by_card)
    = (db', OrdersApi.Error 400 "Cart is empty" [])
    /\ length (carts db') = 2%nat
    /\ variants db' = variants big_shop /\ orders db' = orders big_shop.
Proof.
  assert (exists db',
             OrdersApi.post 0 big_shop 8 (Some pay_by_card)
             = (db', OrdersApi.Error 400 "Cart is empty" [])) as (db' & H).
  { eexists. vm_compute. reflexivity. }
  destruct (refused_checkout_changes_no_stock _ _ _ _ _ _ _ _ H)
    as (Hv & Ho & _).
  exists db'. split_and!; [exact H | | exact Hv | exact Ho].
  assert (Some db' = Some (fst (OrdersApi.post 0 big_shop 8 (Some pay_by_card))))
    as [= ->] by (by rewrite H).
  vm_compute. reflexivity.
Defined.

(** X19. An order is cancelled once: after a cancel call that succeeded,
    a second call of the same customer for the same order is answered with
    400 'Order cannot be cancelled' and changes nothing, so the stock is
    not restored a second time. *)
Theorem cancel_twice_refused (now now' : Z) (db db1 : DB) (user id : UUID)
    (reason reason' : option string) :
  OrdersApi.cancel now db user id reason
  = (db1, OrdersApi.Reply 200 "Order cancelled successfully") ->
  OrdersApi.cancel now' db1 user id reason'
  = (db1, OrdersApi.Reply 400 "Order cannot be cancelled").
Proof.
  unfold OrdersApi.cancel.
  destruct (OrdersApi.find_order _ (orders db)) as [[i order]|] eqn:F;
    [|done].
  destruct (Order.can_be_cancelled order) eqn:Hcan; [|done]. simpl.
  destruct (cancel_order_some now order
              (match reason with
               | Some r => r
               | None => "Customer requested cancellation"%string
               end) Hcan) as (o' & -> & Hs & Hid & Hu & _).
  destruct (variants_check _ _); [|done].
  intros [= <-]. simpl.
  pose proof F as F'. unfold OrdersApi.find_order in F'.
  apply list_find_Some in F' as (_ & Hp & _).
  unfold OrdersApi.find_order.
  erewrite list_find_store; [| exact F | by rewrite Hid, Hu].
  unfold Order.can_be_cancelled. by rewrite Hs.
Qed.

Lemma cancel_twice_refused_witness :
  let db := fst (OrdersApi.post 0 big_shop 7 (Some pay_by_card)) in
  exists db1,
    OrdersApi.cancel 1 db 7 1000 None
    = (db1, OrdersApi.Reply 200 "Order cancelled successfully")
    /\ OrdersApi.cancel 2 db1 7 1000 (Some "again"%string)
       = (db1, OrdersApi.Reply 400 "Order cannot be cancelled").
Proof.
  intros db.
  assert (exists db1,
             OrdersApi.cancel 1 db 7 1000 None
             = (db1, OrdersApi.Reply 200 "Order cancelled successfully"))
    as (db1 & H).
  { eexists. vm_compute. reflexivity. }
  exists db1. split; [exact H|].
  exact (cancel_twice_refused 1 2 _ _ _ _ _ (Some "again"%string) H).
Defined.

(** ** app/api/v1/admin.py *)

(** X21. A refund by the administrator marks the order 'refunded' (status
    and payment status), adds the ordered quantity of each variant back to
    its stock, and can be done once: a second refund of the same order is
    answered with 400 'Order cannot be refunded' and changes nothing. *)
Theorem refund_restocks_once (now now' : Z) (db db1 : DB) (admin : bool)
    (id : UUID) (amount amount' : option Q) (reason reason' : option string)
    (a : Q) (st : string) :
  AdminApi.refund now db admin id amount reason
  = (db1, AdminApi.Refunded a st) ->
  exists i o o1,
    orders db !! i = Some o /\ Order.id o = id
    /\ orders db1 = <[i := o1]> (orders db)
    /\ Order.status o1 = "refunded"%string
    /\ Order.payment_status o1 = "refunded"%string
    /\ st = "refunded"%string
    /\ a = default (Order.total o) amount
    /\ (forall vid,
          variants db1 !! vid
          = (fun v => ProductVariant.set_stock v
                        (ProductVariant.stock v
                         + ordered_units vid (Order.items o)))
            <$> variants db !! vid)
    /\ AdminApi.refund now' db1 true id amount' reason'
       = (db1, AdminApi.Error 400 "Order cannot be refunded").
Proof.
  unfold AdminApi.refund, Order.flush_metadata.
  destruct admin; [|done]. simpl.
  destruct (OrdersApi.find_order _ (orders db)) as [[i order]|] eqn:F;
    [|done].
  destruct (Order.can_be_refunded order) eqn:Hcan; [|done]. simpl.
  pose proof F as F'. unfold OrdersApi.find_order in F'.
  apply list_find_Some in F' as (Hi & Hp & _). apply Z.eqb_eq in Hp.
  destruct (Order.truthy_meta (Order.order_metadata order));
    (destruct (variants_check _ _); [|done]);
    intros H; injection H as <- <- <-;
    (eexists i, order, _; split_and!; try done;
     [ intros vid; simpl; apply restore_stock_lookup
     | simpl; unfold OrdersApi.find_order;
       erewrite list_find_store;
         [| exact F | by simpl; apply Z.eqb_eq];
       done ]).
Qed.

Lemma refund_restocks_once_witness :
  exists db1,
    AdminApi.refund 30 fulfilled_shop true 500 None None
    = (db1, AdminApi.Refunded 31.59 "refunded")
    /\ (ProductVariant.stock <$> variants fulfilled_shop !! 1) = Some 5
    /\ (ProductVariant.stock <$> variants db1 !! 1) = Some 7
    /\ AdminApi.refund 31 db1 true 500 None None
       = (db1, AdminApi.Error 400 "Order cannot be refunded").
Proof.
  assert (exists db1,
             AdminApi.refund 30 fulfilled_shop true 500 None None
             = (db1, AdminApi.Refunded 31.59 "refunded")) as (db1 & H).
  { eexists. vm_compute. reflexivity. }
  destruct (refund_restocks_once 30 31 _ _ _ _ _ None _ None _ _ H)
    as (i & o & o1 & _ & _ & _ & _ & _ & _ & _ & _ & Hr).
  exists db1. split_and!; [exact H | vm_compute; reflexivity | | exact Hr].
  assert (Some db1
          = Some (fst (AdminApi.refund 30 fulfilled_shop true 500 None None)))
    as [= ->] by (by rewrite H).
  vm_compute. reflexivity.
Defined.

Lemma apply_status_variants (now : Z) (data : AdminApi.order_update)
    (new_status : string) (order : Order.t)
    (m : gmap UUID ProductVariant.t) :
  let '(o', m', written) := AdminApi.apply_status now data new_status order m in
  Order.status o' = new_status /\ Order.items o' = Order.items order
  /\ Order.id o' = Order.id order
  /\ (if (new_status =? "cancelled")%string
      then m' = restore_stock m (Order.items order)
      else m' = m).
Proof.
  unfold AdminApi.apply_status.
  destruct (new_status =? "cancelled")%string eqn:Ec.
  - apply String.eqb_eq in Ec as ->. simpl. done.
  - repeat case_match; simplify_eq; simpl; done.
Qed.

(** X22. The administrator's order update writes one order and nothing
    else, unless the new status is 'cancelled': the carts, coupons and
    addresses are never touched, the number of orders is kept, and when the
    request sets no status or a status other than 'cancelled' every stock
    is as before. *)
Theorem admin_put_touches_one_order (now : Z) (db db' : DB) (admin : bool)
    (id : UUID) (data : option AdminApi.order_update)
    (r : AdminApi.response) :
  AdminApi.put now db admin id data = (db', r) ->
  carts db' = carts db /\ coupons db' = coupons db
  /\ addresses db' = addresses db
  /\ length (orders db') = length (orders db)
  /\ (forall j o, orders db !! j = Some o -> Order.id o <> id ->
        orders db' !! j = Some o)
  /\ ((forall d, data = Some d ->
         AdminApi.u_status d <> Some "cancelled"%string) ->
      variants db' = variants db).
Proof.
  unfold AdminApi.put.
  destruct admin; [|by intros [= <- _]].
  change (negb true) with false. cbv iota.
  destruct (OrdersApi.find_order _ (orders db)) as [[i order]|] eqn:F;
    [|by intros [= <- _]].
  unfold OrdersApi.find_order in F.
  apply list_find_Some in F as (Hi & Hp & _). apply Z.eqb_eq in Hp.
  destruct data as [d|]; [|by intros [= <- _]].
  destruct (negb (AdminApi.truthy_update d)); [by intros [= <- _]|].
  destruct (AdminApi.u_status d) as [new_status|] eqn:Hs.
  - destruct (negb (Order.str_in new_status AdminApi.valid_statuses));
      cbv beta iota; [by intros [= <- _]|].
    pose proof (apply_status_variants now d new_status order (variants db))
      as Hap.
    destruct (AdminApi.apply_status now d new_status order (variants db))
      as [[o1 m1] written].
    cbv beta iota in Hap. destruct Hap as (_ & _ & _ & Hm).
    destruct (variants_check m1 written); [|by intros [= <- _]].
    intros [= <- _]. simpl. split_and!; try done.
    + by rewrite length_insert.
    + intros j o Hj Hne. rewrite list_lookup_insert_ne; [done|].
      intros ->. congruence.
    + intros Hnc. destruct (new_status =? "cancelled")%string eqn:Ec;
        [|done].
      apply String.eqb_eq in Ec as ->. by destruct (Hnc d eq_refl).
  - simpl. intros [= <- _]. simpl. split_and!; try done.
    + by rewrite length_insert.
    + intros j o Hj Hne. rewrite list_lookup_insert_ne; [done|].
      intros ->. congruence.
Qed.

Lemma admin_put_touches_one_order_witness :
  let r := AdminApi.put 30 fulfilled_shop true 500
             (Some (set_status_request "pending")) in
  snd r = AdminApi.Updated (Order.set_status delivered_order "pending")
  /\ carts (fst r) = carts fulfilled_shop
  /\ variants (fst r) = variants fulfilled_shop.
Proof.
  intros r.
  destruct (admin_put_touches_one_order 30 fulfilled_shop (fst r) true 500
              (Some (set_status_request "pending")) (snd r))
    as (Hc & _ & _ & _ & _ & Hv).
  - apply surjective_pairing.
  - split_and!; [vm_compute; reflexivity | exact Hc |].
    apply Hv. intros d [= <-]. simpl. discriminate.
Defined.

(** X23. Setting an order to 'cancelled' through the administrator's
    update restores stock whatever the order's status was: each time such
    an update is accepted, every variant gets the quantity ordered of it
    added again - also for an order that was cancelled already. *)
Theorem admin_put_cancelled_restocks (now : Z) (db db' : DB) (id : UUID)
    (d : AdminApi.order_update) (o' : Order.t) :
  AdminApi.u_status d = Some "cancelled"%string ->
  AdminApi.put now db true id (Some d) = (db', AdminApi.Updated o') ->
  Order.status o' = "cancelled"%string
  /\ Order.id o' = id
  /\ (forall vid,
        variants db' !! vid
        = (fun v => ProductVariant.set_stock v
                      (ProductVariant.stock v
                       + ordered_units vid (Order.items o')))
          <$> variants db !! vid)
  /\ forall now' db'' o'',
       AdminApi.put now' db' true id (Some d) = (db'', AdminApi.Updated o'') ->
       forall vid,
         ProductVariant.stock <$> variants db'' !! vid
         = (fun v => ProductVariant.stock v
                     + 2 * ordered_units vid (Order.items o'))
           <$> variants db !! vid.
Proof.
  assert (Step : forall now db db' o',
            AdminApi.u_status d = Some "cancelled"%string ->
            AdminApi.put now db true id (Some d) = (db', AdminApi.Updated o') ->
            exists i o, list_find (fun o => (Order.id o =? id) = true)
                          (orders db) = Some (i, o)
              /\ orders db' = <[i := o']> (orders db)
              /\ Order.status o' = "cancelled"%string
              /\ Order.id o' = id
              /\ Order.items o' = Order.items o
              /\ variants db' = restore_stock (variants db) (Order.items o)).
  { clear. intros now db db' o' Hs. unfold AdminApi.put. simpl.
    unfold OrdersApi.find_order.
    destruct (list_find _ (orders db)) as [[i order]|] eqn:F; [|done].
    pose proof F as F'.
    apply list_find_Some in F' as (Hi & Hp & _). apply Z.eqb_eq in Hp.
    destruct (negb (AdminApi.truthy_update d)); [done|].
    rewrite Hs. simpl.
    destruct (variants_check _ _); [|done].
    intros [= <- <-]. exists i, order. simpl.
    split_and!; try done; unfold Order.flush_metadata;
      repeat case_match; done. }
  intros Hs H.
  destruct (Step _ _ _ _ Hs H) as (i & o & F & Ho & Hst & Hid & Hit & Hv).
  split_and!; try done.
  - intros vid. rewrite Hv, Hit. apply restore_stock_lookup.
  - intros now' db'' o'' H2.
    destruct (Step _ _ _ _ Hs H2) as (i2 & o2 & F2 & _ & _ & _ & _ & Hv2).
    rewrite Ho in F2.
    erewrite list_find_store in F2; [| exact F | by apply Z.eqb_eq].
    injection F2 as _ <-. intros vid.
    rewrite Hv2, restore_stock_lookup, Hv, restore_stock_lookup, Hit.
    destruct (variants db !! vid) as [v|]; simpl; [|done].
    f_equal. lia.
Qed.

Lemma admin_put_cancelled_restocks_witness :
  let d := set_status_request "cancelled" in
  let r1 := AdminApi.put 30 fulfilled_shop true 500 (Some d) in
  let r2 := AdminApi.put 31 (fst r1) true 500 (Some d) in
  (ProductVariant.stock <$> variants fulfilled_shop !! 1) = Some 5
  /\ (ProductVariant.stock <$> variants (fst r1) !! 1) = Some 7
  /\ (ProductVariant.stock <$> variants (fst r2) !! 1) = Some 9.
Proof.
  intros d r1 r2.
  assert (H1 : exists o', r1 = (fst r1, AdminApi.Updated o')).
  { eexists. vm_compute. reflexivity. }
  destruct H1 as (o' & H1).
  assert (H2 : exists o'', r2 = (fst r2, AdminApi.Updated o'')).
  { eexists. vm_compute. reflexivity. }
  destruct H2 as (o'' & H2).
  destruct (admin_put_cancelled_restocks 30 fulfilled_shop (fst r1) 500 d o'
              eq_refl H1) as (_ & _ & _ & Htwice).
  split_and!; [vm_compute; reflexivity | vm_compute; reflexivity |].
  etrans; [exact (Htwice 31 (fst r2) o'' H2 1)|].
  assert (Some o' = Some (Order.set_status delivered_order "cancelled"))
    as [= ->].
  { assert (E : snd r1 = AdminApi.Updated o') by (by rewrite H1).
    vm_compute in E. injection E as <-. reflexivity. }
  vm_compute. reflexivity.
Defined.

(** ** The amounts of a created order *)

Lemma post_created_amounts (now : Z) (db db' : DB) (user : UUID)
    (data : option OrdersApi.checkout) (o : Order.t) :
  OrdersApi.post now db user data = (db', OrdersApi.Created o) ->
  exists cart addr,
    Cart.is_empty cart = false
    /\ Forall (price_synced (variants db)) (Cart.items cart)
    /\ map OrderItem.total (Order.items o)
       = map CartItem.get_total (Cart.items cart)
    /\ Order.subtotal o = Cart.get_subtotal cart
    /\ Order.tax_amount o
       = numeric_10_2 ((Cart.get_subtotal cart - 0.00) * 0.08)
    /\ Order.shipping_amount o = CartService._calculate_shipping cart addr
    /\ Order.discount_amount o = 0.00%Q
    /\ Order.total o
       = numeric_10_2
           (Cart.get_subtotal cart + (Cart.get_subtotal cart - 0.00) * 0.08
            + CartService._calculate_shipping cart addr - 0.00).
Proof.
  unfold OrdersApi.post.
  destruct (OrdersApi.preconditions now db user data) as [db2 [r|t]] eqn:P.
  { apply preconditions_inl in P as (code & msg & details & ->). done. }
  pose proof (get_or_create_cart_in_txn now now _ _ _ _ _ P) as G.
  pose proof (preconditions_inr _ _ _ _ _ _ P)
    as (cart0 & F & _ & _ & _ & Hne & _).
  pose proof (preconditions_validated _ _ _ _ _ _ P)
    as (cart0' & v & F' & V & Hv & _).
  assert (cart0' = cart0) as -> by congruence.
  assert (Hsync : Forall (price_synced (variants db))
                    (Cart.items (OrdersApi.in_cart t))).
  { unfold Cart.validate_items in V.
    destruct (Cart.validate_loop (variants db) (Cart.items cart0))
      as [[[errs upd] l']|] eqn:VL; [|done].
    injection V as <- <-. simpl.
    destruct (validate_loop_full _ _ _ _ _ VL) as (_ & Hsync & _).
    apply Hsync. simpl in Hv. by destruct errs. }
  unfold OrdersApi.create_order, CartService.calculate_totals. rewrite G.
  rewrite cart_totals_lines by done.
  destruct (negb (Order.check_constraints _)); [done|].
  destruct (OrdersApi.order_items_loop _ _) as [[ois m']|] eqn:L; [|done].
  destruct (order_items_loop_lookup _ _ _ _ L) as (_ & _ & _ & Ht & _).
  destruct (Order.str_in (OrdersApi.in_payment t) _);
    (destruct (OrdersApi.commit_ok _ _ _); [|done]);
    intros [= <- <-];
    exists (OrdersApi.in_cart t),
      (OrdersApi.shipping_address_id (OrdersApi.in_data t));
    split_and!; done.
Qed.

Lemma subtotal_two_places (m : gmap UUID ProductVariant.t) (c : Cart.t) :
  prices_two_places m -> Forall (price_synced m) (Cart.items c) ->
  two_places (Cart.get_subtotal c).
Proof.
  intros Hm Hl. unfold Cart.get_subtotal, Cart.sumQ.
  apply two_places_sum. apply Forall_map.
  eapply Forall_impl; [exact Hl|]. intros item (v & Hv & Hp).
  unfold CartItem.get_total. apply two_places_mult_Z.
  eapply two_places_Qeq; [symmetry; exact Hp|]. exact (Hm _ _ Hv).
Qed.

Lemma calculate_shipping_two_places (c : Cart.t) (addr : option UUID) :
  two_places (CartService._calculate_shipping c addr).
Proof.
  unfold CartService._calculate_shipping.
  destruct (Qle_bool _ _); [by exists 0 | by exists 999].
Qed.

(** C3. An order created by checkout has, in the amounts it holds,
    [total = subtotal + tax_amount + shipping_amount - discount_amount],
    and its total is not negative (the insert is subject to
    [check_positive_total]); it is the last row of the orders table. The
    prices of the variants are values of their [Numeric(10, 2)] column:
    the tax and the total are rounded when they are written, and the
    rounding of the total is the rounding of the tax because the other
    amounts have two places. *)
Theorem created_order_total (now : Z) (db db' : DB) (user : UUID)
    (data : option OrdersApi.checkout) (o : Order.t) :
  OrdersApi.post now db user data = (db', OrdersApi.Created o) ->
  prices_two_places (variants db) ->
  (Order.total o
   == Order.subtotal o + Order.tax_amount o + Order.shipping_amount o
      - Order.discount_amount o)%Q
  /\ (0 <= Order.total o)%Q
  /\ last (orders db') = Some o.
Proof.
  intros H Hp.
  assert (Hlast : (0 <= Order.total o)%Q /\ last (orders db') = Some o).
  { revert H. unfold OrdersApi.post.
    destruct (OrdersApi.preconditions now db user data)
      as [db2 [r|t]] eqn:P.
    - apply preconditions_inl in P as (code & msg & details & ->). done.
    - apply create_order_created. }
  split; [|exact Hlast]. clear Hlast.
  destruct (post_created_amounts _ _ _ _ _ _ H)
    as (cart & addr & _ & Hsync & _ & -> & -> & -> & -> & ->).
  pose proof (subtotal_two_places _ _ Hp Hsync) as HS.
  pose proof (calculate_shipping_two_places cart addr) as HSh.
  set (S := Cart.get_subtotal cart) in *.
  set (Sh := CartService._calculate_shipping cart addr) in *.
  set (T := ((S - 0.00) * 0.08)%Q).
  rewrite (numeric_10_2_comp (S + T + Sh - 0.00) ((S + Sh - 0.00) + T))
    by ring.
  rewrite numeric_10_2_shift.
  - ring.
  - apply two_places_minus; [by apply two_places_plus | by exists 0].
Qed.

Lemma created_order_total_witness :
  exists db' o,
    OrdersApi.post 0 priced_shop 7 (Some pay_by_card)
    = (db', OrdersApi.Created o)
    /\ prices_two_places (variants priced_shop)
    /\ (Order.subtotal o == 10.10)%Q
    /\ (Order.tax_amount o == 0.81)%Q
    /\ (Order.shipping_amount o == 9.99)%Q
    /\ (Order.total o == 20.90)%Q
    /\ (Order.total o
        == Order.subtotal o + Order.tax_amount o + Order.shipping_amount o
           - Order.discount_amount o)%Q.
Proof.
  assert (exists db' o,
             OrdersApi.post 0 priced_shop 7 (Some pay_by_card)
             = (db', OrdersApi.Created o)) as (db' & o & H).
  { eexists _, _. vm_compute. reflexivity. }
  assert (Hp : prices_two_places (variants priced_shop)).
  { apply map_Forall_singleton. by exists 1010. }
  destruct (created_order_total _ _ _ _ _ _ H Hp) as (Heq & _ & _).
  assert (E : snd (OrdersApi.post 0 priced_shop 7 (Some pay_by_card))
              = OrdersApi.Created o) by (by rewrite H).
  exists db', o.
  split_and!; [exact H | exact Hp | | | | | exact Heq];
    vm_compute in E; injection E as <-; reflexivity.
Defined.

(** X27. [Order.calculate_totals] does not reproduce the amounts that the
    checkout stored in the order. Recomputed on a created order, the
    subtotal and the discount are the same; the tax is the unrounded 8% of
    the subtotal, of which the stored tax is the rounding to two places;
    and shipping is free only above 50, not from 50: the shipping amount
    is the same unless the subtotal is exactly 50, where the order has 0
    and the recomputation gives 9.99. *)
Theorem recalculated_order_totals (now : Z) (db db' : DB) (user : UUID)
    (data : option OrdersApi.checkout) (o : Order.t) :
  OrdersApi.post now db user data = (db', OrdersApi.Created o) ->
  let o' := Order.calculate_totals o in
  Order.subtotal o' = Order.subtotal o
  /\ Order.discount_amount o' = Order.discount_amount o
  /\ (Order.tax_amount o' == Order.subtotal o * 0.08)%Q
  /\ Order.tax_amount o = numeric_10_2 (Order.tax_amount o')
  /\ (~ (Order.subtotal o == 50)%Q ->
      Order.shipping_amount o' = Order.shipping_amount o)
  /\ ((Order.subtotal o == 50)%Q ->
      Order.shipping_amount o = 0.00%Q /\ Order.shipping_amount o' = 9.99%Q).
Proof.
  intros H.
  destruct (post_created_amounts _ _ _ _ _ _ H)
    as (cart & addr & _ & _ & Hit & Hsub & Htax & Hship & Hdis & _).
  assert (Hs : fold_left Qplus (map OrderItem.total (Order.items o)) 0%Q
               = Order.subtotal o).
  { by rewrite Hsub, Hit. }
  assert (H50 : (50.00 == 50)%Q) by reflexivity.
  unfold Order.calculate_totals. simpl. rewrite Hs.
  split_and!; try done.
  - rewrite Htax, <- Hsub. apply numeric_10_2_comp. ring.
  - intros Hne. rewrite Hship. unfold CartService._calculate_shipping.
    rewrite <- Hsub.
    destruct (Qltb 50 (Order.subtotal o)) eqn:E.
    + apply Qltb_true in E. apply Qlt_le_weak in E. rewrite <- H50 in E.
      apply Qle_bool_iff in E. by rewrite E.
    + apply Qltb_false in E.
      destruct (Qle_bool 50.00 (Order.subtotal o)) eqn:E'; [|done].
      apply Qle_bool_iff in E'. rewrite H50 in E'.
      destruct Hne. by apply Qle_antisym.
  - intros He. rewrite Hship. unfold CartService._calculate_shipping.
    rewrite <- Hsub. split.
    + assert (E : Qle_bool 50.00 (Order.subtotal o) = true).
      { apply Qle_bool_iff. rewrite He, H50. apply Qle_refl. }
      by rewrite E.
    + assert (E : Qltb 50 (Order.subtotal o) = false).
      { apply Qltb_false. rewrite He. apply Qle_refl. }
      by rewrite E.
Qed.

Lemma recalculated_order_totals_witness :
  exists db' o,
    OrdersApi.post 0 (shop [CartItem.mk 200 1 5 10.00]) 7 (Some pay_by_card)
    = (db', OrdersApi.Created o)
    /\ (Order.subtotal o == 50)%Q
    /\ Order.shipping_amount o = 0.00%Q
    /\ Order.shipping_amount (Order.calculate_totals o) = 9.99%Q
    /\ Order.tax_amount o = numeric_10_2 (Order.tax_amount
                                            (Order.calculate_totals o)).
Proof.
  assert (exists db' o,
             OrdersApi.post 0 (shop [CartItem.mk 200 1 5 10.00]) 7
               (Some pay_by_card)
             = (db', OrdersApi.Created o)) as (db' & o & H).
  { eexists _, _. vm_compute. reflexivity. }
  assert (Hs : (Order.subtotal o == 50)%Q).
  { assert (E : snd (OrdersApi.post 0 (shop [CartItem.mk 200 1 5 10.00]) 7
                       (Some pay_by_card)) = OrdersApi.Created o)
      by (by rewrite H).
    vm_compute in E. injection E as <-. reflexivity. }
  destruct (recalculated_order_totals _ _ _ _ _ _ H)
    as (_ & _ & _ & Ht & _ & H50).
  exists db', o.
  split_and!; [exact H | exact Hs | apply H50, Hs | apply H50, Hs | exact Ht].
Defined.

(** ** app/models/discount.py: status and usage of a coupon *)

(** X24. A coupon that [is_valid] accepts, for whatever cart total and
    user, has the status 'active': [get_status] reports 'inactive',
    'expired' or 'exhausted' only for coupons that [is_valid] rejects. *)
Theorem valid_coupon_has_active_status (c : Coupon.t) (now : Z)
    (cart_total : option Q) (user_id : option UUID) :
  Coupon.valid (Coupon.is_valid c now cart_total user_id) = true ->
  Coupon.get_status c now = "active"%string.
Proof.
  rewrite is_valid_valid, is_valid_errors. unfold Coupon.get_status.
  intros H.
  destruct (negb (Coupon.is_active c)); [done|]. simpl in H.
  apply app_eq_nil in H as [_ H].
  apply app_eq_nil in H as [H1 H].
  apply app_eq_nil in H as [H2 _].
  destruct (match Coupon.valid_until c with
            | Some u => now >? u | None => false end); [done|].
  by destruct (match Coupon.usage_limit c with
               | Some l => truthy_Z l && (Coupon.usage_count c >=? l)
               | None => false end).
Qed.

Lemma valid_coupon_has_active_status_witness :
  Coupon.valid (Coupon.is_valid save10 5 (Some 45.00%Q) (Some 7)) = true
  /\ Coupon.get_status save10 5 = "active"%string.
Proof.
  split; [vm_compute; reflexivity|].
  apply (valid_coupon_has_active_status save10 5 (Some 45.00%Q) (Some 7)).
  vm_compute. reflexivity.
Defined.

(** X26. Counting a use that reaches the usage limit exhausts the coupon:
    when the limit is set and not zero and [increment_usage] brings the
    count to it or beyond, [is_valid] rejects the coupon with 'Coupon usage
    limit exceeded' for every cart and user, and an active coupon that has
    not expired gets the status 'exhausted'. *)
Theorem increment_usage_exhausts (c : Coupon.t) (now limit : Z)
    (cart_total : option Q) (user_id : option UUID) :
  Coupon.usage_limit c = Some limit -> limit <> 0 ->
  limit <= Coupon.usage_count c + 1 ->
  let c' := Coupon.increment_usage c in
  Coupon.valid (Coupon.is_valid c' now cart_total user_id) = false
  /\ In Coupon.UsageLimitExceeded
        (Coupon.errors (Coupon.is_valid c' now cart_total user_id))
  /\ (Coupon.is_active c = true ->
      (forall u, Coupon.valid_until c = Some u -> now <= u) ->
      Coupon.get_status c' now = "exhausted"%string).
Proof.
  intros Hl Hz Hle c'.
  assert (E : (truthy_Z limit && (Coupon.usage_count c' >=? limit)) = true).
  { unfold truthy_Z. apply andb_true_intro. split.
    - apply negb_true_iff, Z.eqb_neq. done.
    - simpl. apply Z.geb_le. lia. }
  assert (Hin : In Coupon.UsageLimitExceeded
                  (Coupon.errors (Coupon.is_valid c' now cart_total user_id))).
  { rewrite is_valid_errors. simpl Coupon.usage_limit. rewrite Hl, E.
    rewrite !in_app_iff. right; right; right; left. by left. }
  split_and!; [|done|].
  - apply not_true_is_false. rewrite is_valid_valid. intros Hnil.
    rewrite Hnil in Hin. done.
  - intros Ha Hu. unfold Coupon.get_status. simpl Coupon.is_active.
    simpl Coupon.valid_until. simpl Coupon.usage_limit.
    rewrite Ha, Hl, E. simpl.
    destruct (Coupon.valid_until c) as [u|]; [|done].
    specialize (Hu u eq_refl).
    assert ((now >? u) = false) as ->
      by (rewrite Z.gtb_ltb; apply Z.ltb_ge; lia).
    done.
Qed.

Lemma increment_usage_exhausts_witness :
  let c := Coupon.mk 303 "ONCE" "fixed" 5.00 None None (Some 1) 1 0 None
             (Some 100) true [] in
  Coupon.get_status c 5 = "active"%string
  /\ Coupon.valid
       (Coupon.is_valid (Coupon.increment_usage c) 5 (Some 45.00%Q) None)
     = false
  /\ Coupon.get_status (Coupon.increment_usage c) 5 = "exhausted"%string.
Proof.
  intros c.
  destruct (increment_usage_exhausts c 5 1 (Some 45.00%Q) None)
    as (Hv & _ & Hs); [reflexivity | lia | simpl; lia |].
  split_and!; [vm_compute; reflexivity | exact Hv |].
  apply Hs; [reflexivity|]. intros u [= <-]. lia.
Defined.

(** X25. With a coupon whose value and maximum are not negative, the
    discount for a cart total that is not negative is not negative, and a
    larger cart total never gets a smaller discount. *)
Theorem calculate_discount_monotone (c : Coupon.t) (total total' : Q) :
  (0 <= Coupon.discount_value c)%Q ->
  (forall m, Coupon.maximum_discount c = Some m -> 0 <= m)%Q ->
  (0 <= total)%Q -> (total <= total')%Q ->
  (0 <= Coupon.calculate_discount c total)%Q
  /\ (Coupon.calculate_discount c total
      <= Coupon.calculate_discount c total')%Q.
Proof.
  intros Hv Hm Ht Hle.
  assert (Hr : (0 <= Coupon.discount_value c / 100)%Q).
  { apply Qle_shift_div_l; [reflexivity|]. by rewrite Qmult_0_l. }
  assert (Hp : (0 <= total * (Coupon.discount_value c / 100))%Q)
    by (by apply Qmult_le_0_compat).
  assert (Hpp : (total * (Coupon.discount_value c / 100)
                 <= total' * (Coupon.discount_value c / 100))%Q)
    by (by apply Qmult_le_compat_r).
  unfold Coupon.calculate_discount. cbv zeta.
  set (r := (Coupon.discount_value c / 100)%Q) in *.
  destruct (Coupon.maximum_discount c) as [m|] eqn:Em;
    [specialize (Hm m eq_refl)|];
    repeat match goal with
    | |- context [if (?a =? ?b)%string then _ else _] =>
        destruct (a =? b)%string
    | |- context [truthy_Q ?m && Qltb ?x ?y] =>
        destruct (truthy_Q m); cbn [andb]
    | |- context [Qltb ?x ?y] =>
        let E := fresh "E" in
        destruct (Qltb x y) eqn:E;
        [apply Qltb_true in E | apply Qltb_false in E]
    | H : context [Qltb ?x ?y] |- _ =>
        let E := fresh "E" in
        destruct (Qltb x y) eqn:E;
        [apply Qltb_true in E | apply Qltb_false in E]
    end;
    split; lra.
Qed.

Lemma calculate_discount_monotone_witness :
  (0 <= Coupon.calculate_discount save10 45.00)%Q
  /\ (Coupon.calculate_discount save10 45.00
      <= Coupon.calculate_discount save10 80.00)%Q.
Proof.
  apply calculate_discount_monotone.
  - vm_compute. discriminate.
  - intros m. vm_compute. discriminate.
  - vm_compute. discriminate.
  - vm_compute. discriminate.
Defined.

(** ** app/api/v1/orders.py: the pages of the order history *)

Lemma chunks_concat {A} (n k : nat) (l : list A) :
  (length l <= k * n)%nat ->
  concat (map (fun i => take n (drop (i * n) l)) (seq 0 k)) = l.
Proof.
  revert l. induction k as [|k IH]; intros l Hl.
  - destruct l as [|x l]; [done|]. simpl in Hl. lia.
  - cbn [seq map concat]. rewrite <- seq_shift, map_map.
    rewrite drop_0.
    rewrite <- (take_drop n l) at 2. f_equal.
    rewrite <- (IH (drop n l)) by (rewrite length_drop; lia).
    f_equal. apply map_ext. intros i. f_equal.
    rewrite drop_drop. f_equal; lia.
Qed.

(** X28. The pages of the order history partition the rows selected: for a
    limit that the endpoint accepts, the pages 1 to 'pages', one after the
    other, are exactly the rows, each row once and in order; the last of
    them is not empty when there are rows, and every page after it is. *)
Theorem pages_partition_rows {A} (l : list A) (page limit : Z) :
  OrdersApi.valid_pagination page limit = true ->
  let total := Z.of_nat (length l) in
  let n := OrdersApi.pages total limit in
  concat (map (fun p => OrdersApi.page_rows l (Z.of_nat p) limit)
            (seq 1 (Z.to_nat n))) = l
  /\ (l <> [] -> OrdersApi.page_rows l n limit <> [])
  /\ (forall p, n < p -> OrdersApi.page_rows l p limit = []).
Proof.
  intros Hv total n. unfold OrdersApi.valid_pagination in Hv.
  apply negb_true_iff in Hv. apply orb_false_elim in Hv as [Hv _].
  apply orb_false_elim in Hv as [_ Hlim]. apply Z.ltb_ge in Hlim.
  assert (Hn0 : 0 <= n).
  { unfold n, OrdersApi.pages. apply Z.div_pos; lia. }
  assert (Hup : total <= n * limit).
  { unfold n, OrdersApi.pages.
    pose proof (Z.mul_succ_div_gt (total + limit - 1) limit ltac:(lia)).
    lia. }
  assert (Hlow : (n - 1) * limit < total \/ total = 0).
  { unfold n, OrdersApi.pages.
    pose proof (Z.mul_div_le (total + limit - 1) limit ltac:(lia)).
    lia. }
  assert (Ht : total = Z.of_nat (length l)) by reflexivity.
  clearbody n. clearbody total.
  split_and!.
  - rewrite <- seq_shift, map_map.
    etrans; [|apply (chunks_concat (Z.to_nat limit) (Z.to_nat n) l); nia].
    f_equal. apply map_ext. intros i.
    unfold OrdersApi.page_rows, OrdersApi.page_offset. do 2 f_equal. nia.
  - intros Hne. unfold OrdersApi.page_rows, OrdersApi.page_offset.
    intros Hnil. apply (f_equal length) in Hnil.
    rewrite length_take, length_drop in Hnil. simpl in Hnil.
    assert (0 < total) by (rewrite Ht; destruct l; [done | simpl; lia]).
    nia.
  - intros p Hp. unfold OrdersApi.page_rows, OrdersApi.page_offset.
    rewrite drop_ge; [by rewrite take_nil|]. nia.
Qed.

Lemma pages_partition_rows_witness :
  OrdersApi.pages 5 2 = 3
  /\ map (fun p => OrdersApi.page_rows [10; 11; 12; 13; 14] (Z.of_nat p) 2)
       (seq 1 3)
     = [[10; 11]; [12; 13]; [14]]
  /\ OrdersApi.page_rows [10; 11; 12; 13; 14] 4 2 = [].
Proof.
  destruct (pages_partition_rows [10; 11; 12; 13; 14] 1 2 eq_refl)
    as (_ & _ & Hafter).
  split_and!; [reflexivity | reflexivity |].
  apply Hafter. vm_compute. reflexivity.
Defined.

(** ** app/api/v1/orders.py: what a checkout leaves alone *)

(** X29. A checkout never records the use of a coupon: whatever it
    answers, the coupons (and with them every [usage_count] and usage
    list) and the addresses are the ones before the call, so every coupon
    code is afterwards as valid or invalid as it was, for any time, total
    and user. *)
Theorem checkout_records_no_coupon_usage (now : Z) (db db' : DB)
    (user : UUID) (data : option OrdersApi.checkout)
    (r : OrdersApi.response) :
  OrdersApi.post now db user data = (db', r) ->
  coupons db' = coupons db /\ addresses db' = addresses db
  /\ forall code now' total u,
       (fun c => Coupon.is_valid c now' total u)
         <$> CartService.find_coupon code (coupons db')
       = (fun c => Coupon.is_valid c now' total u)
           <$> CartService.find_coupon code (coupons db).
Proof.
  intros H.
  assert (Hc : coupons db' = coupons db /\ addresses db' = addresses db).
  { revert H. unfold OrdersApi.post.
    destruct (OrdersApi.preconditions now db user data) as [db2 [e|t]] eqn:P;
      pose proof (preconditions_differ _ _ _ _ _ _ P) as (_ & _ & Hc & Ha & _).
    - by intros [= <- _].
    - unfold OrdersApi.create_order, CartService.calculate_totals.
      destruct (CartService.get_or_create_cart now db2 (Some user) None)
        as [db_t g] eqn:G.
      pose proof (get_or_create_cart_differ _ _ _ _ _ _ G)
        as (_ & _ & Hc' & Ha' & _).
      destruct g as [[j c]|]; [|intros [= <- _]; split; congruence].
      repeat case_match; intros; simplify_eq; simpl; split; congruence. }
  destruct Hc as [Hc Ha]. split_and!; [done | done |].
  intros code now' total u. by rewrite Hc.
Qed.

Lemma checkout_records_no_coupon_usage_witness :
  let r := OrdersApi.post 0 big_shop 7 (Some pay_by_card) in
  (exists o, snd r = OrdersApi.Created o)
  /\ coupons (fst r) = coupons big_shop.
Proof.
  intros r. split; [eexists; vm_compute; reflexivity|].
  apply (checkout_records_no_coupon_usage 0 big_shop (fst r) 7
           (Some pay_by_card) (snd r)).
  apply surjective_pairing.
Defined.
